(** * c3aidatalake: the pagination, batching and reshaping layer

    A shallow embedding of [c3aidatalake.py] ([read_data_json], [fetch],
    [evalmetrics], [getprojectionhistory]) together with the parts of the
    Python runtime and of pandas 1.x that the four functions call.

    - JSON values are the inductive [json]; a Python [dict] is an
      association list with unique keys kept in insertion order.
    - A raised exception is a value of [pyerror]; pure library calls return
      [res], code that talks to the server runs in the monad [M], whose
      state is the server and the list of calls made so far.
    - A pandas [DataFrame] is a list of index labels and a list of named
      columns (duplicate column names are possible, as in pandas). *)

From Stdlib Require Import List String Ascii ZArith Bool Arith Lia.
Import ListNotations.
Local Open Scope string_scope.
Local Open Scope list_scope.

Set Implicit Arguments.
Set Warnings "-register-all".

(** ** JSON values and Python exceptions *)

(** The value of [response.json()].  Numbers are integers: the only numbers
    the client itself creates are [limit] and [offset]. *)
Inductive json : Type :=
| JNull
| JBool (b : bool)
| JNum (n : Z)
| JStr (s : string)
| JArr (l : list json)
| JObj (d : list (string * json)).

Definition dict (V : Type) : Type := list (string * V).

Inductive pyerror : Type :=
| Exception (message : json)  (* [raise Exception(...)] of [read_data_json] *)
| KeyError (key : string)
| IndexError
| TypeError
| AttributeError
| ValueError                  (* also pandas' reindexing and parsing errors *)
| ConnectionError.

Inductive res (A : Type) : Type :=
| Ok (a : A)
| Err (e : pyerror).
Arguments Ok {A} a.
Arguments Err {A} e.

Definition res_bind {A B} (r : res A) (k : A -> res B) : res B :=
  match r with
  | Ok a => k a
  | Err e => Err e
  end.

Declare Scope res_scope.
Delimit Scope res_scope with res.
Notation "x <- r ;; k" := (res_bind r (fun x => k))
  (at level 61, r at next level, right associativity) : res_scope.

(** ** Python built-ins *)

Module Py.

(** [sub in s] on strings. *)
Fixpoint contains (sub s : string) : bool :=
  String.prefix sub s ||
  match s with
  | EmptyString => false
  | String _ s' => contains sub s'
  end.

(** [s.replace(old, new)]: one scan from the left; each occurrence found
    is replaced and the scan goes on after it. [skip] counts the
    characters of the occurrence still to be passed over. *)
Fixpoint replace_from (old new : string) (skip : nat) (s : string) : string :=
  match s with
  | EmptyString => EmptyString
  | String c s' =>
      match skip with
      | S k => replace_from old new k s'
      | O =>
          if String.prefix old s
          then new ++ replace_from old new (String.length old - 1) s'
          else String c (replace_from old new 0 s')
      end
  end.

Fixpoint intersperse (new s : string) : string :=
  match s with
  | EmptyString => new
  | String c s' => new ++ String c (intersperse new s')
  end.

Definition replace (s old new : string) : string :=
  match old with
  | EmptyString => intersperse new s
  | _ => replace_from old new 0 s
  end.

(** Truth value of an object, as tested by [while has_more]. *)
Definition truthy (j : json) : bool :=
  match j with
  | JNull => false
  | JBool b => b
  | JNum n => negb (n =? 0)%Z
  | JStr s => negb (String.eqb s "")
  | JArr l => negb (Nat.eqb (List.length l) 0)
  | JObj d => negb (Nat.eqb (List.length d) 0)
  end.

(** *** dict operations (keys unique, insertion order kept) *)

Fixpoint get {V} (k : string) (d : dict V) : option V :=
  match d with
  | [] => None
  | (k', v) :: d' => if String.eqb k k' then Some v else get k d'
  end.

(** [d[k] = v]: an existing key keeps its place. *)
Fixpoint set {V} (k : string) (v : V) (d : dict V) : dict V :=
  match d with
  | [] => [(k, v)]
  | (k', v') :: d' =>
      if String.eqb k k' then (k, v) :: d' else (k', v') :: set k v d'
  end.

Fixpoint pop {V} (k : string) (d : dict V) : dict V :=
  match d with
  | [] => []
  | (k', v') :: d' => if String.eqb k k' then d' else (k', v') :: pop k d'
  end.

(** [d.update(kvs)], the pairs taken in order. *)
Definition update {V} (d kvs : dict V) : dict V :=
  fold_left (fun acc kv => set (fst kv) (snd kv) acc) kvs d.

(** [x[key]] for a string key. *)
Definition getitem (x : json) (key : string) : res json :=
  match x with
  | JObj d =>
      match get key d with
      | Some v => Ok v
      | None => Err (KeyError key)
      end
  | _ => Err TypeError
  end.

(** A [string] holds a text as its UTF-8 bytes, while Python counts and
    slices a [str] by code points.  A byte [10xxxxxx] continues the code
    point begun before it; [code_points] cuts a string into its code
    points. *)
Definition is_continuation (c : ascii) : bool :=
  match c with
  | Ascii _ _ _ _ _ _ false true => true
  | _ => false
  end.

Definition continues (s : string) : bool :=
  match s with
  | String c _ => is_continuation c
  | EmptyString => false
  end.

Fixpoint code_points (s : string) : list string :=
  match s with
  | EmptyString => []
  | String c s' =>
      match code_points s' with
      | p :: ps =>
          if continues s' then String c p :: ps
          else String c EmptyString :: p :: ps
      | [] => [String c EmptyString]
      end
  end.

(** [len(x)]. *)
Definition len (x : json) : res nat :=
  match x with
  | JArr l => Ok (List.length l)
  | JStr s => Ok (List.length (code_points s))
  | JObj d => Ok (List.length d)
  | _ => Err TypeError
  end.

(** [l[start : stop]] on a list, for [0 <= start]. *)
Definition slice_list {A} (l : list A) (start stop : nat) : list A :=
  firstn (stop - start) (skipn start l).

(** [x[start : stop]]: lists and strings can be sliced, a dict cannot. *)
Definition slice (x : json) (start stop : nat) : res json :=
  match x with
  | JArr l => Ok (JArr (slice_list l start stop))
  | JStr s =>
      Ok (JStr (String.concat "" (slice_list (code_points s) start stop)))
  | _ => Err TypeError
  end.

(** [range(start, stop, step)] for a positive [step], as the list of the
    values the [for] loop takes. *)
Fixpoint range_aux (fuel start stop step : nat) : list nat :=
  match fuel with
  | O => []
  | S fuel' =>
      if (start <? stop)%nat
      then start :: range_aux fuel' (start + step) stop step
      else []
  end.

Definition range (start stop step : nat) : list nat :=
  range_aux stop start stop step.

End Py.

(** ** The pandas calls of the client *)

(** A cell holds a JSON value, a missing value ([NaN]), or what
    [pd.to_datetime] produced. *)
Inductive cell : Type :=
| NaN
| Val (j : json)
| Timestamp (t : Z)
| NaT.

(** Index labels (a [RangeIndex], or what [explode] and [append] make of
    one) and the columns in order, each with its name. *)
Record DataFrame : Type := mkDataFrame {
  index : list nat;
  data : list (string * list cell)
}.

Definition columns (df : DataFrame) : list string := map fst (data df).
Definition nrows (df : DataFrame) : nat := List.length (index df).
Definition ncols (df : DataFrame) : nat := List.length (data df).

(** Every column has one cell per index label. *)
Definition wf (df : DataFrame) : Prop :=
  Forall (fun c => List.length (snd c) = nrows df) (data df).

(** Row [i], read across the columns. *)
Definition row (df : DataFrame) (i : nat) : list (option cell) :=
  map (fun c => nth_error (snd c) i) (data df).

Fixpoint list_eqb {A} (eqb : A -> A -> bool) (l1 l2 : list A) : bool :=
  match l1, l2 with
  | [], [] => true
  | a1 :: l1', a2 :: l2' => eqb a1 a2 && list_eqb eqb l1' l2'
  | _, _ => false
  end.

Definition mem (x : string) (l : list string) : bool :=
  existsb (String.eqb x) l.

(** The distinct elements, each at its first occurrence. *)
Fixpoint unique (l : list string) : list string :=
  match l with
  | [] => []
  | x :: l' => x :: filter (fun y => negb (String.eqb x y)) (unique l')
  end.

Fixpoint is_unique (l : list string) : bool :=
  match l with
  | [] => true
  | x :: l' => negb (mem x l') && is_unique l'
  end.

Fixpoint nat_is_unique (l : list nat) : bool :=
  match l with
  | [] => true
  | x :: l' => negb (existsb (Nat.eqb x) l') && nat_is_unique l'
  end.

Module pd.

(** [pd.DataFrame()]. *)
Definition empty : DataFrame := mkDataFrame [] [].

(** pandas drops the frames of shape (0, 0) from a [concat] when some
    other frame is not of that shape. *)
Definition is_empty (df : DataFrame) : bool :=
  Nat.eqb (nrows df + ncols df) 0.

(** *** [pd.json_normalize] *)

(** The flattened entries of the value found under [newkey]: a dict
    contributes its own entries under dotted names, anything else is one
    entry.  A list is a value like any other. *)
Fixpoint flatten_value (newkey : string) (v : json) {struct v} : dict json :=
  match v with
  | JObj d =>
      (fix go (d : list (string * json)) (acc : dict json) {struct d} : dict json :=
         match d with
         | [] => acc
         | (k, v') :: r =>
             go r (Py.update acc (flatten_value (newkey ++ "." ++ k) v'))
         end) d []
  | _ => [(newkey, v)]
  end.

(** One record: the entries that are not dicts stay where they are, each
    dict-valued entry is taken out and its flattened entries are merged
    in by [dict.update].  (Keys are taken not to collide with a dotted
    name made from a sibling.) *)
Definition nested_to_record (d : dict json) : dict json :=
  fold_left
    (fun new_d kv =>
       match snd kv with
       | JObj _ => Py.update (Py.pop (fst kv) new_d) (flatten_value (fst kv) (snd kv))
       | _ => new_d
       end) d d.

(** [DataFrame(records)]: the columns are the keys in order of first
    appearance, a record without the key gives [NaN]. *)
Definition of_records (records : list (dict json)) : DataFrame :=
  let cols := unique (flat_map (map fst) records) in
  mkDataFrame
    (seq 0 (List.length records))
    (map (fun c =>
            (c, map (fun r => match Py.get c r with
                              | Some v => Val v
                              | None => NaN
                              end) records)) cols).

Fixpoint as_records (l : list json) : res (list (dict json)) :=
  match l with
  | [] => Ok []
  | JObj d :: l' =>
      (rs <- as_records l' ;; Ok (nested_to_record d :: rs))%res
  | _ :: _ => Err AttributeError
  end.

Definition json_normalize (x : json) : res DataFrame :=
  match x with
  | JObj d => Ok (of_records [nested_to_record d])
  | JArr [] => Ok empty
  | JArr l => (rs <- as_records l ;; Ok (of_records rs))%res
  | JStr _ => Err AttributeError
  | _ => Err TypeError
  end.

(** *** Columns by name *)

Definition nan_column (df : DataFrame) : list cell := repeat NaN (nrows df).

(** The cells under the first column called [c], [NaN]s when there is
    none (what a reindexing fills in). *)
Definition col_or_nan (c : string) (df : DataFrame) : list cell :=
  match Py.get c (data df) with
  | Some cells => cells
  | None => nan_column df
  end.

(** *** [df.append(other)]: [concat] with [axis = 0]

    Rows of [other] go below those of [df]. Equal column lists are
    stacked as they are; otherwise both frames are reindexed on the union
    of the names, which pandas refuses when a name is duplicated. *)
Definition append (df other : DataFrame) : res DataFrame :=
  if is_empty other then Ok df
  else if is_empty df then Ok other
  else if list_eqb String.eqb (columns df) (columns other) then
    Ok (mkDataFrame (index df ++ index other)
          (map (fun cc => (fst (fst cc), snd (fst cc) ++ snd (snd cc)))
               (combine (data df) (data other))))
  else if is_unique (columns df) && is_unique (columns other) then
    Ok (mkDataFrame (index df ++ index other)
          (map (fun c => (c, col_or_nan c df ++ col_or_nan c other))
               (unique (columns df ++ columns other))))
  else Err ValueError.

(** *** [Series.explode] and [df.apply(pd.Series.explode)] *)

(** A list cell gives one cell per element, an empty list gives one
    [NaN], anything else stays as it is. *)
Definition explode_cell (c : cell) : list cell :=
  match c with
  | Val (JArr []) => [NaN]
  | Val (JArr l) => map Val l
  | _ => [c]
  end.

Definition explode_counts (cells : list cell) : list nat :=
  map (fun c => List.length (explode_cell c)) cells.

Definition explode_values (cells : list cell) : list cell :=
  flat_map explode_cell cells.

(** [x] repeated [n] times for each pair [(x, n)]: [Index.repeat]. *)
Definition repeat_each {A} (xs : list A) (ns : list nat) : list A :=
  flat_map (fun xn => repeat (fst xn) (snd xn)) (combine xs ns).

Definition pointwise_max (l1 l2 : list nat) : list nat :=
  map (fun ab => Nat.max (fst ab) (snd ab)) (combine l1 l2).

Definition all_ones (l : list nat) : bool := forallb (Nat.eqb 1) l.

(** Each column is exploded on its own and the results are put together
    again.  That works when every exploded column has the same index
    [repeat_each (index df) u]; a column that stayed as it was (all
    counts 1) and has unique labels is reindexed, each cell repeated;
    any other mixture is pandas' "cannot reindex from a duplicate axis".
    A frame without rows or without columns comes back unchanged. *)
Definition apply_explode (df : DataFrame) : res DataFrame :=
  if Nat.eqb (nrows df) 0 || Nat.eqb (ncols df) 0 then Ok df
  else
    let cs := map (fun c => explode_counts (snd c)) (data df) in
    let u := fold_left pointwise_max cs (repeat 1 (nrows df)) in
    if forallb (fun k => list_eqb Nat.eqb k u
                         || (all_ones k && nat_is_unique (index df))) cs
    then
      Ok (mkDataFrame (repeat_each (index df) u)
            (map (fun c =>
                    (fst c,
                     if list_eqb Nat.eqb (explode_counts (snd c)) u
                     then explode_values (snd c)
                     else repeat_each (explode_values (snd c)) u))
                 (data df)))
    else Err ValueError.

(** *** [pd.concat([a, b], axis = 1)] *)

Fixpoint position (x : nat) (l : list nat) : option nat :=
  match l with
  | [] => None
  | y :: l' =>
      if Nat.eqb x y then Some 0
      else match position x l' with
           | Some p => Some (S p)
           | None => None
           end
  end.

(** The columns of [df] read at the labels [target]; [df] has unique
    labels, a label it lacks gives [NaN]. *)
Definition reindex_rows (df : DataFrame) (target : list nat)
  : list (string * list cell) :=
  map (fun c =>
         (fst c,
          map (fun l => match position l (index df) with
                        | Some p => nth p (snd c) NaN
                        | None => NaN
                        end) target))
      (data df).

Fixpoint insert_sorted (x : nat) (l : list nat) : list nat :=
  match l with
  | [] => [x]
  | y :: l' =>
      if (x <? y)%nat then x :: l
      else if Nat.eqb x y then l
      else y :: insert_sorted x l'
  end.

Definition sorted_union (l1 l2 : list nat) : list nat :=
  fold_right insert_sorted [] (l1 ++ l2).

Definition subset (l1 l2 : list nat) : bool :=
  forallb (fun x => existsb (Nat.eqb x) l2) l1.

(** Frames of shape (0, 0) are left out.  Frames with the same index are
    put side by side, row against row, nothing being looked up.  Frames
    with different indexes are joined on the labels (which here come in
    non-decreasing order): unique labels are reindexed on the union, a
    frame with repeated labels must already carry the union. *)
Definition concat_axis1 (a b : DataFrame) : res DataFrame :=
  if is_empty a then Ok b
  else if is_empty b then Ok a
  else if list_eqb Nat.eqb (index a) (index b) then
    Ok (mkDataFrame (index a) (data a ++ data b))
  else if nat_is_unique (index a) && nat_is_unique (index b) then
    let u := sorted_union (index a) (index b) in
    Ok (mkDataFrame u (reindex_rows a u ++ reindex_rows b u))
  else if nat_is_unique (index a) && subset (index a) (index b) then
    Ok (mkDataFrame (index b) (reindex_rows a (index b) ++ data b))
  else if nat_is_unique (index b) && subset (index b) (index a) then
    Ok (mkDataFrame (index a) (data a ++ reindex_rows b (index a)))
  else Err ValueError.

(** *** Selecting and renaming columns *)

(** [df.drop(columns = labels)]. *)
Definition drop (df : DataFrame) (labels : list string) : res DataFrame :=
  match find (fun l => negb (mem l (columns df))) labels with
  | Some l => Err (KeyError l)
  | None =>
      Ok (mkDataFrame (index df)
            (filter (fun c => negb (mem (fst c) labels)) (data df)))
  end.

(** [re.search] for a pattern that is an alternation of literals. *)
Definition search_any (alternatives : list string) (name : string) : bool :=
  existsb (fun p => Py.contains p name) alternatives.

(** [df.filter(regex = ...)], the pattern given by its alternatives. *)
Definition filter_regex (df : DataFrame) (alternatives : list string)
  : DataFrame :=
  mkDataFrame (index df)
    (filter (fun c => search_any alternatives (fst c)) (data df)).

(** [df.filter(items = items)]: a reindexing of the columns on the items
    that are column names.  Nothing is done when that is the column list
    itself; otherwise duplicated column names make the reindexing
    fail. *)
Definition filter_items (df : DataFrame) (items : list string)
  : res DataFrame :=
  let target := filter (fun r => mem r (columns df)) items in
  if list_eqb String.eqb target (columns df) then Ok df
  else if is_unique (columns df) then
    Ok (mkDataFrame (index df) (map (fun r => (r, col_or_nan r df)) target))
  else
    match target with
    | [] => Ok (mkDataFrame (index df) [])
    | _ => Err ValueError
    end.

(** [df.rename(columns = f)] for a function, and for a dict. *)
Definition rename (df : DataFrame) (f : string -> string) : DataFrame :=
  mkDataFrame (index df) (map (fun c => (f (fst c), snd c)) (data df)).

Definition rename_dict (df : DataFrame) (d : dict string) : DataFrame :=
  rename df (fun x => match Py.get x d with
                      | Some y => y
                      | None => x
                      end).

(** *** [df[name] = pd.to_datetime(df[name])] *)

(** [df[name]] is a column when one column has the name; with several it
    is a frame, which [pd.to_datetime] cannot convert. *)
Definition getitem (df : DataFrame) (name : string) : res (list cell) :=
  match filter (fun c => String.eqb name (fst c)) (data df) with
  | [] => Err (KeyError name)
  | [c] => Ok (snd c)
  | _ => Err ValueError
  end.

Definition setitem (df : DataFrame) (name : string) (cells : list cell)
  : DataFrame :=
  if mem name (columns df)
  then mkDataFrame (index df)
         (map (fun c => if String.eqb name (fst c) then (fst c, cells) else c)
              (data df))
  else mkDataFrame (index df) (data df ++ [(name, cells)]).

End pd.

(** The date parser of pandas is not modelled: [to_datetime] is whatever
    conversion of a column the library performs, which may fail. *)
Class Datetime : Type :=
  to_datetime : list cell -> res (list cell).

(** ** The transport and the monad of the client *)

(** What [requests.post] is given and what it gives back; [content] is
    [None] when the body of the response is not JSON, so that
    [response.json()] raises. *)
Record request : Type := mkRequest {
  url : string;
  payload : json;
  headers : list (string * string)
}.

Record response : Type := mkResponse {
  status_code : Z;
  content : option json
}.

(** The remote API: any deterministic server, with a state of its own, that
    answers a request or makes [requests.post] raise. *)
Class Transport (S : Type) : Type :=
  requests_post : request -> S -> res response * S.

(** One Transport Call as the caller of [read_data_json] sees it. *)
Record call : Type := mkCall {
  call_request : request;
  call_result : res json
}.

(** The state threaded through the client: the server, and the history of
    the Transport Calls made so far, oldest first.  The history is what a
    test double of the transport would record; the client never reads
    it. *)
Record world (S : Type) : Type := mkWorld {
  server : S;
  calls : list call
}.

(** A run ends with a value, with a raised exception, or is cut off when
    the bound on the iterations of a [while] loop is used up. *)
Inductive outcome (A : Type) : Type :=
| Ret (a : A)
| Raise (e : pyerror)
| OutOfFuel.
Arguments Ret {A} a.
Arguments Raise {A} e.
Arguments OutOfFuel {A}.

Definition M (S A : Type) : Type := world S -> outcome A * world S.

Definition ret {S A} (a : A) : M S A := fun w => (Ret a, w).

Definition bind {S A B} (m : M S A) (k : A -> M S B) : M S B :=
  fun w =>
    match m w with
    | (Ret a, w') => k a w'
    | (Raise e, w') => (Raise e, w')
    | (OutOfFuel, w') => (OutOfFuel, w')
    end.

Definition lift {S A} (r : res A) : M S A :=
  fun w =>
    match r with
    | Ok a => (Ret a, w)
    | Err e => (Raise e, w)
    end.

Declare Scope client_scope.
Delimit Scope client_scope with client.
Notation "x <- m ;; k" := (bind m (fun x => k))
  (at level 61, m at next level, right associativity) : client_scope.
Notation "x <~ r ;; k" := (bind (lift r) (fun x => k))
  (at level 61, r at next level, right associativity) : client_scope.

(** A [for] loop over [xs] that carries the variables [a] it assigns. *)
Fixpoint for_each {S A X} (xs : list X) (body : X -> A -> M S A) (a : A)
  : M S A :=
  match xs with
  | [] => ret a
  | x :: xs' => (a' <- body x a ;; for_each xs' body a')%client
  end.

(** ** The client *)

Definition base_url : string := "https://api.c3.ai/covid/api/1/".

Definition endpoint (typename api : string) : string :=
  base_url ++ typename ++ "/" ++ api.

Definition json_headers : list (string * string) :=
  [("Accept", "application/json"); ("Content-Type", "application/json")].

Definition response_json (r : response) : res json :=
  match content r with
  | Some j => Ok j
  | None => Err ValueError
  end.

(** What [read_data_json] makes of the answer of [requests.post]. *)
Definition read_response (answer : res response) : res json :=
  (response <- answer ;;
   if negb (status_code response =? 200)%Z
   then
     j <- response_json response ;;
     message <- Py.getitem j "message" ;;
     Err (Exception message)
   else response_json response)%res.

(** [body['spec'].update(...)]: [body] is the caller's object, changed in
    place; the changed object is returned. *)
Definition update_spec (body : json) (kwargs : dict json) : res json :=
  (spec <- Py.getitem body "spec" ;;
   match spec, body with
   | JObj d, JObj b => Ok (JObj (Py.set "spec" (JObj (Py.update d kwargs)) b))
   | _, _ => Err AttributeError
   end)%res.

Definition limit : Z := 2000.

Definition has_meta (c : string) : bool :=
  Py.contains "meta" c || Py.contains "version" c.

(** Lines 98-101 of [evalmetrics], repeated as lines 121-124 of
    [getprojectionhistory]: "only keep one date column". *)
Definition only_keep_one_date_column {dt : Datetime} (df : DataFrame)
  : res DataFrame :=
  let date_cols := filter (Py.contains "dates") (columns df) in
  let keep_cols :=
    firstn 1 date_cols
    ++ filter (fun col => negb (Py.contains "dates" col)) (columns df) in
  (filtered <- pd.filter_items df keep_cols ;;
   first <- match date_cols with
            | [] => Err IndexError
            | col :: _ => Ok col
            end ;;
   let df := pd.rename_dict filtered [(first, "dates")] in
   dates <- pd.getitem df "dates" ;;
   converted <- to_datetime dates ;;
   Ok (pd.setitem df "dates" converted))%res.

Section Client.

Context {S : Type} {transport : Transport S} {dt : Datetime}.

Definition read_data_json (typename api : string) (body : json) : M S json :=
  fun w =>
    let rq := mkRequest (endpoint typename api) body json_headers in
    let (answer, srv) := requests_post rq (server w) in
    let result := read_response answer in
    lift result (mkWorld srv (calls w ++ [mkCall rq result])).

(** The [while has_more] loop of [fetch]; [fuel] bounds the number of
    iterations. *)
Fixpoint fetch_loop (fuel : nat) (typename : string) (body : json)
    (offset : Z) (df : DataFrame) : M S DataFrame :=
  match fuel with
  | O => fun w => (OutOfFuel, w)
  | Datatypes.S fuel' =>
      (body <~ update_spec body [("limit", JNum limit); ("offset", JNum offset)] ;;
       response_json <- read_data_json typename "fetch" body ;;
       objs <~ Py.getitem response_json "objs" ;;
       new_df <~ pd.json_normalize objs ;;
       df <~ pd.append df new_df ;;
       has_more <~ Py.getitem response_json "hasMore" ;;
       if Py.truthy has_more
       then fetch_loop fuel' typename body (offset + limit)%Z df
       else ret df)%client
  end.

Definition fetch_assemble (fuel : nat) (typename : string) (body : json)
    (get_all : bool) : M S DataFrame :=
  if get_all
  then fetch_loop fuel typename body 0%Z pd.empty
  else
    (response_json <- read_data_json typename "fetch" body ;;
     objs <~ Py.getitem response_json "objs" ;;
     lift (pd.json_normalize objs))%client.

Definition fetch (fuel : nat) (typename : string) (body : json)
    (get_all remove_meta : bool) : M S DataFrame :=
  (df <- fetch_assemble fuel typename body get_all ;;
   if remove_meta
   then lift (pd.drop df (filter has_meta (columns df)))
   else ret df)%client.

(** One pass of the inner loop of [evalmetrics]; the loop carries the
    caller's [body] and the accumulated [df]. *)
Definition evalmetrics_batch (typename : string) (ids expressions : json)
    (ids_start expressions_start : nat) (st : json * DataFrame)
  : M S (json * DataFrame) :=
  (ids_slice <~ Py.slice ids ids_start (ids_start + 10) ;;
   expressions_slice <~
     Py.slice expressions expressions_start (expressions_start + 4) ;;
   body <~ update_spec (fst st)
             [("ids", ids_slice); ("expressions", expressions_slice)] ;;
   response_json <- read_data_json typename "evalmetrics" body ;;
   result <~ Py.getitem response_json "result" ;;
   new_df <~ pd.json_normalize result ;;
   new_df <~ pd.apply_explode new_df ;;
   df <~ pd.concat_axis1 (snd st) new_df ;;
   ret (body, df))%client.

Definition evalmetrics_assemble (typename : string) (body : json)
    (get_all : bool) : M S DataFrame :=
  if get_all
  then
    (spec <~ Py.getitem body "spec" ;;
     expressions <~ Py.getitem spec "expressions" ;;
     ids <~ Py.getitem spec "ids" ;;
     n_ids <~ Py.len ids ;;
     st <- for_each (Py.range 0 n_ids 10)
             (fun ids_start st =>
                n_expressions <~ Py.len expressions ;;
                for_each (Py.range 0 n_expressions 4)
                  (evalmetrics_batch typename ids expressions ids_start) st)
             (body, pd.empty) ;;
     ret (snd st))%client
  else
    (response_json <- read_data_json typename "evalmetrics" body ;;
     result <~ Py.getitem response_json "result" ;;
     df <~ pd.json_normalize result ;;
     lift (pd.apply_explode df))%client.

Definition evalmetrics (typename : string) (body : json)
    (get_all remove_meta : bool) : M S DataFrame :=
  (df <- evalmetrics_assemble typename body get_all ;;
   let df := if remove_meta
             then pd.filter_regex df ["dates"; "data"; "missing"]
             else df in
   lift (only_keep_one_date_column df))%client.

(** [getprojectionhistory] up to the renaming in its last line. *)
Definition getprojectionhistory_assemble (body : json) : M S DataFrame :=
  (response_json <- read_data_json "outbreaklocation" "getprojectionhistory" body ;;
   df <~ pd.json_normalize response_json ;;
   lift (pd.apply_explode df))%client.

Definition getprojectionhistory (body : json) (remove_meta : bool)
  : M S DataFrame :=
  (df <- getprojectionhistory_assemble body ;;
   let df := if remove_meta
             then pd.filter_regex df ["dates"; "data"; "missing"; "expr"]
             else df in
   df <~ only_keep_one_date_column df ;;
   ret (pd.rename df (fun x => Py.replace x ".value" "")))%client.

End Client.

(** ** Test doubles *)

(** A server that plays a script: the answers are handed out in order,
    whatever is asked; when the script is over the connection fails. *)
#[export] Instance scripted : Transport (list (res response)) :=
  fun _ script =>
    match script with
    | [] => (Err ConnectionError, [])
    | answer :: rest => (answer, rest)
    end.

(** A server that gives the same answer to every request. *)
#[export] Instance constant : Transport (res response) :=
  fun _ answer => (answer, answer).

Definition ok_response (j : json) : res response :=
  Ok (mkResponse 200 (Some j)).

Definition start {S} (srv : S) : world S := mkWorld srv [].

(** A date parser that only knows integers, read as nanoseconds since the
    epoch as [pd.to_datetime] reads them; missing values become [NaT]. *)
Definition epoch_cell (c : cell) : res cell :=
  match c with
  | Val (JNum n) => Ok (Timestamp n)
  | Val JNull | NaN | NaT => Ok NaT
  | Timestamp t => Ok (Timestamp t)
  | _ => Err ValueError
  end.

Fixpoint epoch_cells (l : list cell) : res (list cell) :=
  match l with
  | [] => Ok []
  | c :: l' =>
      (t <- epoch_cell c ;; ts <- epoch_cells l' ;; Ok (t :: ts))%res
  end.

#[export] Instance epoch_ns : Datetime := epoch_cells.

(** ** Vocabulary of the statements *)

(** The slices [l[start : start + k]] for [start] in
    [range(0, len(l), k)]. *)
Definition chunks {A} (k : nat) (l : list A) : list (list A) :=
  map (fun start => Py.slice_list l start (start + k))
      (Py.range 0 (List.length l) k).

(** The caller's [body] once [body['spec'].update(kwargs)] has run. *)
Definition with_spec (body spec kwargs : dict json) : json :=
  JObj (Py.set "spec" (JObj (Py.update spec kwargs)) body).

Definition evalmetrics_request (typename : string) (body spec : dict json)
    (ids_batch expressions_batch : list json) : request :=
  mkRequest (endpoint typename "evalmetrics")
    (with_spec body spec
       [("ids", JArr ids_batch); ("expressions", JArr expressions_batch)])
    json_headers.

(** The requests of [evalmetrics] with [get_all], expression batches
    inside id batches. *)
Definition evalmetrics_plan (typename : string) (body spec : dict json)
    (ids expressions : list json) : list request :=
  flat_map
    (fun ids_batch =>
       map (evalmetrics_request typename body spec ids_batch)
           (chunks 4 expressions))
    (chunks 10 ids).

(** The request of [fetch] with [get_all] for page number [page]. *)
Definition fetch_request (typename : string) (body spec : dict json)
    (page : nat) : request :=
  mkRequest (endpoint typename "fetch")
    (with_spec body spec
       [("limit", JNum 2000); ("offset", JNum (2000 * Z.of_nat page))])
    json_headers.

(** What the server answers to a sequence of requests. *)
Fixpoint answers {S} {transport : Transport S} (srv : S) (rqs : list request)
  : list (res response) :=
  match rqs with
  | [] => []
  | rq :: rqs' =>
      let (answer, srv') := requests_post rq srv in
      answer :: answers srv' rqs'
  end.

(** A page of [fetch]: a 200 answer whose body has the records under
    [objs] and the flag under [hasMore]. *)
Definition is_page (answer : res response) (objs : list (dict json))
    (more : bool) : Prop :=
  exists j,
    answer = Ok (mkResponse 200 (Some j))
    /\ Py.getitem j "objs" = Ok (JArr (map JObj objs))
    /\ Py.getitem j "hasMore" = Ok (JBool more).

(** The calls all succeeded. *)
Definition clean (cs : list call) : Prop :=
  Forall (fun c => exists j, call_result c = Ok j) cs.

Definition ceil_div (n k : nat) : nat := (n + k - 1) / k.

(** The index of a frame that [explode] made from a single row. *)
Definition from_one_row (df : DataFrame) : Prop :=
  index df = repeat 0 (nrows df).

Definition strip_value (x : string) : string := Py.replace x ".value" "".

Definition is_date (c : string) : bool := Py.contains "dates" c.

(** A column that is not a date column. *)
Definition not_date (c : string * list cell) : bool :=
  negb (Py.contains "dates" (fst c)).

(** ** Sample answers of the server *)

(** A page of records with metadata and version fields. *)
Definition meta_page : json :=
  JObj [("objs",
         JArr [JObj [("id", JStr "Illinois_UnitedStates");
                     ("meta", JObj [("source", JStr "JHU")]);
                     ("version", JObj [("tag", JNum 7)]);
                     ("value", JNum 3)]]);
        ("hasMore", JBool false)].

(** A timeseries result with two date columns and one data column. *)
Definition two_dates_result : json :=
  JObj [("result",
         JObj [("expr1.dates", JArr [JNum 1; JNum 2; JNum 3]);
               ("expr2.dates", JArr [JNum 1; JNum 2; JNum 3]);
               ("expr1.data", JArr [JNum 10; JNum 20; JNum 30])])].

(** A projection history one of whose names hides "dates" behind a
    ".value". *)
Definition hidden_dates_history : json :=
  JObj [("x.dates", JArr [JNum 1; JNum 2]);
        ("d.valueates", JArr [JNum 7; JNum 8])].

(** A result without any timeseries. *)
Definition empty_result : json := JObj [("result", JObj [])].

(** A projection history with a doubled ".value", and one in which taking
    ".value" out of a name leaves a ".value" behind. *)
Definition doubled_value_history : json :=
  JObj [("dates", JArr [JNum 1; JNum 2]);
        ("projection.value.value", JArr [JNum 7; JNum 8])].

Definition nested_value_history : json :=
  JObj [("dates", JArr [JNum 1; JNum 2]);
        ("data.va.valuelue", JArr [JNum 7; JNum 8])].

(** A one-row table whose cells are sequences: column [fst c] holds the
    list [snd c] in the row labelled [label]. *)
Definition sequence_row (label : nat) (cols : list (string * list json))
  : DataFrame :=
  mkDataFrame [label] (map (fun c => (fst c, [Val (JArr (snd c))])) cols).

(** The table with one row per element of the sequences. *)
Definition expanded_rows (label n : nat) (cols : list (string * list json))
  : DataFrame :=
  mkDataFrame (repeat label n) (map (fun c => (fst c, map Val (snd c))) cols).

(** A result whose sequences are empty. *)
Definition empty_sequences_result : json :=
  JObj [("result", JObj [("dates", JArr []); ("data", JArr [])])].

(** A result with three dates and three values. *)
Definition three_points_result : json :=
  JObj [("result",
         JObj [("data", JArr [JNum 10; JNum 20; JNum 30]);
               ("dates", JArr [JNum 1; JNum 2; JNum 3])])].

(** The flags of a run of pages: the first [false] is the last flag. *)
Fixpoint stops_at_last (flags : list bool) : bool :=
  match flags with
  | [] => false
  | [more] => negb more
  | more :: rest => more && stops_at_last rest
  end.

(** The caller's [body] during a loop that updates two keys of its spec:
    as it was given, or as an earlier pass left it. *)
Definition tracks (body spec : dict json) (k1 k2 : string) (current : json)
  : Prop :=
  current = JObj body
  \/ exists a b, current = with_spec body spec [(k1, a); (k2, b)].

Definition raised {A} (out : outcome A) (e : pyerror) : Prop :=
  match out with
  | Raise e' => e' = e
  | _ => False
  end.

(** The calls [cs] of a run that ended with [out]: all succeeded, or all
    but the last succeeded and the run raised the error of the last. *)
Definition aborts_on_failure {A} (out : outcome A) (cs : list call) : Prop :=
  clean cs
  \/ exists cs0 c e,
       cs = cs0 ++ [c] /\ clean cs0 /\ call_result c = Err e /\ raised out e.

(** A computation that only adds calls to the history and stops at the
    first call that fails. *)
Definition disciplined {S A} (m : M S A) : Prop :=
  forall w out w',
    m w = (out, w') ->
    exists cs, calls w' = calls w ++ cs /\ aborts_on_failure out cs.

(** A query, and a script in which the second page fails. *)
Definition sample_body : json :=
  JObj [("spec", JObj [("filter", JStr "contains(id, 'Illinois')")])].

Definition sample_record (id : string) : json :=
  JObj [("id", JStr id); ("population", JNum 100)].

Definition failing_script : list (res response) :=
  [ok_response (JObj [("objs", JArr [sample_record "a"; sample_record "b"]);
                      ("hasMore", JBool true)]);
   Ok (mkResponse 400 (Some (JObj [("message", JStr "bad spec")])));
   ok_response (JObj [("objs", JArr [sample_record "c"]);
                      ("hasMore", JBool false)])].

(** A timeseries query for eleven ids, and a script in which the answer to
    the second batch is an error. *)
Definition eleven_ids_body : json :=
  JObj [("spec",
         JObj [("ids", JArr (map JStr ["a"; "b"; "c"; "d"; "e"; "f"; "g";
                                       "h"; "i"; "j"; "k"]));
               ("expressions", JArr [JStr "JHU_ConfirmedCases"]);
               ("start", JStr "2020-01-01")])].

Definition failing_batches : list (res response) :=
  [ok_response (JObj [("result",
                       JObj [("a.JHU_ConfirmedCases.dates", JArr [JNum 1; JNum 2]);
                             ("a.JHU_ConfirmedCases.data", JArr [JNum 5; JNum 6])])]);
   Ok (mkResponse 400 (Some (JObj [("message", JStr "bad spec")])))].

(** Three pages of records, the last of which ends the listing, and the
    script that serves them. *)
Definition three_pages : list (list (dict json) * bool) :=
  [([[("id", JStr "a")]; [("id", JStr "b")]], true);
   ([[("id", JStr "c"); ("meta", JObj [("source", JStr "JHU")])]], true);
   ([[("id", JStr "d")]; [("id", JStr "e")]; [("id", JStr "f")]], false)].

Definition page_answer (p : list (dict json) * bool) : res response :=
  ok_response (JObj [("objs", JArr (map JObj (fst p)));
                     ("hasMore", JBool (snd p))]).

(** [l] is the beginning of [l']. *)
Definition is_prefix {A} (l l' : list A) : Prop := exists k, l = firstn k l'.

(** A query for 25 ids and 5 expressions, and a script with one answer
    per batch, each with columns of its own. *)
Definition names (stem : string) (n : nat) : list json :=
  map (fun i => JStr (stem ++ String (ascii_of_nat (65 + i)) "")%string)
      (seq 0 n).

Definition batched_spec : dict json :=
  [("ids", JArr (names "id" 25));
   ("expressions", JArr (names "metric" 5));
   ("start", JStr "2020-01-01")].

Definition batched_body : dict json := [("spec", JObj batched_spec)].

Definition batch_answer (i : nat) : res response :=
  ok_response
    (JObj [("result",
            JObj [(("batch" ++ String (ascii_of_nat (65 + i)) ".dates")%string,
                   JArr [JNum 1; JNum 2]);
                  (("batch" ++ String (ascii_of_nat (65 + i)) ".data")%string,
                   JArr [JNum 5; JNum 6])])]).

(** A server whose every answer is the same page, announcing more. *)
Definition endless_page : res response :=
  ok_response (JObj [("objs", JArr [JObj [("id", JStr "a")]]);
                     ("hasMore", JBool true)]).

#[export] Instance endless : Transport unit :=
  fun _ _ => (endless_page, tt).

(** A computation that makes no call and leaves the server alone. *)
Definition silent {S A} (m : M S A) : Prop :=
  forall w out w', m w = (out, w') -> w' = w.

(** A one-row table with any cells: column [fst c] holds the cell [snd c]
    in the row labelled [label]. *)
Definition one_row (label : nat) (cols : list (string * cell)) : DataFrame :=
  mkDataFrame [label] (map (fun c => (fst c, [snd c])) cols).

(** A cell that holds a sequence. *)
Definition is_sequence (c : cell) : bool :=
  match c with
  | Val (JArr _) => true
  | _ => false
  end.

(** What a cell becomes in a table of [n] rows: its elements if it is a
    sequence, itself in every row otherwise. *)
Definition spread (n : nat) (c : cell) : list cell :=
  match c with
  | Val (JArr l) => map Val l
  | _ => repeat c n
  end.

(** A timeseries as the API sends it, with its type and count beside the
    sequences, and the row it flattens to. *)
Definition metric_result : json :=
  JObj [("result",
         JObj [("Illinois",
                JObj [("Cases",
                       JObj [("type", JStr "Timeseries");
                             ("count", JNum 3);
                             ("dates", JArr [JNum 1; JNum 2; JNum 3]);
                             ("data", JArr [JNum 10; JNum 20; JNum 30])])])])].

Definition metric_row : list (string * cell) :=
  [("Illinois.Cases.type", Val (JStr "Timeseries"));
   ("Illinois.Cases.count", Val (JNum 3));
   ("Illinois.Cases.dates", Val (JArr [JNum 1; JNum 2; JNum 3]));
   ("Illinois.Cases.data", Val (JArr [JNum 10; JNum 20; JNum 30]))].

(** A result whose sequences do not have the same length. *)
Definition ragged_result : json :=
  JObj [("result",
         JObj [("dates", JArr [JNum 1; JNum 2; JNum 3]);
               ("data", JArr [JNum 10; JNum 20])])].

Definition ragged_row : list (string * cell) :=
  [("dates", Val (JArr [JNum 1; JNum 2; JNum 3]));
   ("data", Val (JArr [JNum 10; JNum 20]))].

(** The table a row of empty sequences expands into: one row of missing
    values. *)
Definition missing_row (label : nat) (cols : list (string * list json))
  : DataFrame :=
  mkDataFrame [label] (map (fun c => (fst c, [NaN])) cols).

(** A batch of [evalmetrics]: a 200 answer whose body has a mapping under
    [result], which flattens and expands into the table [b]. *)
Definition is_batch (answer : res response) (b : DataFrame) : Prop :=
  exists j result flat,
    answer = Ok (mkResponse 200 (Some j))
    /\ Py.getitem j "result" = Ok (JObj result)
    /\ pd.json_normalize (JObj result) = Ok flat
    /\ pd.apply_explode flat = Ok b.

(** The passes of the two loops of [evalmetrics], as pairs
    [(ids_start, expressions_start)] in the order in which they run. *)
Definition passes (n_ids n_expressions : nat) : list (nat * nat) :=
  flat_map (fun ids_start => map (pair ids_start) (Py.range 0 n_expressions 4))
           (Py.range 0 n_ids 10).

(** The request of the pass [(ids_start, expressions_start)]. *)
Definition pass_request (typename : string) (body spec : dict json)
    (ids expressions : list json) (p : nat * nat) : request :=
  evalmetrics_request typename body spec
    (Py.slice_list ids (fst p) (fst p + 10))
    (Py.slice_list expressions (snd p) (snd p + 4)).

(** The table that the answer [batch_answer i] expands into. *)
Definition batch_table (i : nat) : DataFrame :=
  mkDataFrame [0; 0]
    [(("batch" ++ String (ascii_of_nat (65 + i)) ".dates")%string,
      [Val (JNum 1); Val (JNum 2)]);
     (("batch" ++ String (ascii_of_nat (65 + i)) ".data")%string,
      [Val (JNum 5); Val (JNum 6)])].

(** A query that names the id [a] in its first batch of ten and again in
    its second batch, and a script in which the server sends the series of
    [a] both times. *)
Definition repeated_id_body : json :=
  JObj [("spec",
         JObj [("ids", JArr (map JStr ["a"; "b"; "c"; "d"; "e"; "f"; "g";
                                       "h"; "i"; "j"; "a"]));
               ("expressions", JArr [JStr "JHU_ConfirmedCases"]);
               ("start", JStr "2020-01-01")])].

Definition repeated_id_batches : list (res response) :=
  [ok_response (JObj [("result",
                       JObj [("a.JHU_ConfirmedCases.dates", JArr [JNum 1; JNum 2]);
                             ("a.JHU_ConfirmedCases.data", JArr [JNum 5; JNum 6])])]);
   ok_response (JObj [("result",
                       JObj [("a.JHU_ConfirmedCases.dates", JArr [JNum 1; JNum 2]);
                             ("a.JHU_ConfirmedCases.data", JArr [JNum 5; JNum 6])])])].

(** * Properties *)

Unset Implicit Arguments.

(** ** The monad *)

Lemma bind_ret_inv {S A B} (m : M S A) (k : A -> M S B) w b w' :
  bind m k w = (Ret b, w') ->
  exists a w1, m w = (Ret a, w1) /\ k a w1 = (Ret b, w').
Proof.
  unfold bind. destruct (m w) as [[a | e | ] w1]; intros H; try discriminate.
  eauto.
Qed.

Lemma bind_of_ret {S A B} (m : M S A) (k : A -> M S B) w a w1 :
  m w = (Ret a, w1) -> bind m k w = k a w1.
Proof. unfold bind. intros ->. reflexivity. Qed.

Lemma bind_of_raise {S A B} (m : M S A) (k : A -> M S B) w e w1 :
  m w = (Raise e, w1) -> bind m k w = (Raise e, w1).
Proof. unfold bind. intros ->. reflexivity. Qed.

Lemma lift_ok {S A} (r : res A) (a : A) (w : world S) :
  r = Ok a -> lift r w = (Ret a, w).
Proof. intros ->. reflexivity. Qed.

Lemma lift_err {S A} (r : res A) e (w : world S) :
  r = Err e -> lift r w = (@Raise A e, w).
Proof. intros ->. reflexivity. Qed.

Lemma lift_ret_inv {S A} (r : res A) (w w' : world S) a :
  lift r w = (Ret a, w') -> r = Ok a /\ w' = w.
Proof. destruct r; simpl; intros H; inversion H; auto. Qed.

Lemma lift_world {S A} (r : res A) (w w' : world S) o :
  lift r w = (o, w') -> w' = w.
Proof. destruct r; simpl; intros H; inversion H; auto. Qed.

(** ** The Transport Call *)

Section TransportCall.

Context {S : Type} {transport : Transport S}.

(** The call is recorded with its outcome and the server moves on. *)
Lemma read_data_json_run typename api body (w : world S) answer srv :
  requests_post (mkRequest (endpoint typename api) body json_headers) (server w)
    = (answer, srv) ->
  read_data_json typename api body w
    = lift (read_response answer)
        (mkWorld srv
           (calls w ++ [mkCall (mkRequest (endpoint typename api) body json_headers)
                          (read_response answer)])).
Proof. unfold read_data_json. intros ->. reflexivity. Qed.

(** C4, as the code has it: a response whose status is not 200 and whose
    body is a JSON object makes the call raise [Exception] with the value
    found under [message], word for word; when the object has no
    [message], the lookup itself raises [KeyError('message')]. *)
Theorem read_data_json_failure typename api body (w : world S) response srv d :
  requests_post (mkRequest (endpoint typename api) body json_headers) (server w)
    = (Ok response, srv) ->
  status_code response <> 200%Z ->
  content response = Some (JObj d) ->
  fst (read_data_json typename api body w)
    = match Py.get "message" d with
      | Some message => Raise (Exception message)
      | None => Raise (KeyError "message")
      end.
Proof.
  intros Hpost Hstatus Hcontent.
  rewrite (read_data_json_run _ _ _ _ _ _ Hpost).
  unfold read_response, response_json. simpl.
  apply Z.eqb_neq in Hstatus. rewrite Hstatus, Hcontent. simpl.
  destruct (Py.get "message" d); reflexivity.
Qed.

End TransportCall.

Lemma read_data_json_failure_witness :
  fst (read_data_json "outbreaklocation" "fetch" (JObj [])
         (start (Ok (mkResponse 400 (Some (JObj [("message", JStr "bad spec")]))))))
  = Raise (Exception (JStr "bad spec")).
Proof.
  apply (read_data_json_failure (transport := constant)
           "outbreaklocation" "fetch" (JObj [])
           (start (Ok (mkResponse 400 (Some (JObj [("message", JStr "bad spec")])))))
           (mkResponse 400 (Some (JObj [("message", JStr "bad spec")])))
           (Ok (mkResponse 400 (Some (JObj [("message", JStr "bad spec")]))))
           [("message", JStr "bad spec")]).
  - reflexivity.
  - simpl. lia.
  - reflexivity.
Defined.

(** C4, the claim as stated fails: a 400 response without a [message] field
    does not raise [Exception("unknown error")]; it raises [KeyError]. *)
Lemma read_data_json_no_message :
  fst (read_data_json "outbreaklocation" "fetch" (JObj [])
         (start (Ok (mkResponse 400 (Some (JObj []))))))
  = Raise (KeyError "message")
  /\ fst (read_data_json "outbreaklocation" "fetch" (JObj [])
            (start (Ok (mkResponse 400 (Some (JObj []))))))
     <> Raise (Exception (JStr "unknown error")).
Proof. split; [reflexivity | discriminate]. Qed.

(** ** Strings *)

Lemma prefix_app (p s : string) : String.prefix p (p ++ s) = true.
Proof.
  induction p as [| c p IH]; simpl.
  - destruct s; reflexivity.
  - destruct (ascii_dec c c); [assumption | congruence].
Qed.

Lemma prefix_split (p s : string) :
  String.prefix p s = true -> exists r, s = (p ++ r)%string.
Proof.
  revert s. induction p as [| c p IH]; intros s H.
  - exists s. reflexivity.
  - destruct s as [| c' s]; simpl in H; [discriminate |].
    destruct (ascii_dec c c') as [-> | _]; [| discriminate].
    destruct (IH _ H) as [r ->]. exists r. reflexivity.
Qed.

(** [Py.contains] is the substring test. *)
Lemma contains_spec (sub s : string) :
  Py.contains sub s = true <-> exists a b, s = (a ++ sub ++ b)%string.
Proof.
  split.
  - induction s as [| c s IH]; cbn [Py.contains]; intros H.
    + rewrite orb_false_r in H. destruct (prefix_split _ _ H) as [r Hr].
      exists EmptyString, r. exact Hr.
    + apply orb_true_iff in H. destruct H as [H | H].
      * destruct (prefix_split _ _ H) as [r Hr].
        exists EmptyString, r. exact Hr.
      * destruct (IH H) as (a & b & ->). exists (String c a), b. reflexivity.
  - intros (a & b & ->). induction a as [| c a IH].
    + change (Py.contains sub (sub ++ b) = true).
      destruct (sub ++ b)%string eqn:E; cbn [Py.contains];
        rewrite <- E, prefix_app; reflexivity.
    + change (Py.contains sub (String c (a ++ sub ++ b)) = true).
      cbn [Py.contains]. rewrite IH. apply orb_true_r.
Qed.

Lemma mem_In (x : string) (l : list string) : mem x l = true <-> In x l.
Proof.
  unfold mem. rewrite existsb_exists. split.
  - intros (y & Hy & E). apply String.eqb_eq in E. subst. assumption.
  - intros H. exists x. split; [assumption | apply String.eqb_refl].
Qed.

(** ** Metadata stripping *)

(** Dropping the names picked out of the column list by [p] never fails and
    keeps the other columns as they are. *)
Lemma drop_filter (p : string -> bool) (df : DataFrame) :
  pd.drop df (filter p (columns df))
  = Ok (mkDataFrame (index df) (filter (fun c => negb (p (fst c))) (data df))).
Proof.
  unfold pd.drop.
  destruct (find _ _) as [l |] eqn:F.
  - apply find_some in F. destruct F as [Hin Hmem].
    apply filter_In in Hin. destruct Hin as [Hin _].
    apply mem_In in Hin. rewrite Hin in Hmem. discriminate.
  - f_equal. f_equal. apply filter_ext_in. intros c Hc. f_equal.
    destruct (p (fst c)) eqn:P.
    + apply mem_In. apply filter_In. split; [| assumption].
      unfold columns. apply in_map. assumption.
    + destruct (mem _ _) eqn:Hm; [| reflexivity].
      apply mem_In in Hm. apply filter_In in Hm. destruct Hm. congruence.
Qed.

Section Fetch.

Context {S : Type} {transport : Transport S}.

(** C8: with [remove_meta], whatever table the fetch assembled comes back
    with the same rows and with exactly the columns whose name contains
    neither "meta" nor "version" as a substring; the dropping itself
    cannot fail. *)
Theorem fetch_remove_meta fuel typename body get_all (w w' : world S) df0 :
  fetch_assemble fuel typename body get_all w = (Ret df0, w') ->
  exists df,
    fetch fuel typename body get_all true w = (Ret df, w')
    /\ index df = index df0
    /\ data df = filter (fun c => negb (has_meta (fst c))) (data df0)
    /\ (forall c, In c (data df0) ->
          (In c (data df) <->
           ~ (exists a b, fst c = (a ++ "meta" ++ b)%string)
           /\ ~ (exists a b, fst c = (a ++ "version" ++ b)%string))).
Proof.
  intros H. eexists. split; [| split; [| split]].
  - unfold fetch. rewrite (bind_of_ret _ _ _ _ _ H).
    rewrite drop_filter. reflexivity.
  - reflexivity.
  - reflexivity.
  - intros c Hc. cbn [data]. rewrite filter_In. unfold has_meta.
    rewrite negb_true_iff, orb_false_iff. split.
    + intros (_ & Hm & Hv).
      split; intros E; apply contains_spec in E; congruence.
    + intros (Hm & Hv). split; [assumption |].
      split; apply not_true_is_false; intros E;
        apply contains_spec in E; tauto.
Qed.

End Fetch.

Lemma fetch_remove_meta_witness :
  exists df,
    fetch 0 "outbreaklocation" (JObj []) false true
      (start (ok_response meta_page))
    = (Ret df, mkWorld (ok_response meta_page)
                 [mkCall (mkRequest (endpoint "outbreaklocation" "fetch")
                            (JObj []) json_headers)
                         (Ok meta_page)])
    /\ columns df = ["id"; "value"].
Proof.
  destruct (fetch_remove_meta (transport := constant) 0 "outbreaklocation"
              (JObj []) false (start (ok_response meta_page))
              (mkWorld (ok_response meta_page)
                 [mkCall (mkRequest (endpoint "outbreaklocation" "fetch")
                            (JObj []) json_headers)
                         (Ok meta_page)])
              (mkDataFrame [0]
                 [("id", [Val (JStr "Illinois_UnitedStates")]);
                  ("value", [Val (JNum 3)]);
                  ("meta.source", [Val (JStr "JHU")]);
                  ("version.tag", [Val (JNum 7)])])
              eq_refl) as (df & Hrun & _ & Hdata & _).
  exists df. split; [exact Hrun |].
  unfold columns. rewrite Hdata. reflexivity.
Defined.

(** ** Keeping one date column *)

Lemma list_eqb_string_eq (l1 l2 : list string) :
  list_eqb String.eqb l1 l2 = true <-> l1 = l2.
Proof.
  revert l2. induction l1 as [| a l1 IH]; intros [| b l2]; simpl;
    try (split; [discriminate | congruence]); [tauto |].
  rewrite andb_true_iff, String.eqb_eq, IH. split.
  - intros [-> ->]. reflexivity.
  - intros E. inversion E. auto.
Qed.

Lemma filter_all {A} (p : A -> bool) (l : list A) :
  (forall x, In x l -> p x = true) -> filter p l = l.
Proof.
  induction l as [| a l IH]; simpl; intros H; [reflexivity |].
  rewrite (H a (or_introl eq_refl)). f_equal. apply IH. auto.
Qed.

Lemma filter_none {A} (p : A -> bool) (l : list A) :
  (forall x, In x l -> p x = false) -> filter p l = [].
Proof.
  induction l as [| a l IH]; simpl; intros H; [reflexivity |].
  rewrite (H a (or_introl eq_refl)). apply IH. auto.
Qed.

Lemma filter_fixed {A} (p : A -> bool) (l : list A) :
  filter p l = l -> forall x, In x l -> p x = true.
Proof.
  intros E x Hx. rewrite <- E in Hx. apply filter_In in Hx. tauto.
Qed.

(** Reindexing on the column list itself does nothing. *)
Lemma filter_items_self (df : DataFrame) (items : list string) :
  filter (fun r => mem r (columns df)) items = columns df ->
  pd.filter_items df items = Ok df.
Proof.
  intros E. unfold pd.filter_items. rewrite E.
  assert (H : list_eqb String.eqb (columns df) (columns df) = true)
    by (apply list_eqb_string_eq; reflexivity).
  rewrite H. reflexivity.
Qed.

(** With distinct names, picking columns by name is filtering them. *)
Lemma select_unique (dflt : list cell) (d : list (string * list cell))
    (q : string -> bool) :
  is_unique (map fst d) = true ->
  map (fun r => (r, match Py.get r d with
                    | Some cells => cells
                    | None => dflt
                    end)) (filter q (map fst d))
  = filter (fun c => q (fst c)) d.
Proof.
  induction d as [| [k v] d IH]; simpl; intros U; [reflexivity |].
  apply andb_true_iff in U. destruct U as [Hk U].
  apply negb_true_iff in Hk.
  assert (T : map (fun r => (r, match (if String.eqb r k then Some v else Py.get r d) with
                                | Some cells => cells
                                | None => dflt
                                end)) (filter q (map fst d))
              = filter (fun c => q (fst c)) d).
  { rewrite <- (IH U). apply map_ext_in. intros r Hr.
    apply filter_In in Hr. destruct Hr as [Hr _].
    destruct (String.eqb r k) eqn:E; [| reflexivity].
    apply String.eqb_eq in E. subst r.
    apply mem_In in Hr. congruence. }
  destruct (q k); simpl; [rewrite String.eqb_refl |]; rewrite T; reflexivity.
Qed.

Lemma is_date_dates : Py.contains "dates" "dates" = true.
Proof. reflexivity. Qed.

Lemma not_date_neq (first c : string) :
  Py.contains "dates" first = true -> Py.contains "dates" c = false ->
  String.eqb c first = false.
Proof.
  intros H1 H2. apply String.eqb_neq. intros ->. congruence.
Qed.

(** Renaming the kept date column leaves the other names alone. *)
Lemma rename_first_date (idx : list nat) (first : string) (cells : list cell)
    (rest : list (string * list cell)) :
  Py.contains "dates" first = true ->
  (forall c, In c rest -> Py.contains "dates" (fst c) = false) ->
  pd.rename_dict (mkDataFrame idx ((first, cells) :: rest)) [(first, "dates")]
  = mkDataFrame idx (("dates", cells) :: rest).
Proof.
  intros Hf Hrest. unfold pd.rename_dict, pd.rename.
  cbn [data index map fst snd Py.get].
  rewrite String.eqb_refl. f_equal. f_equal.
  rewrite <- (map_id rest) at 2. apply map_ext_in. intros [k v] Hk.
  cbn [fst snd].
  rewrite (not_date_neq first k Hf (Hrest _ Hk)). reflexivity.
Qed.

Lemma getitem_dates (idx : list nat) (cells : list cell)
    (rest : list (string * list cell)) :
  (forall c, In c rest -> Py.contains "dates" (fst c) = false) ->
  pd.getitem (mkDataFrame idx (("dates", cells) :: rest)) "dates" = Ok cells.
Proof.
  intros Hrest. unfold pd.getitem. cbn [data filter fst snd].
  rewrite String.eqb_refl.
  rewrite filter_none; [reflexivity |].
  intros c Hc. rewrite String.eqb_sym.
  apply (not_date_neq "dates" (fst c) is_date_dates (Hrest _ Hc)).
Qed.

Lemma setitem_dates (idx : list nat) (cells converted : list cell)
    (rest : list (string * list cell)) :
  (forall c, In c rest -> Py.contains "dates" (fst c) = false) ->
  pd.setitem (mkDataFrame idx (("dates", cells) :: rest)) "dates" converted
  = mkDataFrame idx (("dates", converted) :: rest).
Proof.
  intros Hrest. unfold pd.setitem, columns, mem.
  cbn [data index map fst snd existsb].
  rewrite String.eqb_refl. cbn [orb]. f_equal. f_equal.
  rewrite <- (map_id rest) at 2. apply map_ext_in. intros [k v] Hk.
  cbn [fst snd]. rewrite String.eqb_sym.
  rewrite (not_date_neq "dates" k is_date_dates (Hrest _ Hk)). reflexivity.
Qed.

Lemma not_date_rest (d : list (string * list cell)) :
  forall c, In c (filter not_date d) -> Py.contains "dates" (fst c) = false.
Proof.
  intros c Hc. apply filter_In in Hc. destruct Hc as [_ Hc].
  apply negb_true_iff in Hc. exact Hc.
Qed.

(** What [df.filter(items = keep_cols)] returns, when it returns: the first
    date column followed by the columns that are not date columns. *)
Lemma filter_items_keep_cols (df : DataFrame) (first : string)
    (others : list string) (filtered : DataFrame) :
  filter (Py.contains "dates") (columns df) = first :: others ->
  pd.filter_items df
    (firstn 1 (first :: others)
     ++ filter (fun col => negb (Py.contains "dates" col)) (columns df))
  = Ok filtered ->
  exists cells,
    Py.get first (data df) = Some cells
    /\ filtered = mkDataFrame (index df) ((first, cells) :: filter not_date (data df)).
Proof.
  intros Hd. unfold pd.filter_items. cbn [firstn app].
  assert (Hfirst : In first (columns df) /\ Py.contains "dates" first = true).
  { apply filter_In. rewrite Hd. left. reflexivity. }
  destruct Hfirst as [Hin Hdate].
  assert (Htarget :
    filter (fun r => mem r (columns df))
      (first :: filter (fun col => negb (Py.contains "dates" col)) (columns df))
    = first :: filter (fun col => negb (Py.contains "dates" col)) (columns df)).
  { apply filter_all. intros x [<- | Hx]; apply mem_In; [assumption |].
    apply filter_In in Hx. tauto. }
  rewrite Htarget.
  destruct (list_eqb String.eqb _ (columns df)) eqn:Eq.
  - (* the column list is already the first date column and the others *)
    apply list_eqb_string_eq in Eq. intros H. inversion H. subst filtered.
    destruct df as [idx d]. unfold columns in *. cbn [data index] in *.
    destruct d as [| [k v] d]; [discriminate |].
    cbn [map fst filter] in Eq.
    destruct (Py.contains "dates" k) eqn:Ek; cbn [negb] in Eq.
    + inversion Eq as [[Ek' Erest]]. subst k. exists v. split.
      * simpl. rewrite String.eqb_refl. reflexivity.
      * f_equal. f_equal. cbn [filter]. unfold not_date at 1. cbn [fst].
        rewrite Hdate. cbn [negb]. symmetry. apply filter_all.
        intros c Hc. unfold not_date.
        apply (filter_fixed (fun col => negb (Py.contains "dates" col)) _ Erest (fst c)).
        apply in_map. assumption.
    + inversion Eq. congruence.
  - destruct (is_unique (columns df)) eqn:U; [| discriminate].
    intros H. inversion H. clear H. cbn [map].
    assert (Hget : exists cells, Py.get first (data df) = Some cells).
    { clear - Hin. unfold columns in Hin. induction (data df) as [| [k v] d IH].
      - destruct Hin.
      - simpl. destruct (String.eqb first k) eqn:E; [eauto |].
        apply IH. destruct Hin as [E' | ?]; [| assumption].
        simpl in E'. subst. rewrite String.eqb_refl in E. discriminate. }
    destruct Hget as [cells Hget]. exists cells. split; [assumption |].
    f_equal. f_equal.
    + unfold pd.col_or_nan. rewrite Hget. reflexivity.
    + unfold pd.col_or_nan, columns.
      apply (select_unique (pd.nan_column df) (data df)
               (fun col => negb (Py.contains "dates" col)) U).
Qed.

(** With distinct column names the reindexing goes through. *)
Lemma filter_items_keep_cols_unique (df : DataFrame) (first : string)
    (others : list string) :
  is_unique (columns df) = true ->
  filter (Py.contains "dates") (columns df) = first :: others ->
  exists filtered,
    pd.filter_items df
      (firstn 1 (first :: others)
       ++ filter (fun col => negb (Py.contains "dates" col)) (columns df))
    = Ok filtered.
Proof.
  intros U Hd. unfold pd.filter_items. rewrite U.
  destruct (list_eqb _ _ _); eauto.
Qed.

Section OneDateColumn.

Context {dt : Datetime}.

(** The table that "only keep one date column" returns, when it returns
    one. *)
Lemma only_keep_one_date_column_ok (df out : DataFrame) :
  only_keep_one_date_column df = Ok out ->
  exists first cells converted,
    hd_error (filter (Py.contains "dates") (columns df)) = Some first
    /\ Py.get first (data df) = Some cells
    /\ to_datetime cells = Ok converted
    /\ out = mkDataFrame (index df)
               (("dates", converted) :: filter not_date (data df)).
Proof.
  unfold only_keep_one_date_column.
  destruct (filter (Py.contains "dates") (columns df)) as [| first others] eqn:Hd.
  - destruct (pd.filter_items _ _); simpl; discriminate.
  - destruct (pd.filter_items _ _) as [filtered |] eqn:Hf; simpl; [| discriminate].
    destruct (filter_items_keep_cols df first others filtered Hd Hf)
      as (cells & Hget & ->).
    assert (Hdate : Py.contains "dates" first = true).
    { apply (filter_In (Py.contains "dates") first (columns df)).
      rewrite Hd. left. reflexivity. }
    rewrite (rename_first_date _ _ _ _ Hdate (not_date_rest (data df))).
    rewrite (getitem_dates _ _ _ (not_date_rest (data df))). simpl.
    destruct (to_datetime cells) as [converted |] eqn:Hc; simpl; [| discriminate].
    rewrite (setitem_dates _ _ _ _ (not_date_rest (data df))).
    intros H. inversion H. exists first, cells, converted. auto.
Qed.

(** A table without a date column makes the step raise [IndexError]:
    [date_cols[0]] is evaluated whatever the table. *)
Lemma only_keep_one_date_column_none (df : DataFrame) :
  (forall c, In c (columns df) -> Py.contains "dates" c = false) ->
  only_keep_one_date_column df = Err IndexError.
Proof.
  intros H. unfold only_keep_one_date_column.
  rewrite (filter_none _ _ H). cbn [firstn app].
  rewrite filter_items_self; [reflexivity |].
  rewrite (filter_all (fun col => negb (Py.contains "dates" col))).
  - apply filter_all. intros x Hx. apply mem_In. assumption.
  - intros x Hx. rewrite (H x Hx). reflexivity.
Qed.

(** With distinct names, a date column and dates the parser accepts, the
    step returns. *)
Lemma only_keep_one_date_column_total (df : DataFrame) first cells converted :
  is_unique (columns df) = true ->
  hd_error (filter (Py.contains "dates") (columns df)) = Some first ->
  Py.get first (data df) = Some cells ->
  to_datetime cells = Ok converted ->
  only_keep_one_date_column df
  = Ok (mkDataFrame (index df)
          (("dates", converted) :: filter not_date (data df))).
Proof.
  intros U Hh Hget Hconv. unfold only_keep_one_date_column.
  destruct (filter (Py.contains "dates") (columns df)) as [| f others] eqn:Hd;
    [discriminate |].
  simpl in Hh. inversion Hh. subst f.
  destruct (filter_items_keep_cols_unique df first others U Hd) as [filtered Hf].
  rewrite Hf. simpl.
  destruct (filter_items_keep_cols df first others filtered Hd Hf)
    as (cells' & Hget' & ->).
  assert (cells' = cells) by congruence. subst cells'.
  assert (Hdate : Py.contains "dates" first = true).
  { apply (filter_In (Py.contains "dates") first (columns df)).
    rewrite Hd. left. reflexivity. }
  rewrite (rename_first_date _ _ _ _ Hdate (not_date_rest (data df))).
  rewrite (getitem_dates _ _ _ (not_date_rest (data df))). simpl.
  rewrite Hconv. simpl.
  rewrite (setitem_dates _ _ _ _ (not_date_rest (data df))). reflexivity.
Qed.

End OneDateColumn.

Lemma filter_regex_columns (df : DataFrame) (alternatives : list string) c :
  In c (columns (pd.filter_regex df alternatives)) -> In c (columns df).
Proof.
  unfold columns, pd.filter_regex. cbn [data]. intros H.
  apply in_map_iff in H. destruct H as (x & <- & Hx).
  apply filter_In in Hx. apply in_map. tauto.
Qed.

Lemma date_columns_of_result (converted : list cell)
    (d : list (string * list cell)) :
  filter (Py.contains "dates") (map fst (("dates", converted) :: filter not_date d))
  = ["dates"].
Proof.
  cbn [map fst filter]. rewrite is_date_dates. f_equal.
  apply filter_none. intros x Hx. apply in_map_iff in Hx.
  destruct Hx as (c & <- & Hc). apply (not_date_rest d c Hc).
Qed.

Section Dates.

Context {S : Type} {transport : Transport S} {dt : Datetime}.

(** C10: when the assembled table has no column whose name contains
    "dates", [evalmetrics] and [getprojectionhistory] raise [IndexError]
    and return no table, with [remove_meta] or without it. *)
Theorem no_date_column_raises :
  (forall typename body get_all remove_meta (w w' : world S) df0,
      evalmetrics_assemble typename body get_all w = (Ret df0, w') ->
      (forall c, In c (columns df0) -> Py.contains "dates" c = false) ->
      evalmetrics typename body get_all remove_meta w = (Raise IndexError, w'))
  /\ (forall body remove_meta (w w' : world S) df0,
      getprojectionhistory_assemble body w = (Ret df0, w') ->
      (forall c, In c (columns df0) -> Py.contains "dates" c = false) ->
      getprojectionhistory body remove_meta w = (Raise IndexError, w')).
Proof.
  split.
  - intros typename body get_all remove_meta w w' df0 Hrun Hnone.
    unfold evalmetrics. rewrite (bind_of_ret _ _ _ _ _ Hrun).
    apply lift_err. apply only_keep_one_date_column_none.
    destruct remove_meta; [| assumption].
    intros c Hc. apply Hnone. apply (filter_regex_columns _ _ _ Hc).
  - intros body remove_meta w w' df0 Hrun Hnone.
    unfold getprojectionhistory. rewrite (bind_of_ret _ _ _ _ _ Hrun).
    apply bind_of_raise. apply lift_err.
    apply only_keep_one_date_column_none.
    destruct remove_meta; [| assumption].
    intros c Hc. apply Hnone. apply (filter_regex_columns _ _ _ Hc).
Qed.

(** C3, as the code has it.  Whenever [evalmetrics] returns a table, the
    table it assembled had a date column, and the returned table is: one
    column named [dates], holding the converted cells of the first column
    whose name contains "dates", followed by every column whose name does
    not contain "dates", untouched and in order; it has exactly one date
    column.  [getprojectionhistory] returns that same table with ".value"
    taken out of the names.  With distinct column names, a date column
    and dates the parser accepts, the step does return. *)
Theorem one_date_column :
  (forall typename body get_all remove_meta (w w' : world S) out,
      evalmetrics typename body get_all remove_meta w = (Ret out, w') ->
      exists df0 first cells converted,
        evalmetrics_assemble typename body get_all w = (Ret df0, w')
        /\ let df := if remove_meta
                     then pd.filter_regex df0 ["dates"; "data"; "missing"]
                     else df0 in
           hd_error (filter (Py.contains "dates") (columns df)) = Some first
           /\ Py.get first (data df) = Some cells
           /\ to_datetime cells = Ok converted
           /\ out = mkDataFrame (index df)
                      (("dates", converted) :: filter not_date (data df))
           /\ filter (Py.contains "dates") (columns out) = ["dates"])
  /\ (forall body remove_meta (w w' : world S) out,
      getprojectionhistory body remove_meta w = (Ret out, w') ->
      exists df0 first cells converted,
        getprojectionhistory_assemble body w = (Ret df0, w')
        /\ let df := if remove_meta
                     then pd.filter_regex df0 ["dates"; "data"; "missing"; "expr"]
                     else df0 in
           hd_error (filter (Py.contains "dates") (columns df)) = Some first
           /\ Py.get first (data df) = Some cells
           /\ to_datetime cells = Ok converted
           /\ out = pd.rename
                      (mkDataFrame (index df)
                         (("dates", converted) :: filter not_date (data df)))
                      (fun x => Py.replace x ".value" ""))
  /\ (forall df first cells converted,
      is_unique (columns df) = true ->
      hd_error (filter (Py.contains "dates") (columns df)) = Some first ->
      Py.get first (data df) = Some cells ->
      to_datetime cells = Ok converted ->
      only_keep_one_date_column df
      = Ok (mkDataFrame (index df)
              (("dates", converted) :: filter not_date (data df)))).
Proof.
  split; [| split].
  - intros typename body get_all remove_meta w w' out Hrun.
    unfold evalmetrics in Hrun.
    apply bind_ret_inv in Hrun. destruct Hrun as (df0 & w1 & Hasm & Hpost).
    apply lift_ret_inv in Hpost. destruct Hpost as [Hkeep ->].
    apply only_keep_one_date_column_ok in Hkeep.
    destruct Hkeep as (first & cells & converted & H1 & H2 & H3 & ->).
    exists df0, first, cells, converted. split; [assumption |].
    cbv zeta. repeat (split; [assumption || reflexivity |]).
    apply date_columns_of_result.
  - intros body remove_meta w w' out Hrun.
    unfold getprojectionhistory in Hrun.
    apply bind_ret_inv in Hrun. destruct Hrun as (df0 & w1 & Hasm & Hpost).
    apply bind_ret_inv in Hpost. destruct Hpost as (df1 & w2 & Hkeep & Hret).
    apply lift_ret_inv in Hkeep. destruct Hkeep as [Hkeep ->].
    unfold ret in Hret. inversion Hret. subst.
    apply only_keep_one_date_column_ok in Hkeep.
    destruct Hkeep as (first & cells & converted & H1 & H2 & H3 & ->).
    exists df0, first, cells, converted. split; [assumption |].
    cbv zeta. repeat (split; [assumption || reflexivity |]). reflexivity.
  - apply only_keep_one_date_column_total.
Qed.

End Dates.

Lemma no_date_column_raises_witness :
  evalmetrics "outbreaklocation" (JObj []) false false
    (start (ok_response empty_result))
  = (Raise IndexError,
     mkWorld (ok_response empty_result)
       [mkCall (mkRequest (endpoint "outbreaklocation" "evalmetrics")
                  (JObj []) json_headers)
               (Ok empty_result)])
  /\ getprojectionhistory (JObj []) true (start (ok_response (JObj [])))
     = (Raise IndexError,
        mkWorld (ok_response (JObj []))
          [mkCall (mkRequest (endpoint "outbreaklocation" "getprojectionhistory")
                     (JObj []) json_headers)
                  (Ok (JObj []))]).
Proof.
  split.
  - apply (proj1 (no_date_column_raises (transport := constant) (dt := epoch_ns))
             "outbreaklocation" (JObj []) false false
             (start (ok_response empty_result)) _
             (mkDataFrame [0] [])).
    + reflexivity.
    + simpl. tauto.
  - apply (proj2 (no_date_column_raises (transport := constant) (dt := epoch_ns))
             (JObj []) true (start (ok_response (JObj []))) _
             (mkDataFrame [0] [])).
    + reflexivity.
    + simpl. tauto.
Defined.

Lemma one_date_column_witness :
  (exists out w',
      evalmetrics "outbreaklocation" (JObj []) false true
        (start (ok_response two_dates_result)) = (Ret out, w')
      /\ columns out = ["dates"; "expr1.data"]
      /\ filter (Py.contains "dates") (columns out) = ["dates"])
  /\ (exists out w',
      getprojectionhistory (JObj []) false
        (start (ok_response hidden_dates_history)) = (Ret out, w')
      /\ index out = [0; 0])
  /\ only_keep_one_date_column
       (mkDataFrame [0] [("a.dates", [Val (JNum 5)]); ("a.data", [Val (JNum 6)])])
     = Ok (mkDataFrame [0] [("dates", [Timestamp 5]); ("a.data", [Val (JNum 6)])]).
Proof.
  split; [| split].
  - eexists. eexists. split; [vm_compute; reflexivity |].
    destruct (proj1 (one_date_column (transport := constant) (dt := epoch_ns))
                "outbreaklocation" (JObj []) false true
                (start (ok_response two_dates_result)) _ _ eq_refl)
      as (df0 & first & cells & converted & Hasm & _ & _ & _ & Hout & Hone).
    split; [reflexivity | exact Hone].
  - eexists. eexists. split; [vm_compute; reflexivity |].
    destruct (proj1 (proj2 (one_date_column (transport := constant) (dt := epoch_ns)))
                (JObj []) false
                (start (ok_response hidden_dates_history)) _ _ eq_refl)
      as (df0 & first & cells & converted & Hasm & _ & _ & _ & Hout).
    reflexivity.
  - apply (proj2 (proj2 (one_date_column (transport := constant) (dt := epoch_ns)))
             (mkDataFrame [0] [("a.dates", [Val (JNum 5)]); ("a.data", [Val (JNum 6)])])
             "a.dates" [Val (JNum 5)] [Timestamp 5]);
      reflexivity.
Defined.

(** C3, the claim as stated fails for [getprojectionhistory]: the renaming
    in its last line can make a second column named [dates]. *)
Lemma getprojectionhistory_two_dates :
  exists out w',
    getprojectionhistory (JObj []) false
      (start (ok_response hidden_dates_history)) = (Ret out, w')
    /\ columns out = ["dates"; "dates"]
    /\ filter (Py.contains "dates") (columns out) <> ["dates"].
Proof.
  eexists. eexists. split; [vm_compute; reflexivity |].
  split; [reflexivity | discriminate].
Qed.

(** ** Taking ".value" out of the names *)

(** A pattern without a dot that does not start [s] does not start [s]
    followed by a dot either. *)
Lemma prefix_before_dot (q s t : string) :
  ~ In "."%char (list_ascii_of_string q) ->
  String.prefix q s = false ->
  String.prefix q (s ++ String "." t) = false.
Proof.
  revert s. induction q as [| c q IH]; intros s Hq H.
  - destruct s; discriminate.
  - destruct s as [| c0 s]; cbn [String.append String.prefix].
    + destruct (ascii_dec c "."%char) as [-> | _]; [| reflexivity].
      exfalso. apply Hq. left. reflexivity.
    + cbn [String.prefix] in H.
      destruct (ascii_dec c c0); [| reflexivity].
      apply IH; [| assumption].
      intros Hin. apply Hq. right. assumption.
Qed.

(** No occurrence of ".value" starts inside [a] and ends beyond it. *)
Lemma value_no_straddle (c : ascii) (a b : string) :
  String.prefix ".value" (String c a) = false ->
  String.prefix ".value" (String c a ++ ".value" ++ b) = false.
Proof.
  cbn [String.append String.prefix].
  destruct (ascii_dec "."%char c); [| reflexivity].
  intros H.
  change (String.prefix "value" (a ++ String "." ("value" ++ b)) = false).
  apply prefix_before_dot; [| assumption].
  cbn. intros [E | [E | [E | [E | [E | []]]]]]; discriminate.
Qed.

Lemma strip_value_cons (c : ascii) (s : string) :
  String.prefix ".value" (String c s) = false ->
  strip_value (String c s) = String c (strip_value s).
Proof.
  intros H. unfold strip_value, Py.replace. cbn [Py.replace_from].
  rewrite H. reflexivity.
Qed.

Lemma strip_value_occurrence (b : string) :
  strip_value (".value" ++ b) = strip_value b.
Proof.
  unfold strip_value, Py.replace.
  pose proof (prefix_app ".value" b) as H.
  cbn [String.append] in H |- *. cbn [Py.replace_from].
  rewrite H. reflexivity.
Qed.

(** The scan removes the first occurrence and goes on behind it. *)
Lemma strip_value_first (a b : string) :
  Py.contains ".value" a = false ->
  strip_value (a ++ ".value" ++ b) = (a ++ strip_value b)%string.
Proof.
  induction a as [| c a IH]; intros H.
  - apply strip_value_occurrence.
  - cbn [Py.contains] in H. apply orb_false_iff in H. destruct H as [Hp Hc].
    change ((String c a ++ ".value" ++ b)%string)
      with (String c (a ++ ".value" ++ b)).
    rewrite strip_value_cons.
    + rewrite (IH Hc). reflexivity.
    + apply (value_no_straddle c a b Hp).
Qed.

Lemma strip_value_absent (a : string) :
  Py.contains ".value" a = false -> strip_value a = a.
Proof.
  induction a as [| c a IH]; intros H; [reflexivity |].
  cbn [Py.contains] in H. apply orb_false_iff in H. destruct H as [Hp Hc].
  rewrite (strip_value_cons c a Hp), (IH Hc). reflexivity.
Qed.

Section ProjectionHistory.

Context {S : Type} {transport : Transport S} {dt : Datetime}.

(** C9, as the code has it.  The last line of [getprojectionhistory]
    renames every column by one [str.replace] of ".value" by nothing and
    leaves the cells alone.  That one scan takes out the first occurrence
    and every further one it meets behind it, so
    "projection.value.value" becomes "projection", and a name without
    the substring is unchanged; what the removals put together is not
    scanned again. *)
Theorem strip_value_pass :
  (forall body remove_meta (w w' : world S) out,
      getprojectionhistory body remove_meta w = (Ret out, w') ->
      exists df0 df1,
        getprojectionhistory_assemble body w = (Ret df0, w')
        /\ only_keep_one_date_column
             (if remove_meta
              then pd.filter_regex df0 ["dates"; "data"; "missing"; "expr"]
              else df0) = Ok df1
        /\ index out = index df1
        /\ data out = map (fun c => (strip_value (fst c), snd c)) (data df1))
  /\ strip_value "projection.value.value" = "projection"
  /\ (forall a b,
        Py.contains ".value" a = false ->
        strip_value (a ++ ".value" ++ b) = (a ++ strip_value b)%string)
  /\ (forall a, Py.contains ".value" a = false -> strip_value a = a).
Proof.
  split; [| split; [reflexivity | split]].
  - intros body remove_meta w w' out Hrun.
    unfold getprojectionhistory in Hrun.
    apply bind_ret_inv in Hrun. destruct Hrun as (df0 & w1 & Hasm & Hpost).
    apply bind_ret_inv in Hpost. destruct Hpost as (df1 & w2 & Hkeep & Hret).
    apply lift_ret_inv in Hkeep. destruct Hkeep as [Hkeep ->].
    unfold ret in Hret. inversion Hret. subst.
    exists df0, df1. repeat split; assumption.
  - apply strip_value_first.
  - apply strip_value_absent.
Qed.

End ProjectionHistory.

Lemma strip_value_pass_witness :
  (exists out w',
      getprojectionhistory (JObj []) false
        (start (ok_response doubled_value_history)) = (Ret out, w')
      /\ columns out = ["dates"; "projection"])
  /\ strip_value ("projection" ++ ".value" ++ ".value") = "projection"
  /\ strip_value "dates" = "dates".
Proof.
  split; [| split].
  - eexists. eexists. split; [vm_compute; reflexivity |].
    destruct (proj1 (strip_value_pass (transport := constant) (dt := epoch_ns))
                (JObj []) false
                (start (ok_response doubled_value_history)) _ _ eq_refl)
      as (df0 & df1 & _ & _ & _ & Hdata).
    reflexivity.
  - rewrite (proj1 (proj2 (proj2 (strip_value_pass (transport := constant)
                                    (dt := epoch_ns))))
               "projection" ".value" eq_refl).
    reflexivity.
  - apply (proj2 (proj2 (proj2 (strip_value_pass (transport := constant)
                                  (dt := epoch_ns))))
             "dates" eq_refl).
Defined.

(** C9, the claim as stated fails: after the pass a name can still contain
    ".value". *)
Lemma strip_value_leaves_occurrence :
  exists out w',
    getprojectionhistory (JObj []) true
      (start (ok_response nested_value_history)) = (Ret out, w')
    /\ columns out = ["dates"; "data.value"]
    /\ existsb (Py.contains ".value") (columns out) = true.
Proof.
  eexists. eexists. split; [vm_compute; reflexivity |].
  split; reflexivity.
Qed.

(** ** Sequence expansion *)

Lemma explode_cell_sequence (l : list json) :
  l <> [] -> pd.explode_cell (Val (JArr l)) = map Val l.
Proof. destruct l; [congruence | reflexivity]. Qed.

Lemma fold_pointwise_max_same (n : nat) (cs : list (list nat)) :
  (forall k, In k cs -> k = [n]) ->
  fold_left pd.pointwise_max cs [n] = [n].
Proof.
  induction cs as [| k cs IH]; intros H; [reflexivity |].
  cbn [fold_left]. rewrite (H k (or_introl eq_refl)).
  unfold pd.pointwise_max at 2. cbn. rewrite Nat.max_id.
  apply IH. intros k' Hk'. apply H. right. assumption.
Qed.

Lemma fold_pointwise_max_from_one (n : nat) (cs : list (list nat)) :
  1 <= n -> cs <> [] ->
  (forall k, In k cs -> k = [n]) ->
  fold_left pd.pointwise_max cs [1] = [n].
Proof.
  intros Hn Hne H. destruct cs as [| k cs]; [congruence |].
  cbn [fold_left]. rewrite (H k (or_introl eq_refl)).
  unfold pd.pointwise_max at 2. cbn [combine map fst snd].
  rewrite (Nat.max_r 1 n Hn).
  apply fold_pointwise_max_same. intros k' Hk'. apply H. right. assumption.
Qed.

Lemma list_eqb_nat_refl (l : list nat) : list_eqb Nat.eqb l l = true.
Proof.
  induction l as [| a l IH]; [reflexivity |].
  simpl. rewrite Nat.eqb_refl. assumption.
Qed.

(** The expansion of a row of sequences of one length [n >= 1]. *)
Lemma apply_explode_sequences (label n : nat) (cols : list (string * list json)) :
  cols <> [] -> 1 <= n ->
  (forall c, In c cols -> List.length (snd c) = n) ->
  pd.apply_explode (sequence_row label cols) = Ok (expanded_rows label n cols).
Proof.
  intros Hne Hn Hlen. unfold pd.apply_explode, sequence_row, expanded_rows.
  unfold nrows, ncols. cbn [index data List.length Nat.eqb orb].
  rewrite length_map.
  destruct cols as [| c0 cols0] eqn:Ecols; [congruence |]. rewrite <- Ecols in *.
  assert (Hl : List.length cols <> 0) by (rewrite Ecols; discriminate).
  apply Nat.eqb_neq in Hl. rewrite Hl. clear Hl.
  assert (Hcell : forall c, In c cols -> pd.explode_cell (Val (JArr (snd c))) = map Val (snd c)).
  { intros c Hc. apply explode_cell_sequence. specialize (Hlen c Hc).
    destruct (snd c); [simpl in Hlen; lia | discriminate]. }
  assert (Hcounts : forall c, In c cols ->
            pd.explode_counts [Val (JArr (snd c))] = [n]).
  { intros c Hc. unfold pd.explode_counts. cbn [map].
    rewrite (Hcell c Hc), length_map, (Hlen c Hc). reflexivity. }
  rewrite map_map. cbn [snd repeat].
  assert (Hu : fold_left pd.pointwise_max
                 (map (fun c => pd.explode_counts [Val (JArr (snd c))]) cols) [1]
               = [n]).
  { apply fold_pointwise_max_from_one; [assumption | |].
    - rewrite Ecols. discriminate.
    - intros k Hk. apply in_map_iff in Hk. destruct Hk as (c & <- & Hc).
      apply Hcounts. assumption. }
  rewrite Hu.
  assert (Hall : forallb
            (fun k => list_eqb Nat.eqb k [n]
                      || pd.all_ones k && nat_is_unique [label])
            (map (fun c => pd.explode_counts [Val (JArr (snd c))]) cols) = true).
  { apply forallb_forall. intros k Hk. apply in_map_iff in Hk.
    destruct Hk as (c & <- & Hc). rewrite (Hcounts c Hc), list_eqb_nat_refl.
    reflexivity. }
  rewrite Hall. f_equal. f_equal.
  - unfold pd.repeat_each. cbn. apply app_nil_r.
  - rewrite map_map. apply map_ext_in. intros c Hc. cbn [fst snd].
    rewrite (Hcounts c Hc), list_eqb_nat_refl.
    unfold pd.explode_values. cbn [flat_map].
    rewrite (Hcell c Hc), app_nil_r. reflexivity.
Qed.

Lemma nth_error_repeat_lt {A} (x : A) (n k : nat) :
  k < n -> nth_error (repeat x n) k = Some x.
Proof.
  revert k. induction n as [| n IH]; intros k H; [lia |].
  destruct k; [reflexivity |]. simpl. apply IH. lia.
Qed.

(** The expansion of a row of empty sequences: one row of missing
    values. *)
Lemma apply_explode_empty_sequences (label : nat) (cols : list (string * list json)) :
  cols <> [] ->
  (forall c, In c cols -> List.length (snd c) = 0) ->
  pd.apply_explode (sequence_row label cols) = Ok (missing_row label cols).
Proof.
  intros Hne Hlen. unfold pd.apply_explode, sequence_row, missing_row.
  unfold nrows, ncols. cbn [index data List.length Nat.eqb orb].
  rewrite length_map.
  destruct cols as [| c0 cols0] eqn:Ecols; [congruence |]. rewrite <- Ecols in *.
  assert (Hl : List.length cols <> 0) by (rewrite Ecols; discriminate).
  apply Nat.eqb_neq in Hl. rewrite Hl. clear Hl.
  assert (Hnil : forall c, In c cols -> snd c = []).
  { intros c Hc. apply length_zero_iff_nil. apply Hlen. assumption. }
  assert (Hcounts : forall c, In c cols ->
            pd.explode_counts [Val (JArr (snd c))] = [1]).
  { intros c Hc. rewrite (Hnil c Hc). reflexivity. }
  rewrite map_map. cbn [snd repeat].
  assert (Hu : fold_left pd.pointwise_max
                 (map (fun c => pd.explode_counts [Val (JArr (snd c))]) cols) [1]
               = [1]).
  { apply fold_pointwise_max_same.
    intros k Hk. apply in_map_iff in Hk. destruct Hk as (c & <- & Hc).
    apply Hcounts. assumption. }
  rewrite Hu.
  assert (Hall : forallb
            (fun k => list_eqb Nat.eqb k [1]
                      || pd.all_ones k && nat_is_unique [label])
            (map (fun c => pd.explode_counts [Val (JArr (snd c))]) cols) = true).
  { apply forallb_forall. intros k Hk. apply in_map_iff in Hk.
    destruct Hk as (c & <- & Hc). rewrite (Hcounts c Hc). reflexivity. }
  rewrite Hall. f_equal. f_equal.
  rewrite map_map. apply map_ext_in. intros c Hc. cbn [fst snd].
  rewrite (Hcounts c Hc). rewrite (Hnil c Hc). reflexivity.
Qed.

Section Explode.

Context {S : Type} {transport : Transport S}.

(** C7, as the code has it.  A one-row table with at least one column, in
    which every cell holds a sequence of the same length [n], is expanded
    without error, and [evalmetrics] (without [get_all]) and
    [getprojectionhistory] make the expanded table of a response that
    flattens to such a row.  For [n >= 1] the expanded table has exactly
    [n] rows, all under the label of the row, and row [k] holds, column
    by column, element [k] of the sequence of the column.  For [n = 0] it
    has one row, which holds a missing value in every column. *)
Theorem explode_sequences (label n : nat) (cols : list (string * list json)) :
  cols <> [] ->
  (forall c, In c cols -> List.length (snd c) = n) ->
  exists out,
    pd.apply_explode (sequence_row label cols) = Ok out
    /\ (1 <= n ->
        out = expanded_rows label n cols
        /\ nrows out = n
        /\ (forall k, k < n ->
              nth_error (index out) k = Some label
              /\ row out k
                 = map (fun c => option_map Val (nth_error (snd c) k)) cols))
    /\ (n = 0 ->
        out = missing_row label cols
        /\ nrows out = 1
        /\ index out = [label]
        /\ row out 0 = map (fun _ => Some NaN) cols)
    /\ (forall typename body (w w' : world S) response_json result,
          read_data_json typename "evalmetrics" body w = (Ret response_json, w') ->
          Py.getitem response_json "result" = Ok result ->
          pd.json_normalize result = Ok (sequence_row label cols) ->
          evalmetrics_assemble typename body false w = (Ret out, w'))
    /\ (forall body (w w' : world S) response_json,
          read_data_json "outbreaklocation" "getprojectionhistory" body w
          = (Ret response_json, w') ->
          pd.json_normalize response_json = Ok (sequence_row label cols) ->
          getprojectionhistory_assemble body w = (Ret out, w')).
Proof.
  intros Hne Hlen.
  assert (Hex : exists out,
            pd.apply_explode (sequence_row label cols) = Ok out
            /\ (1 <= n -> out = expanded_rows label n cols)
            /\ (n = 0 -> out = missing_row label cols)).
  { destruct n as [| n].
    - exists (missing_row label cols).
      split; [apply apply_explode_empty_sequences; assumption |].
      split; [lia | reflexivity].
    - exists (expanded_rows label (Datatypes.S n) cols).
      split; [apply apply_explode_sequences; [assumption | lia | assumption] |].
      split; [reflexivity | discriminate]. }
  destruct Hex as (out & Hex & Hpos & Hzero).
  exists out. split; [exact Hex |]. split; [| split; [| split]].
  - intros Hn. rewrite (Hpos Hn). split; [reflexivity |]. split.
    + unfold nrows, expanded_rows. cbn [index]. apply repeat_length.
    + intros k Hk. split.
      * unfold expanded_rows. cbn [index]. apply nth_error_repeat_lt. assumption.
      * unfold row, expanded_rows. cbn [data]. rewrite map_map.
        apply map_ext. intros c. cbn [snd]. apply nth_error_map.
  - intros Hn. rewrite (Hzero Hn). split; [reflexivity |].
    split; [reflexivity |]. split; [reflexivity |].
    unfold row, missing_row. cbn [data]. rewrite map_map. reflexivity.
  - intros typename body w w' response_json result Hcall Hres Hnorm.
    unfold evalmetrics_assemble.
    rewrite (bind_of_ret _ _ _ _ _ Hcall).
    rewrite (bind_of_ret _ _ _ _ _ (lift_ok _ _ _ Hres)).
    rewrite (bind_of_ret _ _ _ _ _ (lift_ok _ _ _ Hnorm)).
    apply lift_ok. exact Hex.
  - intros body w w' response_json Hcall Hnorm.
    unfold getprojectionhistory_assemble.
    rewrite (bind_of_ret _ _ _ _ _ Hcall).
    rewrite (bind_of_ret _ _ _ _ _ (lift_ok _ _ _ Hnorm)).
    apply lift_ok. exact Hex.
Qed.

End Explode.

Lemma explode_sequences_witness :
  pd.apply_explode
    (sequence_row 0 [("data", [JNum 10; JNum 20; JNum 30]);
                     ("dates", [JNum 1; JNum 2; JNum 3])])
  = Ok (mkDataFrame [0; 0; 0]
          [("data", [Val (JNum 10); Val (JNum 20); Val (JNum 30)]);
           ("dates", [Val (JNum 1); Val (JNum 2); Val (JNum 3)])])
  /\ row (expanded_rows 0 3 [("data", [JNum 10; JNum 20; JNum 30]);
                             ("dates", [JNum 1; JNum 2; JNum 3])]) 1
     = [Some (Val (JNum 20)); Some (Val (JNum 2))]
  /\ fst (evalmetrics_assemble "outbreaklocation" (JObj []) false
            (start (ok_response three_points_result)))
     = Ret (expanded_rows 0 3 [("data", [JNum 10; JNum 20; JNum 30]);
                               ("dates", [JNum 1; JNum 2; JNum 3])])
  /\ fst (getprojectionhistory_assemble (JObj [])
            (start (ok_response
                      (JObj [("data", JArr [JNum 10; JNum 20; JNum 30]);
                             ("dates", JArr [JNum 1; JNum 2; JNum 3])]))))
     = Ret (expanded_rows 0 3 [("data", [JNum 10; JNum 20; JNum 30]);
                               ("dates", [JNum 1; JNum 2; JNum 3])])
  /\ pd.apply_explode (sequence_row 7 [("dates", []); ("data", [])])
     = Ok (mkDataFrame [7] [("dates", [NaN]); ("data", [NaN])]).
Proof.
  assert (Hne : [("data", [JNum 10; JNum 20; JNum 30]);
                 ("dates", [JNum 1; JNum 2; JNum 3])] <> []) by discriminate.
  assert (Hn : 1 <= 3) by lia.
  assert (Hlen : forall c : string * list json,
            In c [("data", [JNum 10; JNum 20; JNum 30]);
                  ("dates", [JNum 1; JNum 2; JNum 3])] ->
            List.length (snd c) = 3).
  { intros c [<- | [<- | []]]; reflexivity. }
  destruct (explode_sequences (transport := constant) 0 3 _ Hne Hlen)
    as (out & Hex & Hpos & _ & Heval & Hproj).
  destruct (Hpos Hn) as (Hout & _ & Hrow).
  rewrite Hout in Hex, Hrow, Heval, Hproj.
  split; [exact Hex |]. split; [| split; [| split]].
  - apply (proj2 (Hrow 1 ltac:(lia))).
  - erewrite Heval; [reflexivity | reflexivity | reflexivity | reflexivity].
  - erewrite Hproj; [reflexivity | reflexivity | reflexivity].
  - assert (Hne0 : [("dates", @nil json); ("data", [])] <> []) by discriminate.
    assert (Hlen0 : forall c : string * list json,
              In c [("dates", []); ("data", [])] -> List.length (snd c) = 0).
    { intros c [<- | [<- | []]]; reflexivity. }
    destruct (explode_sequences (transport := constant) 7 0 _ Hne0 Hlen0)
      as (out0 & Hex0 & _ & Hzero & _).
    destruct (Hzero eq_refl) as (Hout0 & _).
    rewrite Hout0 in Hex0. exact Hex0.
Defined.

(** C7, the claim as stated fails for [n = 0]: sequences of length 0
    expand into one row of missing values, not into no row. *)
Lemma explode_empty_sequences :
  exists out w',
    evalmetrics_assemble "outbreaklocation" (JObj []) false
      (start (ok_response empty_sequences_result)) = (Ret out, w')
    /\ out = mkDataFrame [0] [("dates", [NaN]); ("data", [NaN])]
    /\ nrows out <> 0.
Proof.
  eexists. eexists. split; [vm_compute; reflexivity |].
  split; [reflexivity | discriminate].
Qed.

(** ** Column-wise concatenation *)

Lemma is_empty_data (df : DataFrame) :
  pd.is_empty df = true -> index df = [] /\ data df = [].
Proof.
  unfold pd.is_empty, nrows, ncols. intros H. apply Nat.eqb_eq in H.
  destruct (index df), (data df); simpl in H; try lia. auto.
Qed.

(** A batch of [evalmetrics] (a flattened mapping, expanded) carries the
    label 0 on all its rows. *)
Lemma batch_from_one_row (result : dict json) (flat new_df : DataFrame) :
  pd.json_normalize (JObj result) = Ok flat ->
  pd.apply_explode flat = Ok new_df ->
  from_one_row new_df.
Proof.
  cbn [pd.json_normalize]. intros Hflat. inversion Hflat. subst flat. clear Hflat.
  unfold pd.apply_explode.
  destruct (_ || _).
  - intros H. inversion H. reflexivity.
  - destruct (forallb _ _); [| discriminate].
    intros H. inversion H. unfold from_one_row, nrows. cbn [index].
    set (u := fold_left _ _ _). unfold pd.of_records. cbn [index List.length seq].
    unfold pd.repeat_each.
    destruct u as [| x u]; [reflexivity |].
    cbn [combine flat_map fst snd]. rewrite app_nil_r, repeat_length.
    reflexivity.
Qed.

Lemma concat_axis1_same_shape (a b : DataFrame) :
  from_one_row a -> from_one_row b -> nrows a = nrows b ->
  exists merged,
    pd.concat_axis1 a b = Ok merged
    /\ index merged = index a /\ data merged = data a ++ data b.
Proof.
  intros Ha Hb Hn.
  assert (Hidx : index a = index b).
  { unfold from_one_row in *. rewrite Ha, Hb, Hn. reflexivity. }
  unfold pd.concat_axis1.
  destruct (pd.is_empty a) eqn:Ea.
  - apply is_empty_data in Ea. destruct Ea as [Ei Ed].
    exists b. rewrite Ed. auto.
  - destruct (pd.is_empty b) eqn:Eb.
    + apply is_empty_data in Eb. destruct Eb as [Ei Ed].
      exists a. rewrite Ed, app_nil_r. auto.
    + rewrite Hidx, list_eqb_nat_refl. eexists. split; [reflexivity |].
      cbn [index data]. auto.
Qed.

(** ** Failures abort the operation *)

Lemma clean_app (cs1 cs2 : list call) :
  clean cs1 -> clean cs2 -> clean (cs1 ++ cs2).
Proof. unfold clean. intros. apply Forall_app. auto. Qed.

Lemma aborts_not_raised {A} (out : outcome A) (cs : list call) :
  (forall e, ~ raised out e) -> aborts_on_failure out cs -> clean cs.
Proof.
  intros Hn [H | (cs0 & c & e & _ & _ & _ & Hr)]; [assumption |].
  destruct (Hn e Hr).
Qed.

Lemma aborts_after_clean {A} (out : outcome A) (cs1 cs2 : list call) :
  clean cs1 -> aborts_on_failure out cs2 -> aborts_on_failure out (cs1 ++ cs2).
Proof.
  intros H1 [H2 | (cs0 & c & e & -> & Hc & He & Hr)].
  - left. apply clean_app; assumption.
  - right. exists (cs1 ++ cs0), c, e. rewrite app_assoc.
    repeat split; try assumption. apply clean_app; assumption.
Qed.

Lemma aborts_raise {A B} (e : pyerror) (cs : list call) :
  aborts_on_failure (@Raise A e) cs -> aborts_on_failure (@Raise B e) cs.
Proof.
  intros [H | (cs0 & c & e' & -> & Hc & He & Hr)]; [left; assumption |].
  right. exists cs0, c, e'. auto.
Qed.

Section Discipline.

Context {S : Type} {transport : Transport S}.

Lemma disciplined_ret {A} (a : A) : disciplined (ret (S := S) a).
Proof.
  intros w out w' H. inversion H. subst. exists []. rewrite app_nil_r.
  split; [reflexivity | left; constructor].
Qed.

Lemma disciplined_lift {A} (r : res A) : disciplined (lift (S := S) r).
Proof.
  intros w out w' H. apply lift_world in H. subst. exists [].
  rewrite app_nil_r. split; [reflexivity | left; constructor].
Qed.

Lemma disciplined_out_of_fuel {A} :
  disciplined (fun w : world S => (@OutOfFuel A, w)).
Proof.
  intros w out w' H. inversion H. subst. exists []. rewrite app_nil_r.
  split; [reflexivity | left; constructor].
Qed.

Lemma disciplined_bind {A B} (m : M S A) (k : A -> M S B) :
  disciplined m -> (forall a, disciplined (k a)) -> disciplined (bind m k).
Proof.
  intros Hm Hk w out w' H. unfold bind in H.
  destruct (m w) as [[a | e |] w1] eqn:E.
  - destruct (Hm _ _ _ E) as (cs1 & Hc1 & Ha1).
    destruct (Hk a _ _ _ H) as (cs2 & Hc2 & Ha2).
    exists (cs1 ++ cs2). split.
    + rewrite Hc2, Hc1, app_assoc. reflexivity.
    + apply aborts_after_clean; [| assumption].
      apply (aborts_not_raised (Ret a)); [| assumption].
      intros e' He'. exact He'.
  - inversion H. subst. destruct (Hm _ _ _ E) as (cs1 & Hc1 & Ha1).
    exists cs1. split; [assumption |]. apply (aborts_raise e cs1 Ha1).
  - inversion H. subst. destruct (Hm _ _ _ E) as (cs1 & Hc1 & Ha1).
    exists cs1. split; [assumption |]. left.
    apply (aborts_not_raised (@OutOfFuel A)); [| assumption].
    intros e' He'. exact He'.
Qed.

Lemma disciplined_read_data_json typename api body :
  disciplined (read_data_json typename api body).
Proof.
  intros w out w' H. unfold read_data_json in H.
  destruct (requests_post _ (server w)) as [answer srv].
  set (rq := mkRequest (endpoint typename api) body json_headers) in *.
  exists [mkCall rq (read_response answer)].
  destruct (read_response answer) as [j | e] eqn:E; simpl in H;
    inversion H; subst; cbn [calls]; split; try reflexivity.
  - left. constructor; [| constructor]. exists j. reflexivity.
  - right. exists [], (mkCall rq (Err e)), e.
    split; [reflexivity |]. split; [constructor |]. split; reflexivity.
Qed.

Lemma disciplined_for_each {A X} (xs : list X) (body : X -> A -> M S A) :
  (forall x a, disciplined (body x a)) ->
  forall a, disciplined (for_each xs body a).
Proof.
  intros Hb. induction xs as [| x xs IH]; intros a; cbn [for_each].
  - apply disciplined_ret.
  - apply disciplined_bind; [apply Hb | intros a'; apply IH].
Qed.

Lemma disciplined_if {A} (b : bool) (m1 m2 : M S A) :
  disciplined m1 -> disciplined m2 -> disciplined (if b then m1 else m2).
Proof. destruct b; auto. Qed.

End Discipline.

Create HintDb discipline.
#[export] Hint Resolve disciplined_ret disciplined_lift disciplined_out_of_fuel
  disciplined_read_data_json disciplined_if : discipline.

Ltac discipline :=
  repeat first
    [ apply disciplined_bind; [| intros ?]
    | apply disciplined_for_each; intros ? ?
    | solve [auto with discipline] ].

Section Abort.

Context {S : Type} {transport : Transport S} {dt : Datetime}.

Lemma disciplined_fetch_loop fuel typename :
  forall body offset df,
    disciplined (fetch_loop (S := S) fuel typename body offset df).
Proof.
  induction fuel as [| fuel IH]; intros body offset df; cbn [fetch_loop].
  - apply disciplined_out_of_fuel.
  - discipline.
Qed.

Lemma disciplined_fetch fuel typename body get_all remove_meta :
  disciplined (fetch (S := S) fuel typename body get_all remove_meta).
Proof.
  unfold fetch, fetch_assemble. apply disciplined_bind.
  - destruct get_all; [apply disciplined_fetch_loop | discipline].
  - intros df. destruct remove_meta; discipline.
Qed.

Lemma disciplined_evalmetrics typename body get_all remove_meta :
  disciplined (evalmetrics (S := S) typename body get_all remove_meta).
Proof.
  unfold evalmetrics, evalmetrics_assemble, evalmetrics_batch.
  apply disciplined_bind; [| intros df; discipline].
  destruct get_all; discipline.
Qed.

(** C5.  In a run of [fetch] or of [evalmetrics], paginated or not, a
    Transport Call that fails is the last call of the run, every call
    before it succeeded, and the run ends by raising the error of that
    call: no table comes back, whatever was merged before. *)
Theorem failure_aborts :
  (forall fuel typename body get_all remove_meta (w w' : world S) out cs c e,
      fetch fuel typename body get_all remove_meta w = (out, w') ->
      calls w' = calls w ++ cs ->
      In c cs -> call_result c = Err e ->
      out = Raise e /\ exists cs0, cs = cs0 ++ [c] /\ clean cs0)
  /\ (forall typename body get_all remove_meta (w w' : world S) out cs c e,
      evalmetrics typename body get_all remove_meta w = (out, w') ->
      calls w' = calls w ++ cs ->
      In c cs -> call_result c = Err e ->
      out = Raise e /\ exists cs0, cs = cs0 ++ [c] /\ clean cs0).
Proof.
  assert (Hkey : forall (out : outcome DataFrame) (w w' : world S) cs cs' c e,
             calls w' = calls w ++ cs' -> aborts_on_failure out cs' ->
             calls w' = calls w ++ cs ->
             In c cs -> call_result c = Err e ->
             out = Raise e /\ exists cs0, cs = cs0 ++ [c] /\ clean cs0).
  { intros out w w' cs cs' c e Hc' Ha Hc Hin He.
    rewrite Hc' in Hc. apply app_inv_head in Hc. subst cs'.
    assert (Hok : forall l, clean l -> In c l -> False).
    { intros l Hl Hi. unfold clean in Hl. rewrite Forall_forall in Hl.
      destruct (Hl c Hi) as [j Hj]. congruence. }
    destruct Ha as [Hclean | (cs0 & c' & e' & -> & Hclean & He' & Hr)].
    - destruct (Hok cs Hclean Hin).
    - apply in_app_or in Hin. destruct Hin as [Hin | [<- | []]].
      + destruct (Hok cs0 Hclean Hin).
      + assert (e' = e) by congruence. subst e'.
        split; [| exists cs0; auto].
        destruct out; simpl in Hr; try contradiction. congruence. }
  split.
  - intros fuel typename body get_all remove_meta w w' out cs c e Hrun.
    destruct (disciplined_fetch fuel typename body get_all remove_meta _ _ _ Hrun)
      as (cs' & Hc' & Ha).
    apply (Hkey out w w' cs cs' c e Hc' Ha).
  - intros typename body get_all remove_meta w w' out cs c e Hrun.
    destruct (disciplined_evalmetrics typename body get_all remove_meta _ _ _ Hrun)
      as (cs' & Hc' & Ha).
    apply (Hkey out w w' cs cs' c e Hc' Ha).
Qed.

End Abort.

Lemma failure_aborts_witness :
  fst (fetch 5 "outbreaklocation" sample_body true true (start failing_script))
  = Raise (Exception (JStr "bad spec"))
  /\ fst (evalmetrics "outbreaklocation" eleven_ids_body true true
            (start failing_batches))
     = Raise (Exception (JStr "bad spec")).
Proof.
  split.
  - pose (run := fetch 5 "outbreaklocation" sample_body true true
                   (start failing_script)).
    apply (proj1 (proj1 (failure_aborts (transport := scripted) (dt := epoch_ns))
                    5 "outbreaklocation" sample_body true true
                    (start failing_script) (snd run) (fst run) (calls (snd run))
                    (mkCall (fetch_request "outbreaklocation"
                               [("spec", JObj [("filter", JStr "contains(id, 'Illinois')")])]
                               [("filter", JStr "contains(id, 'Illinois')")] 1)
                            (Err (Exception (JStr "bad spec"))))
                    (Exception (JStr "bad spec"))
                    (surjective_pairing run) eq_refl
                    (or_intror (or_introl eq_refl)) eq_refl)).
  - pose (run := evalmetrics "outbreaklocation" eleven_ids_body true true
                   (start failing_batches)).
    apply (proj1 (proj2 (failure_aborts (transport := scripted) (dt := epoch_ns))
                    "outbreaklocation" eleven_ids_body true true
                    (start failing_batches) (snd run) (fst run) (calls (snd run))
                    (mkCall (evalmetrics_request "outbreaklocation"
                               [("spec",
                                 JObj [("ids", JArr (map JStr ["a"; "b"; "c"; "d"; "e"; "f";
                                                               "g"; "h"; "i"; "j"; "k"]));
                                       ("expressions", JArr [JStr "JHU_ConfirmedCases"]);
                                       ("start", JStr "2020-01-01")])]
                               [("ids", JArr (map JStr ["a"; "b"; "c"; "d"; "e"; "f";
                                                        "g"; "h"; "i"; "j"; "k"]));
                                ("expressions", JArr [JStr "JHU_ConfirmedCases"]);
                                ("start", JStr "2020-01-01")]
                               [JStr "k"] [JStr "JHU_ConfirmedCases"])
                            (Err (Exception (JStr "bad spec"))))
                    (Exception (JStr "bad spec"))
                    (surjective_pairing run) eq_refl
                    (or_intror (or_introl eq_refl)) eq_refl)).
Defined.

(** ** The caller's body across the passes of a loop *)

Lemma get_set_same {V} (k : string) (v : V) (d : dict V) :
  Py.get k (Py.set k v d) = Some v.
Proof.
  induction d as [| [k' v'] d IH]; cbn [Py.set Py.get].
  - rewrite String.eqb_refl. reflexivity.
  - destruct (String.eqb k k') eqn:E; cbn [Py.get].
    + rewrite String.eqb_refl. reflexivity.
    + rewrite E. assumption.
Qed.

Lemma set_set {V} (k : string) (v v' : V) (d : dict V) :
  Py.set k v (Py.set k v' d) = Py.set k v d.
Proof.
  induction d as [| [k' x] d IH]; cbn [Py.set].
  - rewrite String.eqb_refl. reflexivity.
  - destruct (String.eqb k k') eqn:E; cbn [Py.set].
    + rewrite String.eqb_refl. reflexivity.
    + rewrite E, IH. reflexivity.
Qed.

(** Two assignments to different keys commute when the first key is
    already there. *)
Lemma set_comm {V} (k1 k2 : string) (v1 v2 : V) (d : dict V) :
  k1 <> k2 -> Py.get k1 d <> None ->
  Py.set k1 v1 (Py.set k2 v2 d) = Py.set k2 v2 (Py.set k1 v1 d).
Proof.
  intros Hne. induction d as [| [k x] d IH]; cbn [Py.get Py.set]; intros Hget.
  - congruence.
  - assert (H12 : String.eqb k1 k2 = false) by (apply String.eqb_neq; assumption).
    assert (H21 : String.eqb k2 k1 = false)
      by (apply String.eqb_neq; congruence).
    destruct (String.eqb k1 k) eqn:E1; destruct (String.eqb k2 k) eqn:E2.
    + apply String.eqb_eq in E1, E2. congruence.
    + apply String.eqb_eq in E1. subst k.
      cbn [Py.set]. rewrite String.eqb_refl, H21. reflexivity.
    + apply String.eqb_eq in E2. subst k.
      cbn [Py.set]. rewrite String.eqb_refl, H12. reflexivity.
    + cbn [Py.set]. rewrite E1, E2, (IH Hget). reflexivity.
Qed.

Lemma update_twice (k1 k2 : string) (a b a' b' : json) (d : dict json) :
  k1 <> k2 ->
  Py.update (Py.update d [(k1, a); (k2, b)]) [(k1, a'); (k2, b')]
  = Py.update d [(k1, a'); (k2, b')].
Proof.
  intros Hne. unfold Py.update. cbn [fold_left fst snd].
  rewrite (set_comm k1 k2 a' b (Py.set k1 a d) Hne).
  - rewrite !set_set. reflexivity.
  - rewrite get_set_same. discriminate.
Qed.

Lemma update_spec_body (body spec kwargs : dict json) :
  Py.get "spec" body = Some (JObj spec) ->
  update_spec (JObj body) kwargs = Ok (with_spec body spec kwargs).
Proof.
  intros H. unfold update_spec, Py.getitem. rewrite H. reflexivity.
Qed.

Lemma update_spec_tracks (body spec : dict json) (k1 k2 : string) (current : json)
    (a b : json) :
  k1 <> k2 ->
  Py.get "spec" body = Some (JObj spec) ->
  tracks body spec k1 k2 current ->
  update_spec current [(k1, a); (k2, b)]
  = Ok (with_spec body spec [(k1, a); (k2, b)]).
Proof.
  intros Hne Hspec [-> | (a0 & b0 & ->)].
  - apply update_spec_body. assumption.
  - unfold with_spec at 1. unfold update_spec, Py.getitem.
    rewrite get_set_same. cbn [res_bind].
    rewrite set_set, (update_twice k1 k2 a0 b0 a b spec Hne). reflexivity.
Qed.

(** ** Row-wise accumulation *)

Lemma mem_filter_neq (x : string) (l : list string) :
  mem x (filter (fun y => negb (String.eqb x y)) l) = false.
Proof.
  destruct (mem _ _) eqn:E; [| reflexivity].
  apply mem_In in E. apply filter_In in E. destruct E as [_ E].
  rewrite String.eqb_refl in E. discriminate.
Qed.

Lemma is_unique_filter (p : string -> bool) (l : list string) :
  is_unique l = true -> is_unique (filter p l) = true.
Proof.
  induction l as [| x l IH]; [reflexivity |].
  cbn [is_unique filter]. intros H. apply andb_true_iff in H.
  destruct H as [Hx Hl]. destruct (p x); [| auto].
  cbn [is_unique]. rewrite (IH Hl), andb_true_r.
  apply negb_true_iff in Hx. apply negb_true_iff.
  destruct (mem x (filter p l)) eqn:E; [| reflexivity].
  apply mem_In in E. apply filter_In in E. destruct E as [E _].
  apply mem_In in E. congruence.
Qed.

Lemma is_unique_unique (l : list string) : is_unique (unique l) = true.
Proof.
  induction l as [| x l IH]; [reflexivity |].
  cbn [unique is_unique]. rewrite mem_filter_neq. cbn [negb andb].
  apply is_unique_filter. assumption.
Qed.

Lemma of_records_columns (records : list (dict json)) :
  columns (pd.of_records records) = unique (flat_map (map fst) records).
Proof.
  unfold columns, pd.of_records. cbn [data]. rewrite map_map. cbn [fst].
  apply map_id.
Qed.

Lemma as_records_objects (objs : list (dict json)) :
  pd.as_records (map JObj objs) = Ok (map pd.nested_to_record objs).
Proof.
  induction objs as [| d objs IH]; [reflexivity |].
  cbn [map pd.as_records]. rewrite IH. reflexivity.
Qed.

(** A list of [n] records flattens into a table of [n] rows with distinct
    column names. *)
Lemma json_normalize_objs (objs : list (dict json)) :
  exists new_df,
    pd.json_normalize (JArr (map JObj objs)) = Ok new_df
    /\ nrows new_df = List.length objs
    /\ is_unique (columns new_df) = true.
Proof.
  destruct objs as [| d objs].
  - exists pd.empty. repeat split.
  - exists (pd.of_records (map pd.nested_to_record (d :: objs))).
    split; [| split].
    + change (map JObj (d :: objs)) with (JObj d :: map JObj objs).
      cbn [pd.json_normalize].
      change (JObj d :: map JObj objs) with (map JObj (d :: objs)).
      rewrite as_records_objects. reflexivity.
    + unfold nrows, pd.of_records. cbn [index].
      rewrite length_seq, length_map. reflexivity.
    + rewrite of_records_columns. apply is_unique_unique.
Qed.

Lemma map_fst_combine {A B} (l1 : list A) (l2 : list B) :
  List.length l1 = List.length l2 ->
  map (fun cc => fst cc) (combine l1 l2) = l1.
Proof.
  revert l2. induction l1 as [| a l1 IH]; intros [| b l2] H;
    simpl in *; try reflexivity; try discriminate.
  f_equal. apply IH. lia.
Qed.

(** Appending adds the rows and keeps the column names distinct. *)
Lemma append_rows (df other : DataFrame) :
  is_unique (columns df) = true -> is_unique (columns other) = true ->
  exists r,
    pd.append df other = Ok r
    /\ nrows r = nrows df + nrows other
    /\ is_unique (columns r) = true.
Proof.
  intros U1 U2. unfold pd.append.
  destruct (pd.is_empty other) eqn:E2.
  - exists df. apply is_empty_data in E2. destruct E2 as [Ei _].
    unfold nrows at 3. rewrite Ei. cbn [List.length]. rewrite Nat.add_0_r. auto.
  - destruct (pd.is_empty df) eqn:E1.
    + exists other. apply is_empty_data in E1. destruct E1 as [Ei _].
      unfold nrows at 2. rewrite Ei. auto.
    + destruct (list_eqb String.eqb (columns df) (columns other)) eqn:Ec.
      * eexists. split; [reflexivity |]. split.
        -- unfold nrows. cbn [index]. apply length_app.
        -- apply list_eqb_string_eq in Ec.
           assert (Hc : columns (mkDataFrame (index df ++ index other)
                         (map (fun cc => (fst (fst cc), snd (fst cc) ++ snd (snd cc)))
                              (combine (data df) (data other))))
                        = columns df).
           { unfold columns. cbn [data]. rewrite map_map. cbn [fst].
             rewrite <- (map_map (fun cc => fst cc) fst).
             rewrite map_fst_combine; [reflexivity |].
             unfold columns in Ec.
             rewrite <- (length_map fst (data df)), Ec, length_map. reflexivity. }
           rewrite Hc. assumption.
      * rewrite U1, U2. cbn [andb]. eexists. split; [reflexivity |]. split.
        -- unfold nrows. cbn [index]. apply length_app.
        -- unfold columns. cbn [data]. rewrite map_map. cbn [fst].
           rewrite map_id. apply is_unique_unique.
Qed.

(** ** Pagination *)

Section Pagination.

Context {S : Type} {transport : Transport S}.

Lemma read_data_json_ok typename api body (w : world S) srv j :
  requests_post (mkRequest (endpoint typename api) body json_headers) (server w)
  = (Ok (mkResponse 200 (Some j)), srv) ->
  read_data_json typename api body w
  = (Ret j,
     mkWorld srv
       (calls w ++ [mkCall (mkRequest (endpoint typename api) body json_headers)
                      (Ok j)])).
Proof.
  intros H. rewrite (read_data_json_run _ _ _ _ _ _ H). reflexivity.
Qed.

(** The loop of [fetch], started at page [k] on a server that will answer
    the requests for the pages [k], [k + 1], ... with [pages], the last of
    which is the first to say that there is no more. *)
Lemma fetch_loop_pages (typename : string) (bd sd : dict json) :
  Py.get "spec" bd = Some (JObj sd) ->
  forall (pages : list (list (dict json) * bool)) (fuel : nat) (current : json)
         (k : nat) (df : DataFrame) (w : world S),
    tracks bd sd "limit" "offset" current ->
    is_unique (columns df) = true ->
    stops_at_last (map snd pages) = true ->
    Forall2 (fun answer p => is_page answer (fst p) (snd p))
      (answers (server w)
         (map (fetch_request typename bd sd) (seq k (List.length pages))))
      pages ->
    List.length pages <= fuel ->
    exists out w' cs,
      fetch_loop fuel typename current (2000 * Z.of_nat k) df w = (Ret out, w')
      /\ nrows out
         = nrows df + list_sum (map (fun p => List.length (fst p)) pages)
      /\ calls w' = calls w ++ cs
      /\ map call_request cs
         = map (fetch_request typename bd sd) (seq k (List.length pages))
      /\ clean cs.
Proof.
  intros Hspec pages.
  induction pages as [| [objs more] pages IH];
    intros fuel current k df w Htracks Hunique Hstop Hserve Hfuel.
  - discriminate.
  - destruct fuel as [| fuel]; [cbn in Hfuel; lia |].
    cbn [List.length seq map answers] in Hserve.
    destruct (requests_post (fetch_request typename bd sd k) (server w))
      as [answer srv] eqn:Hpost.
    inversion Hserve as [| ? ? ? ? Hpage Hrest]. subst.
    destruct Hpage as (j & -> & Hobjs & Hmore). cbn [fst snd] in *.
    destruct (json_normalize_objs objs) as (new_df & Hnorm & Hrows & Hnew).
    destruct (append_rows df new_df Hunique Hnew) as (df2 & Happ & Hrows2 & Hu2).
    assert (Hupd : update_spec current
                     [("limit", JNum limit); ("offset", JNum (2000 * Z.of_nat k))]
                   = Ok (with_spec bd sd
                           [("limit", JNum 2000);
                            ("offset", JNum (2000 * Z.of_nat k))])).
    { apply update_spec_tracks; [discriminate | assumption | assumption]. }
    cbn [fetch_loop].
    rewrite (bind_of_ret _ _ _ _ _ (lift_ok _ _ _ Hupd)).
    rewrite (bind_of_ret _ _ _ _ _
               (read_data_json_ok typename "fetch" _ w srv j Hpost)).
    rewrite (bind_of_ret _ _ _ _ _ (lift_ok _ _ _ Hobjs)).
    rewrite (bind_of_ret _ _ _ _ _ (lift_ok _ _ _ Hnorm)).
    rewrite (bind_of_ret _ _ _ _ _ (lift_ok _ _ _ Happ)).
    rewrite (bind_of_ret _ _ _ _ _ (lift_ok _ _ _ Hmore)).
    cbn [Py.truthy].
    set (c := mkCall (fetch_request typename bd sd k) (Ok j)).
    assert (Hc : clean [c]).
    { constructor; [exists j; reflexivity | constructor]. }
    destruct pages as [| p pages].
    + (* the last page *)
      cbn [map stops_at_last snd] in Hstop. apply negb_true_iff in Hstop.
      subst more. exists df2, (mkWorld srv (calls w ++ [c])), [c].
      split; [reflexivity |]. split; [| auto].
      rewrite Hrows2, Hrows. cbn [map fst]. unfold list_sum. cbn [fold_right]. lia.
    + (* a page that announces more *)
      change (map snd ((objs, more) :: p :: pages))
        with (more :: map snd (p :: pages)) in Hstop.
      cbn [stops_at_last] in Hstop.
      assert (Hm : more = true /\ stops_at_last (map snd (p :: pages)) = true).
      { destruct (map snd (p :: pages)) eqn:E; [discriminate |].
        apply andb_true_iff in Hstop. exact Hstop. }
      destruct Hm as [-> Hstop'].
      assert (Hoff : (2000 * Z.of_nat k + limit = 2000 * Z.of_nat (Datatypes.S k))%Z)
        by (unfold limit; lia).
      rewrite Hoff.
      destruct (IH fuel
                  (with_spec bd sd
                     [("limit", JNum 2000); ("offset", JNum (2000 * Z.of_nat k))])
                  (Datatypes.S k) df2 (mkWorld srv (calls w ++ [c])))
        as (out & w' & cs & Hrun & Hn & Hcalls & Hreqs & Hclean).
      * right. eauto.
      * assumption.
      * assumption.
      * exact Hrest.
      * cbn [List.length] in Hfuel |- *. lia.
      * exists out, w', (c :: cs). split; [exact Hrun |]. split; [| split; [| split]].
        -- rewrite Hn, Hrows2, Hrows.
           change (map (fun p0 => List.length (fst p0)) ((objs, true) :: p :: pages))
             with (List.length objs
                   :: map (fun p0 => List.length (fst p0)) (p :: pages)).
           unfold list_sum. cbn [fold_right]. lia.
        -- rewrite Hcalls. cbn [calls]. rewrite <- app_assoc. reflexivity.
        -- change (List.length ((objs, true) :: p :: pages))
             with (Datatypes.S (List.length (p :: pages))).
           cbn [seq map]. rewrite Hreqs. reflexivity.
        -- constructor; [exists j; reflexivity | exact Hclean].
Qed.

End Pagination.

Lemma get_set_other {V} (k k' : string) (v : V) (d : dict V) :
  k <> k' -> Py.get k (Py.set k' v d) = Py.get k d.
Proof.
  intros Hne. apply String.eqb_neq in Hne.
  induction d as [| [k0 x] d IH]; cbn [Py.set Py.get].
  - rewrite Hne. reflexivity.
  - destruct (String.eqb k' k0) eqn:E; cbn [Py.get].
    + apply String.eqb_eq in E. subst k0. rewrite Hne. reflexivity.
    + rewrite IH. reflexivity.
Qed.

(** The spec sent for page [page] asks for 2000 records from
    [2000 * page] on. *)
Lemma fetch_request_limit_offset typename (bd sd : dict json) (page : nat) :
  exists spec,
    Py.getitem (payload (fetch_request typename bd sd page)) "spec" = Ok (JObj spec)
    /\ Py.get "limit" spec = Some (JNum 2000)
    /\ Py.get "offset" spec = Some (JNum (2000 * Z.of_nat page)).
Proof.
  unfold fetch_request, with_spec. cbn [payload Py.getitem].
  rewrite get_set_same. eexists. split; [reflexivity |].
  unfold Py.update. cbn [fold_left fst snd]. split.
  - rewrite get_set_other by discriminate. apply get_set_same.
  - apply get_set_same.
Qed.

Section FetchAll.

Context {S : Type} {transport : Transport S}.

(** C2.  Let the server answer the requests for the pages 0, 1, ... with
    [pages], each a 200 response with its records under [objs] and its
    flag under [hasMore], the last page being the first whose flag is
    false.  Then [fetch] with [get_all], given at least as many iterations
    as there are pages, returns a table; it has made exactly one call per
    page, in order, the call for page [i] asking for [limit] 2000 at
    [offset] 2000 * i, and no call after the page that said there was no
    more; and the table has as many rows as there are records on all the
    pages together. *)
Theorem fetch_all_pages typename (bd sd : dict json)
    (pages : list (list (dict json) * bool)) (fuel : nat) (remove_meta : bool)
    (w : world S) :
  Py.get "spec" bd = Some (JObj sd) ->
  stops_at_last (map snd pages) = true ->
  Forall2 (fun answer p => is_page answer (fst p) (snd p))
    (answers (server w)
       (map (fetch_request typename bd sd) (seq 0 (List.length pages))))
    pages ->
  List.length pages <= fuel ->
  exists out w' cs,
    fetch fuel typename (JObj bd) true remove_meta w = (Ret out, w')
    /\ nrows out = list_sum (map (fun p => List.length (fst p)) pages)
    /\ calls w' = calls w ++ cs
    /\ map call_request cs
       = map (fetch_request typename bd sd) (seq 0 (List.length pages))
    /\ List.length cs = List.length pages
    /\ clean cs
    /\ (forall page, page < List.length pages ->
          exists spec,
            Py.getitem (payload (fetch_request typename bd sd page)) "spec"
            = Ok (JObj spec)
            /\ Py.get "limit" spec = Some (JNum 2000)
            /\ Py.get "offset" spec = Some (JNum (2000 * Z.of_nat page))).
Proof.
  intros Hspec Hstop Hserve Hfuel.
  destruct (fetch_loop_pages typename bd sd Hspec pages fuel (JObj bd) 0 pd.empty w
              (or_introl eq_refl) eq_refl Hstop Hserve Hfuel)
    as (df & w' & cs & Hrun & Hn & Hcalls & Hreqs & Hclean).
  assert (Hlen : List.length cs = List.length pages).
  { rewrite <- (length_map call_request cs), Hreqs, length_map, length_seq.
    reflexivity. }
  assert (Hasm : fetch_assemble fuel typename (JObj bd) true w = (Ret df, w'))
    by exact Hrun.
  unfold fetch. rewrite (bind_of_ret _ _ _ _ _ Hasm).
  destruct remove_meta.
  - rewrite drop_filter. eexists. exists w', cs.
    split; [reflexivity |]. split; [exact Hn |].
    repeat (split; [assumption |]).
    intros page _. apply fetch_request_limit_offset.
  - exists df, w', cs. split; [reflexivity |]. split; [exact Hn |].
    repeat (split; [assumption |]).
    intros page _. apply fetch_request_limit_offset.
Qed.

End FetchAll.

Lemma fetch_all_pages_witness :
  exists out w' cs,
    fetch 3 "outbreaklocation" sample_body true true
      (start (map page_answer three_pages)) = (Ret out, w')
    /\ nrows out = 6
    /\ calls w' = cs
    /\ List.length cs = 3.
Proof.
  destruct (fetch_all_pages (transport := scripted) "outbreaklocation"
              [("spec", JObj [("filter", JStr "contains(id, 'Illinois')")])]
              [("filter", JStr "contains(id, 'Illinois')")]
              three_pages 3 true (start (map page_answer three_pages))
              eq_refl eq_refl)
    as (out & w' & cs & Hrun & Hn & Hcalls & _ & Hlen & _).
  - repeat constructor; eexists; repeat split.
  - cbn. lia.
  - exists out, w', cs. auto.
Defined.

(** ** Batches *)

Lemma ceil_div_zero (k : nat) : 1 <= k -> ceil_div 0 k = 0.
Proof. intros H. unfold ceil_div. apply Nat.div_small. lia. Qed.

Lemma ceil_div_step (d k : nat) :
  1 <= k -> 1 <= d -> ceil_div d k = Datatypes.S (ceil_div (d - k) k).
Proof.
  intros Hk Hd. unfold ceil_div.
  destruct (Nat.le_gt_cases d k) as [Hle | Hgt].
  - replace (d - k + k - 1) with (k - 1) by lia.
    rewrite (Nat.div_small (k - 1) k) by lia.
    replace (d + k - 1) with ((d - 1) + 1 * k) by lia.
    rewrite Nat.div_add by lia. rewrite Nat.div_small by lia. reflexivity.
  - replace (d + k - 1) with ((d - k + k - 1) + 1 * k) by lia.
    rewrite Nat.div_add by lia. lia.
Qed.

Lemma slice_list_step {A} (l : list A) (start k : nat) :
  Py.slice_list l start (start + k) = firstn k (skipn start l).
Proof. unfold Py.slice_list. f_equal. lia. Qed.

Lemma range_aux_lt (fuel start stop k s : nat) :
  In s (Py.range_aux fuel start stop k) -> start <= s < stop.
Proof.
  revert start. induction fuel as [| fuel IH]; intros start; cbn [Py.range_aux].
  - intros [].
  - destruct (start <? stop)%nat eqn:E; [| intros []].
    apply Nat.ltb_lt in E. intros [<- | H]; [lia |].
    apply IH in H. lia.
Qed.

Lemma range_aux_length (fuel start stop k : nat) :
  1 <= k -> stop - start <= fuel ->
  List.length (Py.range_aux fuel start stop k) = ceil_div (stop - start) k.
Proof.
  intros Hk. revert start. induction fuel as [| fuel IH]; intros start Hf;
    cbn [Py.range_aux].
  - replace (stop - start) with 0 by lia. rewrite ceil_div_zero by lia.
    reflexivity.
  - destruct (start <? stop)%nat eqn:E.
    + apply Nat.ltb_lt in E. cbn [List.length]. rewrite IH by lia.
      rewrite (ceil_div_step (stop - start) k) by lia.
      do 2 f_equal. lia.
    + apply Nat.ltb_ge in E. replace (stop - start) with 0 by lia.
      rewrite ceil_div_zero by lia. reflexivity.
Qed.

Lemma range_aux_slices {A} (l : list A) (fuel start k : nat) :
  1 <= k -> List.length l - start <= fuel ->
  List.concat (map (fun s => Py.slice_list l s (s + k))
              (Py.range_aux fuel start (List.length l) k))
  = skipn start l.
Proof.
  intros Hk. revert start. induction fuel as [| fuel IH]; intros start Hf;
    cbn [Py.range_aux].
  - rewrite skipn_all2 by lia. reflexivity.
  - destruct (start <? List.length l)%nat eqn:E.
    + cbn [map List.concat]. rewrite IH by lia.
      rewrite slice_list_step, Nat.add_comm, <- skipn_skipn.
      apply firstn_skipn.
    + apply Nat.ltb_ge in E. rewrite skipn_all2 by lia. reflexivity.
Qed.

(** The batches are consecutive, in order, non-empty, of at most [k]
    elements, and there are [ceil (n / k)] of them. *)
Lemma chunks_partition {A} (k : nat) (l : list A) :
  1 <= k ->
  List.concat (chunks k l) = l
  /\ Forall (fun c => 1 <= List.length c <= k) (chunks k l)
  /\ List.length (chunks k l) = ceil_div (List.length l) k.
Proof.
  intros Hk. unfold chunks, Py.range. split; [| split].
  - rewrite range_aux_slices by lia. reflexivity.
  - apply Forall_forall. intros c Hc. apply in_map_iff in Hc.
    destruct Hc as (s & <- & Hs). apply range_aux_lt in Hs.
    rewrite slice_list_step, length_firstn, length_skipn. lia.
  - rewrite length_map, range_aux_length by lia. f_equal. lia.
Qed.

Lemma is_prefix_nil {A} (l : list A) : is_prefix [] l.
Proof. exists 0. reflexivity. Qed.

Lemma is_prefix_refl {A} (l : list A) : is_prefix l l.
Proof. exists (List.length l). symmetry. apply firstn_all. Qed.

Lemma is_prefix_app {A} (l l1 l2 : list A) :
  is_prefix l l1 -> is_prefix l (l1 ++ l2).
Proof.
  intros [k ->]. exists (Nat.min k (List.length l1)).
  rewrite firstn_app.
  replace (Nat.min k (List.length l1) - List.length l1) with 0 by lia.
  cbn [firstn]. rewrite app_nil_r.
  destruct (Nat.le_gt_cases k (List.length l1)).
  - rewrite Nat.min_l by lia. reflexivity.
  - rewrite Nat.min_r by lia. rewrite !firstn_all2 by lia. reflexivity.
Qed.

Lemma is_prefix_after {A} (l0 l l' : list A) :
  is_prefix l l' -> is_prefix (l0 ++ l) (l0 ++ l').
Proof.
  intros [k ->]. exists (List.length l0 + k). symmetry. apply firstn_app_2.
Qed.

Section Loops.

Context {S : Type} {transport : Transport S}.

(** The calls of a [for] loop, when each pass makes calls of its own plan
    and keeps the invariant of the loop variables. *)
Lemma for_each_calls {A X} (xs : list X) (body : X -> A -> M S A)
    (Inv : A -> Prop) (plan : X -> list request) :
  (forall x a w out w',
      Inv a -> body x a w = (out, w') ->
      exists cs,
        calls w' = calls w ++ cs
        /\ is_prefix (map call_request cs) (plan x)
        /\ (forall a', out = Ret a' -> map call_request cs = plan x /\ Inv a')) ->
  forall a w out w',
    Inv a -> for_each xs body a w = (out, w') ->
    exists cs,
      calls w' = calls w ++ cs
      /\ is_prefix (map call_request cs) (flat_map plan xs)
      /\ (forall a', out = Ret a' ->
            map call_request cs = flat_map plan xs /\ Inv a').
Proof.
  intros Hbody. induction xs as [| x xs IH]; intros a w out w' Ha Hrun;
    cbn [for_each flat_map] in *.
  - inversion Hrun. subst. exists []. rewrite app_nil_r.
    split; [reflexivity |]. split; [apply is_prefix_nil |].
    intros a' E. inversion E. subst. auto.
  - unfold bind in Hrun.
    destruct (body x a w) as [o1 w1] eqn:E1.
    destruct (Hbody x a w o1 w1 Ha E1) as (cs1 & Hc1 & Hp1 & Hr1).
    destruct o1 as [a1 | e |].
    + destruct (Hr1 a1 eq_refl) as [Hall1 Ha1].
      destruct (IH a1 w1 out w' Ha1 Hrun) as (cs2 & Hc2 & Hp2 & Hr2).
      exists (cs1 ++ cs2). split; [| split].
      * rewrite Hc2, Hc1, app_assoc. reflexivity.
      * rewrite map_app, Hall1. apply is_prefix_after. assumption.
      * intros a' E. destruct (Hr2 a' E) as [Hall2 Ha2].
        rewrite map_app, Hall1, Hall2. auto.
    + inversion Hrun. subst. exists cs1. split; [assumption |].
      split; [apply is_prefix_app; assumption | discriminate].
    + inversion Hrun. subst. exists cs1. split; [assumption |].
      split; [apply is_prefix_app; assumption | discriminate].
Qed.

End Loops.

Lemma ceil_div_spec (n k : nat) :
  1 <= k -> n <= ceil_div n k * k < n + k.
Proof.
  intros Hk. unfold ceil_div.
  pose proof (Nat.div_mod_eq (n + k - 1) k) as E.
  pose proof (Nat.mod_upper_bound (n + k - 1) k ltac:(lia)) as B.
  nia.
Qed.

Lemma flat_map_singleton {A B} (f : A -> B) (l : list A) :
  flat_map (fun x => [f x]) l = map f l.
Proof. induction l as [| a l IH]; simpl; congruence. Qed.

Lemma flat_map_map {A B C} (f : B -> list C) (g : A -> B) (l : list A) :
  flat_map f (map g l) = flat_map (fun x => f (g x)) l.
Proof. induction l as [| a l IH]; simpl; congruence. Qed.

Lemma length_flat_map_const {A B} (f : A -> list B) (l : list A) (m : nat) :
  (forall x, List.length (f x) = m) ->
  List.length (flat_map f l) = List.length l * m.
Proof.
  intros H. induction l as [| a l IH]; [reflexivity |].
  cbn [flat_map List.length]. rewrite length_app, H, IH. lia.
Qed.

Lemma evalmetrics_plan_length typename (bd sd : dict json) (ids exprs : list json) :
  List.length (evalmetrics_plan typename bd sd ids exprs)
  = ceil_div (List.length ids) 10 * ceil_div (List.length exprs) 4.
Proof.
  unfold evalmetrics_plan.
  rewrite (length_flat_map_const _ _ (ceil_div (List.length exprs) 4)).
  - f_equal. apply (chunks_partition 10 ids). lia.
  - intros ib. rewrite length_map. apply (chunks_partition 4 exprs). lia.
Qed.

Section Batches.

Context {S : Type} {transport : Transport S} {dt : Datetime}.

(** One pass of the inner loop makes one call, with the slices of that
    pass in the spec, and leaves a body of the same kind. *)
Lemma evalmetrics_batch_calls typename (bd sd : dict json) (ids exprs : list json)
    (ids_start expressions_start : nat) (st : json * DataFrame)
    (w w' : world S) out :
  Py.get "spec" bd = Some (JObj sd) ->
  tracks bd sd "ids" "expressions" (fst st) ->
  evalmetrics_batch typename (JArr ids) (JArr exprs) ids_start expressions_start
    st w = (out, w') ->
  exists cs,
    calls w' = calls w ++ cs
    /\ is_prefix (map call_request cs)
         [evalmetrics_request typename bd sd
            (Py.slice_list ids ids_start (ids_start + 10))
            (Py.slice_list exprs expressions_start (expressions_start + 4))]
    /\ (forall st', out = Ret st' ->
          map call_request cs
          = [evalmetrics_request typename bd sd
               (Py.slice_list ids ids_start (ids_start + 10))
               (Py.slice_list exprs expressions_start (expressions_start + 4))]
          /\ tracks bd sd "ids" "expressions" (fst st')).
Proof.
  intros Hspec Htracks Hrun. unfold evalmetrics_batch in Hrun.
  cbn [Py.slice] in Hrun.
  rewrite (bind_of_ret _ _ _ _ _ (lift_ok _ _ _ eq_refl)) in Hrun.
  rewrite (bind_of_ret _ _ _ _ _ (lift_ok _ _ _ eq_refl)) in Hrun.
  assert (Hupd := update_spec_tracks bd sd "ids" "expressions" (fst st)
                    (JArr (Py.slice_list ids ids_start (ids_start + 10)))
                    (JArr (Py.slice_list exprs expressions_start
                             (expressions_start + 4)))
                    ltac:(discriminate) Hspec Htracks).
  rewrite (bind_of_ret _ _ _ _ _ (lift_ok _ _ _ Hupd)) in Hrun.
  set (body' := with_spec bd sd _) in *.
  unfold bind at 1 in Hrun.
  destruct (requests_post (mkRequest (endpoint typename "evalmetrics") body' json_headers)
              (server w)) as [answer srv] eqn:Hpost.
  rewrite (read_data_json_run _ _ _ _ _ _ Hpost) in Hrun.
  set (c := mkCall _ (read_response answer)) in *.
  exists [c]. 
  assert (Hreq : map call_request [c]
                 = [evalmetrics_request typename bd sd
                      (Py.slice_list ids ids_start (ids_start + 10))
                      (Py.slice_list exprs expressions_start (expressions_start + 4))])
    by reflexivity.
  assert (Hw : calls w' = calls w ++ [c] /\
               (forall st', out = Ret st' -> tracks bd sd "ids" "expressions" (fst st'))).
  { destruct (read_response answer) as [j | e]; cbn [lift] in Hrun.
    - unfold bind, lift, ret in Hrun.
      destruct (Py.getitem j "result") as [result | e1];
        [| inversion Hrun; split; [reflexivity | discriminate]].
      destruct (pd.json_normalize result) as [flat | e2];
        [| inversion Hrun; split; [reflexivity | discriminate]].
      destruct (pd.apply_explode flat) as [new_df | e3];
        [| inversion Hrun; split; [reflexivity | discriminate]].
      destruct (pd.concat_axis1 (snd st) new_df) as [df | e4];
        [| inversion Hrun; split; [reflexivity | discriminate]].
      inversion Hrun. split; [reflexivity |].
      intros st' E. inversion E. cbn [fst]. right. unfold body'. eauto.
    - inversion Hrun. split; [reflexivity | discriminate]. }
  destruct Hw as [Hcalls Hinv]. split; [exact Hcalls |].
  split; [rewrite Hreq; apply is_prefix_refl |].
  intros st' E. split; [exact Hreq | apply (Hinv st' E)].
Qed.

(** C1.  Let the spec hold [N] ids and [M] expressions.  The ids are cut
    into consecutive batches of at least 1 and at most 10, in order, and
    there are [ceil (N / 10)] of them; the expressions likewise with 4.
    The calls of [evalmetrics] with [get_all] are, in order, a beginning of
    the plan that pairs every id batch with every expression batch,
    expression batches inside id batches; when the batches have all been
    fetched and merged the calls are the whole plan, that is
    [ceil (N / 10) * ceil (M / 4)] calls. *)
Theorem evalmetrics_batches typename (bd sd : dict json) (ids exprs : list json) :
  Py.get "spec" bd = Some (JObj sd) ->
  Py.get "expressions" sd = Some (JArr exprs) ->
  Py.get "ids" sd = Some (JArr ids) ->
  (List.concat (chunks 10 ids) = ids
   /\ Forall (fun c => 1 <= List.length c <= 10) (chunks 10 ids)
   /\ List.length (chunks 10 ids) = ceil_div (List.length ids) 10)
  /\ (List.concat (chunks 4 exprs) = exprs
      /\ Forall (fun c => 1 <= List.length c <= 4) (chunks 4 exprs)
      /\ List.length (chunks 4 exprs) = ceil_div (List.length exprs) 4)
  /\ (List.length ids <= ceil_div (List.length ids) 10 * 10 < List.length ids + 10
      /\ List.length exprs <= ceil_div (List.length exprs) 4 * 4 < List.length exprs + 4)
  /\ (forall (w w' : world S) out,
        evalmetrics_assemble typename (JObj bd) true w = (out, w') ->
        exists cs,
          calls w' = calls w ++ cs
          /\ is_prefix (map call_request cs)
               (evalmetrics_plan typename bd sd ids exprs)
          /\ (forall df, out = Ret df ->
                map call_request cs = evalmetrics_plan typename bd sd ids exprs
                /\ List.length cs
                   = ceil_div (List.length ids) 10
                     * ceil_div (List.length exprs) 4))
  /\ (forall remove_meta (w w' : world S) df,
        evalmetrics typename (JObj bd) true remove_meta w = (Ret df, w') ->
        exists cs,
          calls w' = calls w ++ cs
          /\ map call_request cs = evalmetrics_plan typename bd sd ids exprs
          /\ List.length cs
             = ceil_div (List.length ids) 10 * ceil_div (List.length exprs) 4).
Proof.
  intros Hspec Hexprs Hids.
  assert (Hasm : forall (w w' : world S) out,
             evalmetrics_assemble typename (JObj bd) true w = (out, w') ->
             exists cs,
               calls w' = calls w ++ cs
               /\ is_prefix (map call_request cs)
                    (evalmetrics_plan typename bd sd ids exprs)
               /\ (forall df, out = Ret df ->
                     map call_request cs = evalmetrics_plan typename bd sd ids exprs
                     /\ List.length cs
                        = ceil_div (List.length ids) 10
                          * ceil_div (List.length exprs) 4)).
  { intros w w' out Hrun. unfold evalmetrics_assemble in Hrun.
    assert (H1 : Py.getitem (JObj bd) "spec" = Ok (JObj sd))
      by (unfold Py.getitem; rewrite Hspec; reflexivity).
    assert (H2 : Py.getitem (JObj sd) "expressions" = Ok (JArr exprs))
      by (unfold Py.getitem; rewrite Hexprs; reflexivity).
    assert (H3 : Py.getitem (JObj sd) "ids" = Ok (JArr ids))
      by (unfold Py.getitem; rewrite Hids; reflexivity).
    rewrite (bind_of_ret _ _ _ _ _ (lift_ok _ _ _ H1)) in Hrun.
    rewrite (bind_of_ret _ _ _ _ _ (lift_ok _ _ _ H2)) in Hrun.
    rewrite (bind_of_ret _ _ _ _ _ (lift_ok _ _ _ H3)) in Hrun.
    cbn [Py.len] in Hrun.
    rewrite (bind_of_ret _ _ _ _ _ (lift_ok _ _ _ eq_refl)) in Hrun.
    unfold bind at 1 in Hrun.
    match type of Hrun with
    | context [for_each ?xs ?body ?a w] =>
        destruct (for_each xs body a w) as [o1 w1] eqn:Hloop
    end.
    apply (for_each_calls _ _
             (fun st => tracks bd sd "ids" "expressions" (fst st))
             (fun ids_start =>
                map (fun expressions_start =>
                       evalmetrics_request typename bd sd
                         (Py.slice_list ids ids_start (ids_start + 10))
                         (Py.slice_list exprs expressions_start
                            (expressions_start + 4)))
                    (Py.range 0 (List.length exprs) 4))) in Hloop.
    - destruct Hloop as (cs & Hcalls & Hpre & Hall).
      assert (Hplan :
        flat_map
          (fun ids_start =>
             map (fun expressions_start =>
                    evalmetrics_request typename bd sd
                      (Py.slice_list ids ids_start (ids_start + 10))
                      (Py.slice_list exprs expressions_start
                         (expressions_start + 4)))
                 (Py.range 0 (List.length exprs) 4))
          (Py.range 0 (List.length ids) 10)
        = evalmetrics_plan typename bd sd ids exprs).
      { unfold evalmetrics_plan, chunks. rewrite flat_map_map.
        apply flat_map_ext. intros s. rewrite map_map. reflexivity. }
      rewrite Hplan in *.
      destruct o1 as [st1 | e |]; inversion Hrun; subst;
        exists cs; (split; [assumption |]); (split; [assumption |]);
        try discriminate.
      intros df _. destruct (Hall st1 eq_refl) as [Heq _].
      split; [exact Heq |].
      rewrite <- (length_map call_request cs), Heq.
      apply evalmetrics_plan_length.
    - intros ids_start st w0 out0 w0' Hinv Hbody.
      cbn [Py.len] in Hbody.
      rewrite (bind_of_ret _ _ _ _ _ (lift_ok _ _ _ eq_refl)) in Hbody.
      rewrite <- flat_map_singleton.
      apply (for_each_calls _ _
               (fun st => tracks bd sd "ids" "expressions" (fst st))
               (fun expressions_start =>
                  [evalmetrics_request typename bd sd
                     (Py.slice_list ids ids_start (ids_start + 10))
                     (Py.slice_list exprs expressions_start
                        (expressions_start + 4))])
               (fun expressions_start st1 w1 out1 w1' Hinv1 Hrun1 =>
                  evalmetrics_batch_calls typename bd sd ids exprs ids_start
                    expressions_start st1 w1 w1' out1 Hspec Hinv1 Hrun1)
               st w0 out0 w0' Hinv Hbody).
    - left. reflexivity. }
  split; [apply chunks_partition; lia |].
  split; [apply chunks_partition; lia |].
  split; [split; apply ceil_div_spec; lia |].
  split; [exact Hasm |].
  intros remove_meta w w' df Hrun. unfold evalmetrics in Hrun.
  apply bind_ret_inv in Hrun. destruct Hrun as (df0 & w1 & Hrun & Hpost).
  apply lift_world in Hpost. subst w'.
  destruct (Hasm w w1 (Ret df0) Hrun) as (cs & Hcalls & _ & Hall).
  exists cs. split; [exact Hcalls |]. apply (Hall df0 eq_refl).
Qed.

End Batches.

Lemma evalmetrics_batches_witness :
  exists df w',
    evalmetrics "outbreaklocation" (JObj batched_body) true true
      (start (map batch_answer (seq 0 6))) = (Ret df, w')
    /\ List.length (calls w') = 6
    /\ map call_request (calls w')
       = evalmetrics_plan "outbreaklocation" batched_body batched_spec
           (names "id" 25) (names "metric" 5)
    /\ List.length (chunks 10 (names "id" 25)) = 3
    /\ List.length (chunks 4 (names "metric" 5)) = 2.
Proof.
  destruct (evalmetrics_batches (transport := scripted) (dt := epoch_ns)
              "outbreaklocation" batched_body batched_spec
              (names "id" 25) (names "metric" 5) eq_refl eq_refl eq_refl)
    as ((_ & _ & Hn) & (_ & _ & Hm) & _ & _ & Hfull).
  eexists. eexists. split; [vm_compute; reflexivity |].
  destruct (Hfull true (start (map batch_answer (seq 0 6))) _ _ eq_refl)
    as (cs & Hcalls & Hplan & Hlen).
  cbn [calls start app] in Hcalls. rewrite <- Hcalls in Hplan, Hlen.
  split; [exact Hlen |]. split; [exact Hplan |]. split; [exact Hn | exact Hm].
Defined.

(** ** Merging the batches *)

Lemma plan_passes typename (bd sd : dict json) (ids exprs : list json) :
  evalmetrics_plan typename bd sd ids exprs
  = map (pass_request typename bd sd ids exprs)
      (passes (List.length ids) (List.length exprs)).
Proof.
  unfold evalmetrics_plan, passes, chunks. rewrite flat_map_map.
  generalize (Py.range 0 (List.length ids) 10). intros l.
  induction l as [| s l IH]; [reflexivity |].
  cbn [flat_map]. rewrite map_app, <- IH. f_equal.
  rewrite !map_map. reflexivity.
Qed.

Lemma concat_map_data {B} (f : DataFrame -> list B) (g : string * list cell -> B)
    (batches : list DataFrame) :
  (forall b, f b = map g (data b)) ->
  map g (List.concat (map data batches)) = List.concat (map f batches).
Proof.
  intros H. induction batches as [| b batches IH]; [reflexivity |].
  cbn [map List.concat]. rewrite map_app, IH, H. reflexivity.
Qed.

Lemma concat_axis1_empty_left (b : DataFrame) : pd.concat_axis1 pd.empty b = Ok b.
Proof. reflexivity. Qed.

Section Merge.

Context {S : Type} {transport : Transport S}.

Lemma for_each_ext {A X} (xs : list X) (f g : X -> A -> M S A) :
  (forall x a w, f x a w = g x a w) ->
  forall a w, for_each xs f a w = for_each xs g a w.
Proof.
  intros H. induction xs as [| x xs IH]; intros a w; [reflexivity |].
  cbn [for_each]. unfold bind. rewrite H.
  destruct (g x a w) as [[a1 | e |] w1]; [apply IH | reflexivity | reflexivity].
Qed.

Lemma for_each_app {A X} (xs ys : list X) (f : X -> A -> M S A) a w :
  for_each (xs ++ ys) f a w = bind (for_each xs f a) (for_each ys f) w.
Proof.
  revert a w. induction xs as [| x xs IH]; intros a w; [reflexivity |].
  cbn [app for_each]. unfold bind.
  destruct (f x a w) as [[a1 | e |] w1]; [| reflexivity | reflexivity].
  rewrite IH. reflexivity.
Qed.

Lemma for_each_map {A X Y} (h : Y -> X) (ys : list Y) (f : X -> A -> M S A) a w :
  for_each (map h ys) f a w = for_each ys (fun y => f (h y)) a w.
Proof.
  revert a w. induction ys as [| y ys IH]; intros a w; [reflexivity |].
  cbn [map for_each]. unfold bind.
  destruct (f (h y) a w) as [[a1 | e |] w1]; [apply IH | reflexivity | reflexivity].
Qed.

(** Two nested [for] loops run the passes of the inner loop, outer value
    by outer value. *)
Lemma for_each_nested {A X Y} (xs : list X) (ys : list Y)
    (f : X -> Y -> A -> M S A) a w :
  for_each xs (fun x st => for_each ys (f x) st) a w
  = for_each (flat_map (fun x => map (pair x) ys) xs)
      (fun p => f (fst p) (snd p)) a w.
Proof.
  revert a w. induction xs as [| x xs IH]; intros a w; [reflexivity |].
  cbn [flat_map for_each]. rewrite for_each_app. unfold bind.
  rewrite for_each_map. cbn [fst snd].
  change (fun y => f x y) with (f x).
  destruct (for_each ys (f x) a w) as [[a1 | e |] w1];
    [apply IH | reflexivity | reflexivity].
Qed.

(** One pass of the loop on an answer that is a batch: the call is made
    with the slices of the pass, and the accumulated table becomes what
    [pd.concat] makes of it and the batch. *)
Lemma evalmetrics_batch_merges typename (bd sd : dict json) (ids exprs : list json)
    (p : nat * nat) (current : json) (df b merged : DataFrame)
    (w : world S) answer srv :
  Py.get "spec" bd = Some (JObj sd) ->
  tracks bd sd "ids" "expressions" current ->
  requests_post (pass_request typename bd sd ids exprs p) (server w)
  = (answer, srv) ->
  is_batch answer b ->
  pd.concat_axis1 df b = Ok merged ->
  exists j,
    answer = Ok (mkResponse 200 (Some j))
    /\ evalmetrics_batch typename (JArr ids) (JArr exprs) (fst p) (snd p)
         (current, df) w
       = (Ret (payload (pass_request typename bd sd ids exprs p), merged),
          mkWorld srv
            (calls w ++ [mkCall (pass_request typename bd sd ids exprs p) (Ok j)])).
Proof.
  intros Hspec Htracks Hpost (j & result & flat & -> & Hres & Hnorm & Hex) Hcat.
  exists j. split; [reflexivity |].
  unfold evalmetrics_batch. cbn [Py.slice fst snd].
  rewrite (bind_of_ret _ _ _ _ _ (lift_ok _ _ _ eq_refl)).
  rewrite (bind_of_ret _ _ _ _ _ (lift_ok _ _ _ eq_refl)).
  assert (Hupd := update_spec_tracks bd sd "ids" "expressions" current
                    (JArr (Py.slice_list ids (fst p) (fst p + 10)))
                    (JArr (Py.slice_list exprs (snd p) (snd p + 4)))
                    ltac:(discriminate) Hspec Htracks).
  rewrite (bind_of_ret _ _ _ _ _ (lift_ok _ _ _ Hupd)).
  rewrite (bind_of_ret _ _ _ _ _
             (read_data_json_ok typename "evalmetrics" _ w srv j Hpost)).
  rewrite (bind_of_ret _ _ _ _ _ (lift_ok _ _ _ Hres)).
  rewrite (bind_of_ret _ _ _ _ _ (lift_ok _ _ _ Hnorm)).
  rewrite (bind_of_ret _ _ _ _ _ (lift_ok _ _ _ Hex)).
  rewrite (bind_of_ret _ _ _ _ _ (lift_ok _ _ _ Hcat)).
  reflexivity.
Qed.

(** The passes of the loop on a server whose answers are batches of [n]
    rows each: every batch is put to the right of what was merged before
    it. *)
Lemma evalmetrics_loop_merges typename (bd sd : dict json) (ids exprs : list json)
    (n : nat) :
  Py.get "spec" bd = Some (JObj sd) ->
  forall (ps : list (nat * nat)) (batches : list DataFrame) (current : json)
         (df : DataFrame) (w : world S),
    tracks bd sd "ids" "expressions" current ->
    Forall2 is_batch
      (answers (server w) (map (pass_request typename bd sd ids exprs) ps))
      batches ->
    Forall (fun b => nrows b = n) batches ->
    df = pd.empty \/ (from_one_row df /\ nrows df = n) ->
    exists st w',
      for_each ps
        (fun p => evalmetrics_batch typename (JArr ids) (JArr exprs) (fst p) (snd p))
        (current, df) w
      = (Ret st, w')
      /\ data (snd st) = data df ++ List.concat (map data batches)
      /\ (batches <> [] -> index (snd st) = repeat 0 n)
      /\ (batches = [] -> snd st = df).
Proof.
  intros Hspec ps.
  induction ps as [| p ps IH]; intros batches current df w Htracks Hserve Hrows Hdf.
  - cbn [map answers] in Hserve. inversion Hserve. subst.
    exists (current, df), w. split; [reflexivity |].
    cbn [snd map List.concat]. rewrite app_nil_r.
    split; [reflexivity |]. split; [congruence | reflexivity].
  - cbn [map answers] in Hserve.
    destruct (requests_post (pass_request typename bd sd ids exprs p) (server w))
      as [answer srv] eqn:Hpost.
    inversion Hserve as [| ? b ? rest Hb Hrest]. subst.
    inversion Hrows as [| ? ? Hnb Hrows']. subst.
    assert (Hone : from_one_row b).
    { destruct Hb as (j & result & flat & _ & _ & Hnorm & Hex).
      apply (batch_from_one_row result flat b Hnorm Hex). }
    assert (Hcat : exists merged,
              pd.concat_axis1 df b = Ok merged
              /\ index merged = repeat 0 (nrows b)
              /\ data merged = data df ++ data b).
    { destruct Hdf as [-> | [Hd Hn]].
      - exists b. split; [apply concat_axis1_empty_left |].
        split; [exact Hone | reflexivity].
      - destruct (concat_axis1_same_shape df b Hd Hone Hn)
          as (merged & Hrun & Hi & Hdata).
        exists merged. split; [exact Hrun |]. split; [| exact Hdata].
        rewrite Hi, <- Hn. exact Hd. }
    destruct Hcat as (merged & Hcat & Hi & Hdata).
    destruct (evalmetrics_batch_merges typename bd sd ids exprs p current df b
                merged w answer srv Hspec Htracks Hpost Hb Hcat)
      as (j & -> & Hpass).
    cbn [for_each]. rewrite (bind_of_ret _ _ _ _ _ Hpass).
    destruct (IH rest (payload (pass_request typename bd sd ids exprs p)) merged
                (mkWorld srv
                   (calls w ++ [mkCall (pass_request typename bd sd ids exprs p)
                                  (Ok j)])))
      as (st & w' & Hrun & Hd & Hidx & Hnil).
    + right. unfold pass_request, evalmetrics_request. cbn [payload].
      unfold with_spec. eauto.
    + exact Hrest.
    + exact Hrows'.
    + right. split.
      * unfold from_one_row, nrows. rewrite Hi, repeat_length. reflexivity.
      * unfold nrows at 1. rewrite Hi. apply repeat_length.
    + exists st, w'. split; [exact Hrun |]. split; [| split].
      * rewrite Hd, Hdata. cbn [map List.concat]. rewrite app_assoc. reflexivity.
      * intros _. destruct rest as [| b' rest].
        -- rewrite (Hnil eq_refl). exact Hi.
        -- apply Hidx. discriminate.
      * discriminate.
Qed.

(** C6, as the code has it.  The tables [evalmetrics] merges come from
    one row each: the accumulator starts empty, every batch is a flattened
    mapping expanded, and a merge of two such tables is one again.

    One pass: when the accumulated table and the batch of the pass have
    the same number of rows, the pass puts the batch to the right of the
    table.  The index and the number of rows stay, the columns are those
    of the table followed by those of the batch, each with its cells as
    they were, so that row [i] of the result is row [i] of the table
    followed by row [i] of the batch.

    The whole run: on a server whose answers to the planned requests are
    batches of [n] rows each, [evalmetrics] with [get_all] assembles the
    table whose columns are the columns of the first batch, then those of
    the second, and so on; it has [n] rows and its row [i] is row [i] of
    every batch, one after the other.  No column is left out, renamed or
    compared with another. *)
Theorem evalmetrics_merge_aligned :
  (forall a b,
      from_one_row a -> from_one_row b -> nrows a = nrows b ->
      exists merged,
        pd.concat_axis1 a b = Ok merged
        /\ index merged = index a
        /\ nrows merged = nrows a
        /\ data merged = data a ++ data b
        /\ columns merged = columns a ++ columns b
        /\ (forall i, row merged i = row a i ++ row b i)
        /\ from_one_row merged)
  /\ (forall answer b, is_batch answer b -> from_one_row b)
  /\ from_one_row pd.empty
  /\ (forall typename (bd sd : dict json) (ids exprs : list json)
             (ids_start expressions_start : nat) (current : json)
             (df b : DataFrame) (w : world S) answer srv,
        Py.get "spec" bd = Some (JObj sd) ->
        tracks bd sd "ids" "expressions" current ->
        requests_post
          (evalmetrics_request typename bd sd
             (Py.slice_list ids ids_start (ids_start + 10))
             (Py.slice_list exprs expressions_start (expressions_start + 4)))
          (server w)
        = (answer, srv) ->
        is_batch answer b ->
        from_one_row df -> nrows df = nrows b ->
        exists body' merged w',
          evalmetrics_batch typename (JArr ids) (JArr exprs)
            ids_start expressions_start (current, df) w
          = (Ret (body', merged), w')
          /\ index merged = index df
          /\ nrows merged = nrows df
          /\ data merged = data df ++ data b
          /\ columns merged = columns df ++ columns b
          /\ (forall i, row merged i = row df i ++ row b i)
          /\ from_one_row merged)
  /\ (forall typename (bd sd : dict json) (ids exprs : list json)
             (batches : list DataFrame) (n : nat) (w : world S),
        Py.get "spec" bd = Some (JObj sd) ->
        Py.get "expressions" sd = Some (JArr exprs) ->
        Py.get "ids" sd = Some (JArr ids) ->
        Forall2 is_batch
          (answers (server w) (evalmetrics_plan typename bd sd ids exprs))
          batches ->
        Forall (fun b => nrows b = n) batches ->
        exists out w',
          evalmetrics_assemble typename (JObj bd) true w = (Ret out, w')
          /\ data out = List.concat (map data batches)
          /\ columns out = List.concat (map columns batches)
          /\ (forall i, row out i = List.concat (map (fun b => row b i) batches))
          /\ (batches <> [] -> index out = repeat 0 n /\ nrows out = n)).
Proof.
  assert (Hpair : forall a b,
             from_one_row a -> from_one_row b -> nrows a = nrows b ->
             exists merged,
               pd.concat_axis1 a b = Ok merged
               /\ index merged = index a
               /\ nrows merged = nrows a
               /\ data merged = data a ++ data b
               /\ columns merged = columns a ++ columns b
               /\ (forall i, row merged i = row a i ++ row b i)
               /\ from_one_row merged).
  { intros a b Ha Hb Hn.
    destruct (concat_axis1_same_shape a b Ha Hb Hn) as (merged & Hrun & Hi & Hd).
    exists merged. split; [exact Hrun |]. split; [exact Hi |].
    assert (Hrows : nrows merged = nrows a) by (unfold nrows; rewrite Hi; reflexivity).
    split; [exact Hrows |]. split; [exact Hd |]. split; [| split].
    - unfold columns. rewrite Hd. apply map_app.
    - intros i. unfold row. rewrite Hd. apply map_app.
    - unfold from_one_row. rewrite Hrows, Hi. exact Ha. }
  assert (Hbatch : forall answer b, is_batch answer b -> from_one_row b).
  { intros answer b (j & result & flat & _ & _ & Hnorm & Hex).
    apply (batch_from_one_row result flat b Hnorm Hex). }
  split; [exact Hpair |]. split; [exact Hbatch |]. split; [reflexivity |].
  split.
  - intros typename bd sd ids exprs ids_start expressions_start current df b w
           answer srv Hspec Htracks Hpost Hb Hdf Hn.
    destruct (Hpair df b Hdf (Hbatch answer b Hb) Hn)
      as (merged & Hcat & Hi & Hrows & Hd & Hc & Hrow & Hone).
    destruct (evalmetrics_batch_merges typename bd sd ids exprs
                (ids_start, expressions_start) current df b merged w answer srv
                Hspec Htracks Hpost Hb Hcat)
      as (j & _ & Hpass).
    cbn [fst snd] in Hpass.
    eexists. exists merged. eexists. split; [exact Hpass |].
    repeat (split; [assumption |]). assumption.
  - intros typename bd sd ids exprs batches n w Hspec Hexprs Hids Hserve Hrows.
    rewrite plan_passes in Hserve.
    destruct (evalmetrics_loop_merges typename bd sd ids exprs n Hspec
                (passes (List.length ids) (List.length exprs)) batches (JObj bd)
                pd.empty w (or_introl eq_refl) Hserve Hrows (or_introl eq_refl))
      as (st & w' & Hloop & Hd & Hidx & _).
    cbn [data pd.empty app] in Hd.
    exists (snd st), w'. split; [| split; [| split; [| split]]].
    + unfold evalmetrics_assemble.
      assert (H1 : Py.getitem (JObj bd) "spec" = Ok (JObj sd))
        by (unfold Py.getitem; rewrite Hspec; reflexivity).
      assert (H2 : Py.getitem (JObj sd) "expressions" = Ok (JArr exprs))
        by (unfold Py.getitem; rewrite Hexprs; reflexivity).
      assert (H3 : Py.getitem (JObj sd) "ids" = Ok (JArr ids))
        by (unfold Py.getitem; rewrite Hids; reflexivity).
      rewrite (bind_of_ret _ _ _ _ _ (lift_ok _ _ _ H1)).
      rewrite (bind_of_ret _ _ _ _ _ (lift_ok _ _ _ H2)).
      rewrite (bind_of_ret _ _ _ _ _ (lift_ok _ _ _ H3)).
      cbn [Py.len].
      rewrite (bind_of_ret _ _ _ _ _ (lift_ok _ _ _ eq_refl)).
      unfold passes in Hloop. rewrite <- for_each_nested in Hloop.
      erewrite bind_of_ret; [reflexivity |].
      rewrite <- Hloop. apply for_each_ext. intros x a w0. reflexivity.
    + exact Hd.
    + unfold columns. rewrite Hd. apply concat_map_data. reflexivity.
    + intros i. unfold row. rewrite Hd.
      apply (concat_map_data (fun b => row b i)). reflexivity.
    + intros Hne. split; [apply Hidx; exact Hne |].
      unfold nrows. rewrite (Hidx Hne). apply repeat_length.
Qed.

End Merge.

Lemma evalmetrics_merge_aligned_witness :
  exists out w',
    evalmetrics_assemble "outbreaklocation" (JObj batched_body) true
      (start (map batch_answer (seq 0 6))) = (Ret out, w')
    /\ nrows out = 2
    /\ columns out
       = ["batchA.dates"; "batchA.data"; "batchB.dates"; "batchB.data";
          "batchC.dates"; "batchC.data"; "batchD.dates"; "batchD.data";
          "batchE.dates"; "batchE.data"; "batchF.dates"; "batchF.data"]
    /\ row out 1 = List.concat (map (fun b => row b 1) (map batch_table (seq 0 6))).
Proof.
  destruct (proj2 (proj2 (proj2 (proj2 (evalmetrics_merge_aligned
                                          (transport := scripted)))))
              "outbreaklocation" batched_body batched_spec
              (names "id" 25) (names "metric" 5)
              (map batch_table (seq 0 6)) 2
              (start (map batch_answer (seq 0 6)))
              eq_refl eq_refl eq_refl)
    as (out & w' & Hrun & _ & Hcols & Hrow & Hidx).
  - vm_compute. repeat constructor; do 3 eexists; repeat split.
  - repeat constructor.
  - exists out, w'. split; [exact Hrun |].
    split; [apply Hidx; discriminate |].
    split; [rewrite Hcols; reflexivity | apply Hrow].
Defined.

(** C6, the claim as stated fails where it says that each batch
    contributes a disjoint set of columns: the batches are put side by
    side as they come.  When the id [a] is asked for in two batches and
    the server sends its series both times, the two batches have the same
    number of rows, they are merged, and the merged table has every name
    twice. *)
Lemma evalmetrics_repeated_columns :
  exists out w',
    evalmetrics_assemble "outbreaklocation" repeated_id_body true
      (start repeated_id_batches) = (Ret out, w')
    /\ List.length (calls w') = 2
    /\ out = mkDataFrame [0; 0]
               [("a.JHU_ConfirmedCases.dates", [Val (JNum 1); Val (JNum 2)]);
                ("a.JHU_ConfirmedCases.data", [Val (JNum 5); Val (JNum 6)]);
                ("a.JHU_ConfirmedCases.dates", [Val (JNum 1); Val (JNum 2)]);
                ("a.JHU_ConfirmedCases.data", [Val (JNum 5); Val (JNum 6)])]
    /\ is_unique (columns out) = false.
Proof.
  eexists. eexists. split; [vm_compute; reflexivity |].
  split; [reflexivity |]. split; reflexivity.
Qed.

(** * Further properties of the client *)

(** ** [fetch] on its edges *)

Section FetchEdges.

Context {S : Type} {transport : Transport S}.


(** With [get_all], a body without a [spec] makes [fetch] raise
    [KeyError('spec')] before any request is sent. *)
Theorem fetch_all_needs_spec fuel typename (bd : dict json) remove_meta
    (w : world S) :
  1 <= fuel ->
  Py.get "spec" bd = None ->
  fetch fuel typename (JObj bd) true remove_meta w = (Raise (KeyError "spec"), w).
Proof.
  intros Hfuel Hspec. destruct fuel as [| fuel]; [lia |].
  unfold fetch, fetch_assemble. cbn [fetch_loop].
  apply bind_of_raise. apply bind_of_raise. apply lift_err.
  unfold update_spec, Py.getitem. rewrite Hspec. reflexivity.
Qed.

(** With [get_all], a page without [objs], or with [objs] and without
    [hasMore], makes [fetch] raise the [KeyError] of the missing key once
    that page has been fetched; no further request is sent. *)
Theorem fetch_all_malformed_page fuel typename (bd sd : dict json) remove_meta
    (w : world S) srv (d : dict json) :
  1 <= fuel ->
  Py.get "spec" bd = Some (JObj sd) ->
  requests_post (fetch_request typename bd sd 0) (server w)
  = (Ok (mkResponse 200 (Some (JObj d))), srv) ->
  (Py.get "objs" d = None ->
   fetch fuel typename (JObj bd) true remove_meta w
   = (Raise (KeyError "objs"),
      mkWorld srv (calls w ++ [mkCall (fetch_request typename bd sd 0) (Ok (JObj d))])))
  /\ (forall objs,
        Py.get "objs" d = Some (JArr (map JObj objs)) ->
        Py.get "hasMore" d = None ->
        fetch fuel typename (JObj bd) true remove_meta w
        = (Raise (KeyError "hasMore"),
           mkWorld srv
             (calls w ++ [mkCall (fetch_request typename bd sd 0) (Ok (JObj d))]))).
Proof.
  intros Hfuel Hspec Hpost. destruct fuel as [| fuel]; [lia |].
  assert (Hupd : update_spec (JObj bd) [("limit", JNum limit); ("offset", JNum 0)]
                 = Ok (with_spec bd sd [("limit", JNum 2000); ("offset", JNum 0)]))
    by (apply update_spec_body; assumption).
  assert (Hcall := read_data_json_ok typename "fetch" _ w srv (JObj d) Hpost).
  split.
  - intros Hobjs. unfold fetch, fetch_assemble. cbn [fetch_loop].
    apply bind_of_raise.
    rewrite (bind_of_ret _ _ _ _ _ (lift_ok _ _ _ Hupd)).
    rewrite (bind_of_ret _ _ _ _ _ Hcall).
    apply bind_of_raise. apply lift_err.
    unfold Py.getitem. rewrite Hobjs. reflexivity.
  - intros objs Hobjs Hmore. unfold fetch, fetch_assemble. cbn [fetch_loop].
    destruct (json_normalize_objs objs) as (new_df & Hnorm & Hrows & Hu).
    destruct (append_rows pd.empty new_df eq_refl Hu) as (df2 & Happ & _).
    apply bind_of_raise.
    rewrite (bind_of_ret _ _ _ _ _ (lift_ok _ _ _ Hupd)).
    rewrite (bind_of_ret _ _ _ _ _ Hcall).
    assert (H1 : Py.getitem (JObj d) "objs" = Ok (JArr (map JObj objs)))
      by (unfold Py.getitem; rewrite Hobjs; reflexivity).
    rewrite (bind_of_ret _ _ _ _ _ (lift_ok _ _ _ H1)).
    rewrite (bind_of_ret _ _ _ _ _ (lift_ok _ _ _ Hnorm)).
    rewrite (bind_of_ret _ _ _ _ _ (lift_ok _ _ _ Happ)).
    apply bind_of_raise. apply lift_err.
    unfold Py.getitem. rewrite Hmore. reflexivity.
Qed.

(** The loop has no bound of its own: against a server whose every answer
    is a page announcing more, [fetch] with [get_all] uses up any number of
    iterations it is given, one call each, and does not return. *)
Lemma fetch_loop_always_more typename (bd sd : dict json) :
  Py.get "spec" bd = Some (JObj sd) ->
  (forall rq s, exists objs, is_page (fst (requests_post rq s)) objs true) ->
  forall fuel current offset df (w : world S),
    tracks bd sd "limit" "offset" current ->
    is_unique (columns df) = true ->
    exists w' cs,
      fetch_loop fuel typename current offset df w = (OutOfFuel, w')
      /\ calls w' = calls w ++ cs
      /\ List.length cs = fuel
      /\ clean cs.
Proof.
  intros Hspec Hmore. induction fuel as [| fuel IH];
    intros current offset df w Htracks Hunique.
  - exists w, []. rewrite app_nil_r. repeat split. constructor.
  - cbn [fetch_loop].
    assert (Hupd := update_spec_tracks bd sd "limit" "offset" current
                      (JNum limit) (JNum offset) ltac:(discriminate) Hspec Htracks).
    rewrite (bind_of_ret _ _ _ _ _ (lift_ok _ _ _ Hupd)).
    set (body' := with_spec bd sd _).
    destruct (requests_post (mkRequest (endpoint typename "fetch") body' json_headers)
                (server w)) as [answer srv] eqn:Hpost.
    destruct (Hmore (mkRequest (endpoint typename "fetch") body' json_headers) (server w))
      as (objs & j & Hj & Hobjs & Hflag).
    rewrite Hpost in Hj. cbn [fst] in Hj. subst answer.
    rewrite (bind_of_ret _ _ _ _ _ (read_data_json_ok typename "fetch" _ w srv j Hpost)).
    destruct (json_normalize_objs objs) as (new_df & Hnorm & _ & Hnew).
    destruct (append_rows df new_df Hunique Hnew) as (df2 & Happ & _ & Hu2).
    rewrite (bind_of_ret _ _ _ _ _ (lift_ok _ _ _ Hobjs)).
    rewrite (bind_of_ret _ _ _ _ _ (lift_ok _ _ _ Hnorm)).
    rewrite (bind_of_ret _ _ _ _ _ (lift_ok _ _ _ Happ)).
    rewrite (bind_of_ret _ _ _ _ _ (lift_ok _ _ _ Hflag)).
    cbn [Py.truthy].
    destruct (IH body' (offset + limit)%Z df2
                (mkWorld srv (calls w ++ [mkCall (mkRequest (endpoint typename "fetch")
                                                    body' json_headers) (Ok j)])))
      as (w' & cs & Hrun & Hcalls & Hlen & Hclean).
    + right. unfold body'. eauto.
    + assumption.
    + exists w', (mkCall (mkRequest (endpoint typename "fetch") body' json_headers) (Ok j)
                  :: cs).
      split; [exact Hrun |]. split; [| split].
      * rewrite Hcalls. cbn [calls]. rewrite <- app_assoc. reflexivity.
      * cbn [List.length]. rewrite Hlen. reflexivity.
      * constructor; [exists j; reflexivity | assumption].
Qed.

Theorem fetch_all_never_ends typename (bd sd : dict json) remove_meta :
  Py.get "spec" bd = Some (JObj sd) ->
  (forall rq s, exists objs, is_page (fst (requests_post rq s)) objs true) ->
  forall fuel (w : world S),
    exists w' cs,
      fetch fuel typename (JObj bd) true remove_meta w = (OutOfFuel, w')
      /\ calls w' = calls w ++ cs
      /\ List.length cs = fuel
      /\ clean cs.
Proof.
  intros Hspec Hmore fuel w.
  destruct (fetch_loop_always_more typename bd sd Hspec Hmore fuel (JObj bd) 0%Z
              pd.empty w (or_introl eq_refl) eq_refl)
    as (w' & cs & Hrun & Hcalls & Hlen & Hclean).
  exists w', cs. split; [| auto].
  unfold fetch, fetch_assemble, bind. rewrite Hrun. reflexivity.
Qed.

End FetchEdges.


Lemma fetch_all_needs_spec_witness :
  fetch 1 "outbreaklocation" (JObj [("filter", JStr "x")]) true true (start tt)
  = (Raise (KeyError "spec"), start tt).
Proof.
  apply (fetch_all_needs_spec (transport := endless) 1 "outbreaklocation"
           [("filter", JStr "x")] true (start tt)); [lia | reflexivity].
Defined.

Lemma fetch_all_malformed_page_witness :
  fetch 1 "outbreaklocation" sample_body true true
    (start [ok_response (JObj [("count", JNum 0)])])
  = (Raise (KeyError "objs"),
     mkWorld []
       [mkCall (fetch_request "outbreaklocation"
                  [("spec", JObj [("filter", JStr "contains(id, 'Illinois')")])]
                  [("filter", JStr "contains(id, 'Illinois')")] 0)
               (Ok (JObj [("count", JNum 0)]))])
  /\ fetch 1 "outbreaklocation" sample_body true true
       (start [ok_response (JObj [("objs", JArr [JObj [("id", JStr "a")]])])])
     = (Raise (KeyError "hasMore"),
        mkWorld []
          [mkCall (fetch_request "outbreaklocation"
                     [("spec", JObj [("filter", JStr "contains(id, 'Illinois')")])]
                     [("filter", JStr "contains(id, 'Illinois')")] 0)
                  (Ok (JObj [("objs", JArr [JObj [("id", JStr "a")]])]))]).
Proof.
  split.
  - apply (proj1 (fetch_all_malformed_page (transport := scripted) 1 "outbreaklocation"
                    [("spec", JObj [("filter", JStr "contains(id, 'Illinois')")])]
                    [("filter", JStr "contains(id, 'Illinois')")] true
                    (start [ok_response (JObj [("count", JNum 0)])]) []
                    [("count", JNum 0)] ltac:(lia) eq_refl eq_refl)).
    reflexivity.
  - apply (proj2 (fetch_all_malformed_page (transport := scripted) 1 "outbreaklocation"
                    [("spec", JObj [("filter", JStr "contains(id, 'Illinois')")])]
                    [("filter", JStr "contains(id, 'Illinois')")] true
                    (start [ok_response (JObj [("objs", JArr [JObj [("id", JStr "a")]])])])
                    [] [("objs", JArr [JObj [("id", JStr "a")]])]
                    ltac:(lia) eq_refl eq_refl)
             [[("id", JStr "a")]]); reflexivity.
Defined.

Lemma fetch_all_never_ends_witness :
  exists w' cs,
    fetch 3 "outbreaklocation" sample_body true true (start tt) = (OutOfFuel, w')
    /\ calls w' = cs
    /\ List.length cs = 3.
Proof.
  destruct (fetch_all_never_ends (transport := endless) "outbreaklocation"
              [("spec", JObj [("filter", JStr "contains(id, 'Illinois')")])]
              [("filter", JStr "contains(id, 'Illinois')")] true eq_refl
              (fun _ _ =>
                 ex_intro _ [[("id", JStr "a")]]
                   (ex_intro _ _ (conj eq_refl (conj eq_refl eq_refl))))
              3 (start tt))
    as (w' & cs & Hrun & Hcalls & Hlen & _).
  exists w', cs. auto.
Defined.

(** ** One call per unbatched operation *)

Section OneCall.

Context {S : Type} {transport : Transport S} {dt : Datetime}.

Lemma silent_ret {A} (a : A) : silent (ret (S := S) a).
Proof. intros w out w' H. inversion H. reflexivity. Qed.

Lemma silent_lift {A} (r : res A) : silent (lift (S := S) r).
Proof. intros w out w' H. apply (lift_world _ _ _ _ H). Qed.

Lemma silent_bind {A B} (m : M S A) (k : A -> M S B) :
  silent m -> (forall a, silent (k a)) -> silent (bind m k).
Proof.
  intros Hm Hk w out w' H. unfold bind in H.
  destruct (m w) as [[a | e |] w1] eqn:E; pose proof (Hm _ _ _ E) as ->.
  - apply (Hk a _ _ _ H).
  - inversion H. reflexivity.
  - inversion H. reflexivity.
Qed.

(** What follows a call without calling leaves the history as the call
    left it. *)
Lemma call_then_silent {B} typename api body (k : json -> M S B)
    (w w' : world S) out :
  (forall j, silent (k j)) ->
  bind (read_data_json typename api body) k w = (out, w') ->
  exists result,
    calls w' = calls w ++ [mkCall (mkRequest (endpoint typename api) body json_headers)
                             result].
Proof.
  intros Hk H. unfold bind, read_data_json in H.
  destruct (requests_post _ (server w)) as [answer srv].
  exists (read_response answer).
  destruct (read_response answer) as [j | e]; cbn [lift] in H.
  - apply Hk in H. subst w'. reflexivity.
  - inversion H. reflexivity.
Qed.

(** Without [get_all], [fetch] and [evalmetrics] send exactly one request,
    and [getprojectionhistory] always does, to its fixed endpoint; the
    request carries the caller's body as it is, and this holds whatever
    the answer and whatever becomes of it. *)
Theorem unbatched_one_call :
  (forall fuel typename body remove_meta (w w' : world S) out,
      fetch fuel typename body false remove_meta w = (out, w') ->
      exists result,
        calls w' = calls w ++ [mkCall (mkRequest (endpoint typename "fetch") body
                                          json_headers) result])
  /\ (forall typename body remove_meta (w w' : world S) out,
        evalmetrics typename body false remove_meta w = (out, w') ->
        exists result,
          calls w' = calls w ++ [mkCall (mkRequest (endpoint typename "evalmetrics") body
                                            json_headers) result])
  /\ (forall body remove_meta (w w' : world S) out,
        getprojectionhistory body remove_meta w = (out, w') ->
        exists result,
          calls w' = calls w
                     ++ [mkCall (mkRequest
                                   "https://api.c3.ai/covid/api/1/outbreaklocation/getprojectionhistory"
                                   body json_headers) result]).
Proof.
  split; [| split].
  - intros fuel typename body remove_meta w w' out H.
    unfold fetch, fetch_assemble in H.
    assert (H' : bind (read_data_json typename "fetch" body)
                   (fun response_json =>
                      bind (bind (lift (Py.getitem response_json "objs"))
                              (fun objs => lift (pd.json_normalize objs)))
                        (fun df => if remove_meta
                                   then lift (pd.drop df (filter has_meta (columns df)))
                                   else ret df)) w = (out, w')).
    { revert H. unfold bind.
      destruct (read_data_json typename "fetch" body w) as [[j | e |] w1];
        intros H; exact H. }
    refine (call_then_silent _ _ _ _ _ _ _ _ H').
    intros j. apply silent_bind.
    + apply silent_bind; [apply silent_lift | intros; apply silent_lift].
    + intros df. destruct remove_meta; [apply silent_lift | apply silent_ret].
  - intros typename body remove_meta w w' out H.
    unfold evalmetrics, evalmetrics_assemble in H.
    assert (H' : bind (read_data_json typename "evalmetrics" body)
                   (fun response_json =>
                      bind (bind (lift (Py.getitem response_json "result"))
                              (fun result =>
                                 bind (lift (pd.json_normalize result))
                                   (fun df => lift (pd.apply_explode df))))
                        (fun df =>
                           lift (only_keep_one_date_column
                                   (if remove_meta
                                    then pd.filter_regex df ["dates"; "data"; "missing"]
                                    else df)))) w = (out, w')).
    { revert H. unfold bind.
      destruct (read_data_json typename "evalmetrics" body w) as [[j | e |] w1];
        intros H; exact H. }
    refine (call_then_silent _ _ _ _ _ _ _ _ H').
    intros j. apply silent_bind.
    + apply silent_bind; [apply silent_lift |].
      intros. apply silent_bind; [apply silent_lift | intros; apply silent_lift].
    + intros df. apply silent_lift.
  - intros body remove_meta w w' out H.
    unfold getprojectionhistory, getprojectionhistory_assemble in H.
    assert (H' : bind (read_data_json "outbreaklocation" "getprojectionhistory" body)
                   (fun response_json =>
                      bind (bind (lift (pd.json_normalize response_json))
                              (fun df => lift (pd.apply_explode df)))
                        (fun df =>
                           bind (lift (only_keep_one_date_column
                                         (if remove_meta
                                          then pd.filter_regex df
                                                 ["dates"; "data"; "missing"; "expr"]
                                          else df)))
                             (fun df => ret (pd.rename df
                                               (fun x => Py.replace x ".value" "")))))
                   w = (out, w')).
    { revert H. unfold bind.
      destruct (read_data_json "outbreaklocation" "getprojectionhistory" body w)
        as [[j | e |] w1]; intros H; exact H. }
    refine (call_then_silent _ _ _ _ _ _ _ _ H').
    intros j. apply silent_bind.
    + apply silent_bind; [apply silent_lift | intros; apply silent_lift].
    + intros df. apply silent_bind; [apply silent_lift | intros; apply silent_ret].
Qed.

End OneCall.

Lemma unbatched_one_call_witness :
  (exists result,
      calls (snd (fetch 0 "outbreaklocation" sample_body false true
                    (start (ok_response meta_page))))
      = [mkCall (mkRequest (endpoint "outbreaklocation" "fetch") sample_body
                   json_headers) result])
  /\ (exists result,
        calls (snd (evalmetrics "outbreaklocation" sample_body false true
                      (start (Ok (mkResponse 400 (Some (JObj [])))))))
        = [mkCall (mkRequest (endpoint "outbreaklocation" "evalmetrics") sample_body
                     json_headers) result])
  /\ (exists result,
        calls (snd (getprojectionhistory sample_body true
                      (start (ok_response hidden_dates_history))))
        = [mkCall (mkRequest
                     "https://api.c3.ai/covid/api/1/outbreaklocation/getprojectionhistory"
                     sample_body json_headers) result]).
Proof.
  destruct (unbatched_one_call (transport := constant) (dt := epoch_ns))
    as (Hfetch & Heval & Hproj).
  split; [| split].
  - apply (Hfetch 0 "outbreaklocation" sample_body true
             (start (ok_response meta_page)) _ _ (surjective_pairing _)).
  - apply (Heval "outbreaklocation" sample_body true
             (start (Ok (mkResponse 400 (Some (JObj []))))) _ _
             (surjective_pairing _)).
  - apply (Hproj sample_body true (start (ok_response hidden_dates_history)) _ _
             (surjective_pairing _)).
Defined.

(** ** [evalmetrics] on its edges *)

Lemma for_each_skip {S A X} (xs : list X) (body : X -> A -> M S A) :
  (forall x a w, body x a w = (Ret a, w)) ->
  forall a w, for_each xs body a w = (Ret a, w).
Proof.
  intros H. induction xs as [| x xs IH]; intros a w; cbn [for_each].
  - reflexivity.
  - rewrite (bind_of_ret _ _ _ _ _ (H x a w)). apply IH.
Qed.

Section EvalmetricsEdges.

Context {S : Type} {transport : Transport S} {dt : Datetime}.

(** With [get_all], an empty list of ids or an empty list of expressions
    means no batch at all: no request is sent, the accumulated table stays
    empty, and the search for its date column raises [IndexError]. *)
Theorem evalmetrics_all_nothing_to_fetch typename (bd sd : dict json)
    (ids exprs : list json) remove_meta (w : world S) :
  Py.get "spec" bd = Some (JObj sd) ->
  Py.get "expressions" sd = Some (JArr exprs) ->
  Py.get "ids" sd = Some (JArr ids) ->
  ids = [] \/ exprs = [] ->
  evalmetrics typename (JObj bd) true remove_meta w = (Raise IndexError, w).
Proof.
  intros Hspec Hexprs Hids Hempty.
  assert (Hasm : evalmetrics_assemble typename (JObj bd) true w = (Ret pd.empty, w)).
  { unfold evalmetrics_assemble.
    assert (H1 : Py.getitem (JObj bd) "spec" = Ok (JObj sd))
      by (unfold Py.getitem; rewrite Hspec; reflexivity).
    assert (H2 : Py.getitem (JObj sd) "expressions" = Ok (JArr exprs))
      by (unfold Py.getitem; rewrite Hexprs; reflexivity).
    assert (H3 : Py.getitem (JObj sd) "ids" = Ok (JArr ids))
      by (unfold Py.getitem; rewrite Hids; reflexivity).
    rewrite (bind_of_ret _ _ _ _ _ (lift_ok _ _ _ H1)).
    rewrite (bind_of_ret _ _ _ _ _ (lift_ok _ _ _ H2)).
    rewrite (bind_of_ret _ _ _ _ _ (lift_ok _ _ _ H3)).
    cbn [Py.len].
    rewrite (bind_of_ret _ _ _ _ _ (lift_ok _ _ _ eq_refl)).
    destruct Hempty as [-> | ->].
    - reflexivity.
    - rewrite (bind_of_ret _ _ _ (JObj bd, pd.empty) w); [reflexivity |].
      apply for_each_skip. intros x a w0. reflexivity. }
  unfold evalmetrics. rewrite (bind_of_ret _ _ _ _ _ Hasm).
  apply lift_err. apply only_keep_one_date_column_none.
  destruct remove_meta; intros c [].
Qed.

(** With [get_all], the spec is read before anything is sent: a body
    without [spec], a spec without [expressions], or with [expressions]
    and without [ids], raises the [KeyError] of that key and no request is
    made.  [expressions] is looked up first. *)
Theorem evalmetrics_all_needs_keys typename (bd : dict json) remove_meta
    (w : world S) :
  (Py.get "spec" bd = None ->
   evalmetrics typename (JObj bd) true remove_meta w = (Raise (KeyError "spec"), w))
  /\ (forall sd,
        Py.get "spec" bd = Some (JObj sd) ->
        Py.get "expressions" sd = None ->
        evalmetrics typename (JObj bd) true remove_meta w
        = (Raise (KeyError "expressions"), w))
  /\ (forall sd expressions,
        Py.get "spec" bd = Some (JObj sd) ->
        Py.get "expressions" sd = Some expressions ->
        Py.get "ids" sd = None ->
        evalmetrics typename (JObj bd) true remove_meta w
        = (Raise (KeyError "ids"), w)).
Proof.
  split; [| split].
  - intros Hspec. unfold evalmetrics, evalmetrics_assemble.
    apply bind_of_raise. apply bind_of_raise. apply lift_err.
    unfold Py.getitem. rewrite Hspec. reflexivity.
  - intros sd Hspec Hexprs. unfold evalmetrics, evalmetrics_assemble.
    apply bind_of_raise.
    assert (H1 : Py.getitem (JObj bd) "spec" = Ok (JObj sd))
      by (unfold Py.getitem; rewrite Hspec; reflexivity).
    rewrite (bind_of_ret _ _ _ _ _ (lift_ok _ _ _ H1)).
    apply bind_of_raise. apply lift_err.
    unfold Py.getitem. rewrite Hexprs. reflexivity.
  - intros sd expressions Hspec Hexprs Hids. unfold evalmetrics, evalmetrics_assemble.
    apply bind_of_raise.
    assert (H1 : Py.getitem (JObj bd) "spec" = Ok (JObj sd))
      by (unfold Py.getitem; rewrite Hspec; reflexivity).
    assert (H2 : Py.getitem (JObj sd) "expressions" = Ok expressions)
      by (unfold Py.getitem; rewrite Hexprs; reflexivity).
    rewrite (bind_of_ret _ _ _ _ _ (lift_ok _ _ _ H1)).
    rewrite (bind_of_ret _ _ _ _ _ (lift_ok _ _ _ H2)).
    apply bind_of_raise. apply lift_err.
    unfold Py.getitem. rewrite Hids. reflexivity.
Qed.

(** With [remove_meta], every column of the table [evalmetrics] returns is
    the [dates] column or has "data" or "missing" in its name: whatever
    else the response carried (types, counts, units) is gone. *)
Theorem evalmetrics_remove_meta_columns typename body get_all (w w' : world S) out :
  evalmetrics typename body get_all true w = (Ret out, w') ->
  forall c, In c (columns out) ->
    c = "dates"
    \/ Py.contains "data" c = true
    \/ Py.contains "missing" c = true.
Proof.
  intros Hrun c Hc. unfold evalmetrics in Hrun.
  apply bind_ret_inv in Hrun. destruct Hrun as (df0 & w1 & _ & Hpost).
  apply lift_ret_inv in Hpost. destruct Hpost as [Hkeep _].
  apply only_keep_one_date_column_ok in Hkeep.
  destruct Hkeep as (first & cells & converted & _ & _ & _ & ->).
  unfold columns in Hc. cbn [data map fst] in Hc.
  destruct Hc as [<- | Hc]; [left; reflexivity | right].
  apply in_map_iff in Hc. destruct Hc as (x & <- & Hx).
  apply filter_In in Hx. destruct Hx as [Hx Hnd].
  unfold pd.filter_regex in Hx. cbn [data] in Hx.
  apply filter_In in Hx. destruct Hx as [_ Hre].
  unfold not_date in Hnd. apply negb_true_iff in Hnd.
  unfold pd.search_any in Hre. cbn [existsb] in Hre.
  rewrite Hnd in Hre. cbn [orb] in Hre.
  apply orb_true_iff in Hre. destruct Hre as [H | H]; [left; exact H |].
  rewrite orb_false_r in H. right. exact H.
Qed.

End EvalmetricsEdges.

Lemma evalmetrics_all_nothing_to_fetch_witness :
  evalmetrics "outbreaklocation"
    (JObj [("spec", JObj [("ids", JArr []);
                          ("expressions", JArr [JStr "JHU_ConfirmedCases"])])])
    true true (start failing_batches)
  = (Raise IndexError, start failing_batches).
Proof.
  apply (evalmetrics_all_nothing_to_fetch (transport := scripted) (dt := epoch_ns)
           "outbreaklocation"
           [("spec", JObj [("ids", JArr []);
                           ("expressions", JArr [JStr "JHU_ConfirmedCases"])])]
           [("ids", JArr []); ("expressions", JArr [JStr "JHU_ConfirmedCases"])]
           [] [JStr "JHU_ConfirmedCases"] true (start failing_batches)
           eq_refl eq_refl eq_refl (or_introl eq_refl)).
Defined.

Lemma evalmetrics_all_needs_keys_witness :
  evalmetrics "outbreaklocation" (JObj []) true true (start failing_batches)
  = (Raise (KeyError "spec"), start failing_batches)
  /\ evalmetrics "outbreaklocation" (JObj [("spec", JObj [])]) true true
       (start failing_batches)
     = (Raise (KeyError "expressions"), start failing_batches)
  /\ evalmetrics "outbreaklocation"
       (JObj [("spec", JObj [("expressions", JArr [])])]) true true
       (start failing_batches)
     = (Raise (KeyError "ids"), start failing_batches).
Proof.
  split; [| split].
  - apply (proj1 (evalmetrics_all_needs_keys (transport := scripted) (dt := epoch_ns)
                    "outbreaklocation" [] true (start failing_batches)) eq_refl).
  - apply (proj1 (proj2 (evalmetrics_all_needs_keys (transport := scripted)
                           (dt := epoch_ns) "outbreaklocation" [("spec", JObj [])]
                           true (start failing_batches)))
             [] eq_refl eq_refl).
  - apply (proj2 (proj2 (evalmetrics_all_needs_keys (transport := scripted)
                           (dt := epoch_ns) "outbreaklocation"
                           [("spec", JObj [("expressions", JArr [])])]
                           true (start failing_batches)))
             [("expressions", JArr [])] (JArr []) eq_refl eq_refl eq_refl).
Defined.

Lemma evalmetrics_remove_meta_columns_witness :
  "dates" = "dates"
  \/ Py.contains "data" "dates" = true
  \/ Py.contains "missing" "dates" = true.
Proof.
  eapply (evalmetrics_remove_meta_columns (transport := constant) (dt := epoch_ns)
            "outbreaklocation" (JObj []) false
            (start (ok_response two_dates_result))).
  - vm_compute. reflexivity.
  - left. reflexivity.
Defined.

(** ** The renaming pass, name by name *)

Lemma replace_value_length (k : nat) (s : string) :
  String.length (Py.replace_from ".value" "" k s) + Nat.min k (String.length s)
  <= String.length s.
Proof.
  revert k. induction s as [| c s IH]; intros k; [cbn; lia |].
  cbn [Py.replace_from]. destruct k as [| k].
  - destruct (String.prefix ".value" (String c s)).
    + cbn [String.append String.length Nat.sub]. specialize (IH 5). lia.
    + cbn [String.length]. specialize (IH 0). lia.
  - cbn [String.length]. specialize (IH k). lia.
Qed.

Lemma length_append (s t : string) :
  String.length (s ++ t) = String.length s + String.length t.
Proof. induction s as [| c s IH]; cbn; [reflexivity | rewrite IH; reflexivity]. Qed.

Lemma strip_value_at_occurrence (s : string) :
  String.prefix ".value" s = true ->
  String.length (strip_value s) + 6 <= String.length s.
Proof.
  intros H. destruct (prefix_split _ _ H) as [r ->].
  rewrite strip_value_occurrence, length_append.
  unfold strip_value, Py.replace.
  pose proof (replace_value_length 0 r). cbn [String.length]. lia.
Qed.

Lemma strip_value_shorter (x : string) :
  Py.contains ".value" x = true ->
  String.length (strip_value x) + 6 <= String.length x.
Proof.
  induction x as [| c x IH]; cbn [Py.contains]; intros H.
  - rewrite orb_false_r in H. apply (strip_value_at_occurrence _ H).
  - destruct (String.prefix ".value" (String c x)) eqn:E.
    + apply (strip_value_at_occurrence _ E).
    + cbn [orb] in H. rewrite (strip_value_cons c x E).
      cbn [String.length]. specialize (IH H). lia.
Qed.

(** The renaming in the last line of [getprojectionhistory] changes a name
    exactly when ".value" occurs in it, and then makes it shorter by the
    six characters of an occurrence at least; it never makes a name
    longer. *)
Theorem strip_value_changes (x : string) :
  (strip_value x = x <-> Py.contains ".value" x = false)
  /\ (Py.contains ".value" x = true ->
      String.length (strip_value x) + 6 <= String.length x)
  /\ String.length (strip_value x) <= String.length x.
Proof.
  split; [| split].
  - split; [| apply strip_value_absent].
    intros E. destruct (Py.contains ".value" x) eqn:C; [| reflexivity].
    pose proof (strip_value_shorter x C) as H. rewrite E in H. lia.
  - apply strip_value_shorter.
  - pose proof (replace_value_length 0 x) as H.
    unfold strip_value, Py.replace. lia.
Qed.

Lemma strip_value_changes_witness :
  String.length (strip_value "projection.value.value") + 6
  <= String.length "projection.value.value".
Proof.
  apply (proj1 (proj2 (strip_value_changes "projection.value.value")) eq_refl).
Defined.

(** ** Expansion of a row with cells of all kinds *)

Lemma fold_pointwise_max_singletons {A} (f : A -> nat) (l : list A) (a : nat) :
  fold_left pd.pointwise_max (map (fun x => [f x]) l) [a]
  = [fold_left Nat.max (map f l) a].
Proof.
  revert a. induction l as [| x l IH]; intros a; [reflexivity |].
  cbn [map fold_left]. unfold pd.pointwise_max at 2.
  cbn [combine map fst snd]. apply IH.
Qed.

Lemma fold_max_ge_init (l : list nat) (a : nat) : a <= fold_left Nat.max l a.
Proof.
  revert a. induction l as [| x l IH]; intros a; cbn [fold_left]; [lia |].
  specialize (IH (Nat.max a x)). lia.
Qed.

Lemma fold_max_ge_elt (l : list nat) (a x : nat) :
  In x l -> x <= fold_left Nat.max l a.
Proof.
  revert a. induction l as [| y l IH]; intros a; cbn [fold_left]; [intros [] |].
  intros [-> | H].
  - pose proof (fold_max_ge_init l (Nat.max a x)). lia.
  - apply IH. assumption.
Qed.

Lemma fold_max_le (l : list nat) (a b : nat) :
  a <= b -> (forall x, In x l -> x <= b) -> fold_left Nat.max l a <= b.
Proof.
  revert a. induction l as [| y l IH]; intros a Ha H; cbn [fold_left]; [lia |].
  apply IH.
  - specialize (H y (or_introl eq_refl)). lia.
  - intros x Hx. apply H. right. assumption.
Qed.

Lemma forallb_map_ext {A B} (f : B -> bool) (g : A -> B) (h : A -> bool)
    (l : list A) :
  (forall x, f (g x) = h x) -> forallb f (map g l) = forallb h l.
Proof.
  intros H. induction l as [| x l IH]; [reflexivity |].
  cbn [map forallb]. rewrite H, IH. reflexivity.
Qed.

(** The whole of [apply_explode] on a one-row table: with [m] the largest
    number of cells a column expands into, the expansion succeeds exactly
    when every column expands into [m] cells or into one, and then has [m]
    rows, a single cell being repeated. *)
Lemma apply_explode_one_row (label : nat) (cols : list (string * cell)) :
  cols <> [] ->
  pd.apply_explode (one_row label cols)
  = if forallb
         (fun c =>
            Nat.eqb (List.length (pd.explode_cell (snd c)))
              (fold_left Nat.max
                 (map (fun c => List.length (pd.explode_cell (snd c))) cols) 1)
            || Nat.eqb 1 (List.length (pd.explode_cell (snd c)))) cols
    then
      Ok (mkDataFrame
            (repeat label
               (fold_left Nat.max
                  (map (fun c => List.length (pd.explode_cell (snd c))) cols) 1))
            (map (fun c =>
                    (fst c,
                     if Nat.eqb (List.length (pd.explode_cell (snd c)))
                          (fold_left Nat.max
                             (map (fun c => List.length (pd.explode_cell (snd c))) cols)
                             1)
                     then pd.explode_cell (snd c)
                     else pd.repeat_each (pd.explode_cell (snd c))
                            [fold_left Nat.max
                               (map (fun c => List.length (pd.explode_cell (snd c)))
                                  cols) 1])) cols))
    else Err ValueError.
Proof.
  intros Hne. unfold pd.apply_explode, one_row, nrows, ncols.
  cbn [index data List.length Nat.eqb orb]. rewrite length_map.
  assert (Hl : Nat.eqb (List.length cols) 0 = false).
  { apply Nat.eqb_neq. destruct cols; [congruence | discriminate]. }
  rewrite Hl. rewrite !map_map. cbn [fst snd repeat].
  set (g := fun c : string * cell => List.length (pd.explode_cell (snd c))).
  assert (Hcs : map (fun c : string * cell => pd.explode_counts [snd c]) cols
                = map (fun c => [g c]) cols) by reflexivity.
  rewrite Hcs, fold_pointwise_max_singletons.
  set (m := fold_left Nat.max (map g cols) 1).
  rewrite (forallb_map_ext _ _
             (fun c => Nat.eqb (g c) m || Nat.eqb 1 (g c)) cols).
  - destruct (forallb _ cols); [| reflexivity]. f_equal. f_equal.
    + unfold pd.repeat_each. cbn. apply app_nil_r.
    + apply map_ext. intros c. f_equal.
      unfold pd.explode_counts, pd.explode_values. cbn [map flat_map list_eqb].
      rewrite app_nil_r, andb_true_r. reflexivity.
  - intros c. cbn [list_eqb pd.all_ones forallb nat_is_unique existsb negb].
    rewrite !andb_true_r. reflexivity.
Qed.

Lemma forallb_false {A} (f : A -> bool) (l : list A) (x : A) :
  In x l -> f x = false -> forallb f l = false.
Proof.
  intros Hin Hx. destruct (forallb f l) eqn:E; [| reflexivity].
  rewrite forallb_forall in E. rewrite (E x Hin) in Hx. discriminate.
Qed.

Lemma explode_cell_scalar (c : cell) :
  is_sequence c = false -> pd.explode_cell c = [c].
Proof. destruct c as [| [] | |]; try reflexivity. discriminate. Qed.

Lemma explode_cell_length (l : list json) :
  1 <= List.length l ->
  List.length (pd.explode_cell (Val (JArr l))) = List.length l.
Proof.
  intros H. rewrite explode_cell_sequence.
  - apply length_map.
  - destruct l; [cbn in H; lia | discriminate].
Qed.

Section ExplodeMixed.

Context {S : Type} {transport : Transport S} {dt : Datetime}.

(** A flattened row in which some cells hold sequences, all of one length
    [n >= 1], and the others hold single values (a type, a count, a unit)
    expands into [n] rows: the sequences give their elements, the single
    values are repeated in every row.  This is what [evalmetrics] makes of
    such a response. *)
Theorem explode_repeats_scalars (label n : nat) (cols : list (string * cell)) :
  1 <= n ->
  (exists c, In c cols /\ is_sequence (snd c) = true) ->
  (forall c l, In c cols -> snd c = Val (JArr l) -> List.length l = n) ->
  pd.apply_explode (one_row label cols)
  = Ok (mkDataFrame (repeat label n) (map (fun c => (fst c, spread n (snd c))) cols))
  /\ (forall typename body (w w' : world S) response_json result,
        read_data_json typename "evalmetrics" body w = (Ret response_json, w') ->
        Py.getitem response_json "result" = Ok result ->
        pd.json_normalize result = Ok (one_row label cols) ->
        evalmetrics_assemble typename body false w
        = (Ret (mkDataFrame (repeat label n)
                  (map (fun c => (fst c, spread n (snd c))) cols)), w')).
Proof.
  intros Hn (c0 & Hc0 & Hseq0) Hlen.
  assert (Hg : forall c, In c cols ->
             (is_sequence (snd c) = true
              /\ List.length (pd.explode_cell (snd c)) = n
              /\ pd.explode_cell (snd c) = spread n (snd c))
             \/ (is_sequence (snd c) = false
                 /\ List.length (pd.explode_cell (snd c)) = 1
                 /\ pd.explode_cell (snd c) = [snd c]
                 /\ spread n (snd c) = repeat (snd c) n)).
  { intros c Hc. destruct (is_sequence (snd c)) eqn:E.
    - left. destruct (snd c) as [| [| | | | l |] | |] eqn:Ec; try discriminate.
      pose proof (Hlen c l Hc Ec) as Hl. split; [reflexivity |]. split.
      + rewrite explode_cell_length by lia. exact Hl.
      + apply explode_cell_sequence. destruct l; [cbn in Hl; lia | discriminate].
    - right. rewrite (explode_cell_scalar _ E). repeat split.
      destruct (snd c) as [| [] | |]; try reflexivity. discriminate. }
  assert (Hm : fold_left Nat.max
                 (map (fun c => List.length (pd.explode_cell (snd c))) cols) 1 = n).
  { apply Nat.le_antisymm.
    - apply fold_max_le; [assumption |]. intros x Hx.
      apply in_map_iff in Hx. destruct Hx as (c & <- & Hc).
      destruct (Hg c Hc) as [(_ & -> & _) | (_ & -> & _)]; lia.
    - destruct (Hg c0 Hc0) as [(_ & Hl & _) | (E & _)]; [| congruence].
      rewrite <- Hl at 1. apply fold_max_ge_elt.
      apply (in_map (fun c => List.length (pd.explode_cell (snd c)))). assumption. }
  assert (Hex : pd.apply_explode (one_row label cols)
                = Ok (mkDataFrame (repeat label n)
                        (map (fun c => (fst c, spread n (snd c))) cols))).
  { rewrite apply_explode_one_row by (intros ->; destruct Hc0).
    rewrite Hm.
    assert (Hall : forallb
              (fun c => Nat.eqb (List.length (pd.explode_cell (snd c))) n
                        || Nat.eqb 1 (List.length (pd.explode_cell (snd c)))) cols = true).
    { apply forallb_forall. intros c Hc.
      destruct (Hg c Hc) as [(_ & -> & _) | (_ & -> & _)].
      - rewrite Nat.eqb_refl. reflexivity.
      - apply orb_true_r. }
    rewrite Hall. f_equal. f_equal. apply map_ext_in. intros c Hc. f_equal.
    destruct (Hg c Hc) as [(_ & Hl & He) | (_ & Hl & He & Hs)].
    - rewrite Hl, Nat.eqb_refl. exact He.
    - rewrite Hl, He, Hs. destruct (Nat.eqb 1 n) eqn:E.
      + apply Nat.eqb_eq in E. rewrite <- E. reflexivity.
      + unfold pd.repeat_each. cbn. apply app_nil_r. }
  split; [exact Hex |].
  intros typename body w w' response_json result Hcall Hres Hnorm.
  unfold evalmetrics_assemble.
  rewrite (bind_of_ret _ _ _ _ _ Hcall).
  rewrite (bind_of_ret _ _ _ _ _ (lift_ok _ _ _ Hres)).
  rewrite (bind_of_ret _ _ _ _ _ (lift_ok _ _ _ Hnorm)).
  apply lift_ok. exact Hex.
Qed.

(** A flattened row with two sequences of different lengths, both of two
    elements or more, cannot be expanded: the expansion raises
    [ValueError], and so do [evalmetrics] and [getprojectionhistory] on a
    response that flattens to such a row. *)
Theorem explode_unequal_lengths (label : nat) (cols : list (string * cell))
    (c1 c2 : string * cell) (l1 l2 : list json) :
  In c1 cols -> In c2 cols ->
  snd c1 = Val (JArr l1) -> snd c2 = Val (JArr l2) ->
  2 <= List.length l1 -> 2 <= List.length l2 ->
  List.length l1 <> List.length l2 ->
  pd.apply_explode (one_row label cols) = Err ValueError
  /\ (forall typename body remove_meta (w w' : world S) response_json result,
        read_data_json typename "evalmetrics" body w = (Ret response_json, w') ->
        Py.getitem response_json "result" = Ok result ->
        pd.json_normalize result = Ok (one_row label cols) ->
        evalmetrics typename body false remove_meta w = (Raise ValueError, w'))
  /\ (forall body remove_meta (w w' : world S) response_json,
        read_data_json "outbreaklocation" "getprojectionhistory" body w
        = (Ret response_json, w') ->
        pd.json_normalize response_json = Ok (one_row label cols) ->
        getprojectionhistory body remove_meta w = (Raise ValueError, w')).
Proof.
  intros H1 H2 E1 E2 Hl1 Hl2 Hne.
  assert (Hex : pd.apply_explode (one_row label cols) = Err ValueError).
  { rewrite apply_explode_one_row by (intros ->; destruct H1).
    set (m := fold_left Nat.max _ 1).
    assert (G1 : List.length (pd.explode_cell (snd c1)) = List.length l1)
      by (rewrite E1; apply explode_cell_length; lia).
    assert (G2 : List.length (pd.explode_cell (snd c2)) = List.length l2)
      by (rewrite E2; apply explode_cell_length; lia).
    assert (Hc : exists c, In c cols
                           /\ 2 <= List.length (pd.explode_cell (snd c))
                           /\ List.length (pd.explode_cell (snd c)) <> m).
    { destruct (Nat.eq_dec (List.length l1) m) as [E | E].
      - exists c2. rewrite G2. split; [assumption |]. split; [assumption | lia].
      - exists c1. rewrite G1. split; [assumption |]. split; assumption. }
    destruct Hc as (c & Hin & Hge & Hm).
    rewrite (forallb_false _ cols c Hin); [reflexivity |].
    apply orb_false_iff. split; apply Nat.eqb_neq; lia. }
  split; [exact Hex |]. split.
  - intros typename body remove_meta w w' response_json result Hcall Hres Hnorm.
    unfold evalmetrics, evalmetrics_assemble. apply bind_of_raise.
    rewrite (bind_of_ret _ _ _ _ _ Hcall).
    rewrite (bind_of_ret _ _ _ _ _ (lift_ok _ _ _ Hres)).
    rewrite (bind_of_ret _ _ _ _ _ (lift_ok _ _ _ Hnorm)).
    apply lift_err. exact Hex.
  - intros body remove_meta w w' response_json Hcall Hnorm.
    unfold getprojectionhistory, getprojectionhistory_assemble. apply bind_of_raise.
    rewrite (bind_of_ret _ _ _ _ _ Hcall).
    rewrite (bind_of_ret _ _ _ _ _ (lift_ok _ _ _ Hnorm)).
    apply lift_err. exact Hex.
Qed.

End ExplodeMixed.

Lemma explode_repeats_scalars_witness :
  fst (evalmetrics_assemble "outbreaklocation" (JObj []) false
         (start (ok_response metric_result)))
  = Ret (mkDataFrame [0; 0; 0]
           [("Illinois.Cases.type",
             [Val (JStr "Timeseries"); Val (JStr "Timeseries"); Val (JStr "Timeseries")]);
            ("Illinois.Cases.count", [Val (JNum 3); Val (JNum 3); Val (JNum 3)]);
            ("Illinois.Cases.dates", [Val (JNum 1); Val (JNum 2); Val (JNum 3)]);
            ("Illinois.Cases.data", [Val (JNum 10); Val (JNum 20); Val (JNum 30)])]).
Proof.
  assert (Hseq : exists c, In c metric_row /\ is_sequence (snd c) = true).
  { exists ("Illinois.Cases.dates", Val (JArr [JNum 1; JNum 2; JNum 3])).
    split; [right; right; left; reflexivity | reflexivity]. }
  assert (Hlen : forall (c : string * cell) l,
            In c metric_row -> snd c = Val (JArr l) -> List.length l = 3).
  { intros c l [<- | [<- | [<- | [<- | []]]]] E; inversion E; reflexivity. }
  destruct (explode_repeats_scalars (transport := constant) 0 3 metric_row
              ltac:(lia) Hseq Hlen) as [_ Hrun].
  erewrite Hrun; reflexivity.
Defined.

Lemma explode_unequal_lengths_witness :
  fst (evalmetrics "outbreaklocation" (JObj []) false true
         (start (ok_response ragged_result)))
  = Raise ValueError.
Proof.
  destruct (explode_unequal_lengths (transport := constant) (dt := epoch_ns)
              0 ragged_row
              ("dates", Val (JArr [JNum 1; JNum 2; JNum 3]))
              ("data", Val (JArr [JNum 10; JNum 20]))
              [JNum 1; JNum 2; JNum 3] [JNum 10; JNum 20]
              (or_introl eq_refl) (or_intror (or_introl eq_refl))
              eq_refl eq_refl ltac:(cbn; lia) ltac:(cbn; lia) ltac:(cbn; lia))
    as (_ & Heval & _).
  erewrite Heval; reflexivity.
Defined.

(** ** Batches that do not fit together *)

Lemma list_eqb_nat_length (l1 l2 : list nat) :
  list_eqb Nat.eqb l1 l2 = true -> List.length l1 = List.length l2.
Proof.
  revert l2. induction l1 as [| a l1 IH]; intros [| b l2]; cbn;
    try discriminate; [reflexivity |].
  intros H. apply andb_true_iff in H. destruct H as [_ H].
  rewrite (IH l2 H). reflexivity.
Qed.

Lemma repeat_not_unique (x n : nat) :
  2 <= n -> nat_is_unique (repeat x n) = false.
Proof.
  intros H. destruct n as [| [| n]]; try lia.
  cbn. rewrite Nat.eqb_refl. reflexivity.
Qed.

Lemma concat_axis1_unequal (a b : DataFrame) :
  from_one_row a -> from_one_row b ->
  2 <= nrows a -> 2 <= nrows b -> nrows a <> nrows b ->
  pd.concat_axis1 a b = Err ValueError.
Proof.
  intros Ha Hb Hna Hnb Hne. unfold pd.concat_axis1.
  assert (Ea : pd.is_empty a = false)
    by (unfold pd.is_empty; apply Nat.eqb_neq; lia).
  assert (Eb : pd.is_empty b = false)
    by (unfold pd.is_empty; apply Nat.eqb_neq; lia).
  rewrite Ea, Eb.
  destruct (list_eqb Nat.eqb (index a) (index b)) eqn:E.
  - apply list_eqb_nat_length in E. unfold nrows in Hne. congruence.
  - unfold from_one_row in Ha, Hb. rewrite Ha, Hb.
    rewrite (repeat_not_unique 0 (nrows a) Hna).
    rewrite (repeat_not_unique 0 (nrows b) Hnb). reflexivity.
Qed.

Section UnequalBatches.

Context {S : Type} {transport : Transport S}.

(** Two tables made from one row each, of different numbers of rows, both
    two or more, cannot be put side by side.  So in [evalmetrics] with
    [get_all], a batch whose series are not as long as those merged so far
    makes the pass raise [ValueError], once its call has been made. *)
Theorem evalmetrics_batch_unequal_rows :
  (forall a b,
      from_one_row a -> from_one_row b ->
      2 <= nrows a -> 2 <= nrows b -> nrows a <> nrows b ->
      pd.concat_axis1 a b = Err ValueError)
  /\ (forall typename (bd sd : dict json) (ids exprs : list json)
             (ids_start expressions_start : nat) (df : DataFrame)
             (w w' : world S) response_json (result : dict json) flat new_df,
        Py.get "spec" bd = Some (JObj sd) ->
        read_data_json typename "evalmetrics"
          (with_spec bd sd
             [("ids", JArr (Py.slice_list ids ids_start (ids_start + 10)));
              ("expressions",
               JArr (Py.slice_list exprs expressions_start (expressions_start + 4)))])
          w = (Ret response_json, w') ->
        Py.getitem response_json "result" = Ok (JObj result) ->
        pd.json_normalize (JObj result) = Ok flat ->
        pd.apply_explode flat = Ok new_df ->
        from_one_row df ->
        2 <= nrows df -> 2 <= nrows new_df -> nrows df <> nrows new_df ->
        evalmetrics_batch typename (JArr ids) (JArr exprs) ids_start expressions_start
          (JObj bd, df) w
        = (Raise ValueError, w')).
Proof.
  split; [exact concat_axis1_unequal |].
  intros typename bd sd ids exprs ids_start expressions_start df w w'
    response_json result flat new_df Hspec Hcall Hres Hnorm Hex Hdf Hn Hm Hne.
  unfold evalmetrics_batch. cbn [Py.slice fst snd].
  rewrite (bind_of_ret _ _ _ _ _ (lift_ok _ _ _ eq_refl)).
  rewrite (bind_of_ret _ _ _ _ _ (lift_ok _ _ _ eq_refl)).
  rewrite (bind_of_ret _ _ _ _ _ (lift_ok _ _ _ (update_spec_body bd sd _ Hspec))).
  rewrite (bind_of_ret _ _ _ _ _ Hcall).
  rewrite (bind_of_ret _ _ _ _ _ (lift_ok _ _ _ Hres)).
  rewrite (bind_of_ret _ _ _ _ _ (lift_ok _ _ _ Hnorm)).
  rewrite (bind_of_ret _ _ _ _ _ (lift_ok _ _ _ Hex)).
  apply bind_of_raise. apply lift_err.
  apply concat_axis1_unequal; try assumption.
  apply (batch_from_one_row result flat new_df Hnorm Hex).
Qed.

End UnequalBatches.

Lemma evalmetrics_batch_unequal_rows_witness :
  pd.concat_axis1
    (mkDataFrame [0; 0; 0] [("a.data", [Val (JNum 1); Val (JNum 2); Val (JNum 3)])])
    (mkDataFrame [0; 0] [("b.data", [Val (JNum 4); Val (JNum 5)])])
  = Err ValueError
  /\ fst (evalmetrics_batch "outbreaklocation"
            (JArr (names "id" 25)) (JArr (names "metric" 5)) 10 0
            (JObj batched_body,
             mkDataFrame [0; 0; 0]
               [("a.data", [Val (JNum 1); Val (JNum 2); Val (JNum 3)])])
            (start (map batch_answer (seq 0 6))))
     = Raise ValueError.
Proof.
  destruct (evalmetrics_batch_unequal_rows (transport := scripted)) as [Hpure Hrun].
  split.
  - apply Hpure; try reflexivity; cbn; lia.
  - erewrite (Hrun "outbreaklocation" batched_body batched_spec
                (names "id" 25) (names "metric" 5) 10 0
                (mkDataFrame [0; 0; 0]
                   [("a.data", [Val (JNum 1); Val (JNum 2); Val (JNum 3)])])
                (start (map batch_answer (seq 0 6)))).
    + reflexivity.
    + reflexivity.
    + reflexivity.
    + reflexivity.
    + reflexivity.
    + reflexivity.
    + reflexivity.
    + cbn; lia.
    + cbn; lia.
    + cbn; lia.
Defined.

(** ** What the updates of the spec change *)

(** [body['spec'].update(k1 = a, k2 = b)] on the caller's body sets the two
    fields, keeps every other field of the spec and every other field of
    the body, and what it leaves does not depend on an earlier update of
    the same two fields: the spec a pass sends is the caller's spec with
    the values of that pass. *)
Theorem update_spec_fields (bd sd : dict json) (k1 k2 : string) (a b : json) :
  k1 <> k2 ->
  Py.get "spec" bd = Some (JObj sd) ->
  exists spec',
    update_spec (JObj bd) [(k1, a); (k2, b)]
    = Ok (JObj (Py.set "spec" (JObj spec') bd))
    /\ Py.get "spec" (Py.set "spec" (JObj spec') bd) = Some (JObj spec')
    /\ Py.get k1 spec' = Some a
    /\ Py.get k2 spec' = Some b
    /\ (forall k, k <> k1 -> k <> k2 -> Py.get k spec' = Py.get k sd)
    /\ (forall k, k <> "spec" ->
          Py.get k (Py.set "spec" (JObj spec') bd) = Py.get k bd)
    /\ (forall a' b',
          update_spec (JObj (Py.set "spec" (JObj spec') bd)) [(k1, a'); (k2, b')]
          = update_spec (JObj bd) [(k1, a'); (k2, b')]).
Proof.
  intros Hne Hspec. exists (Py.update sd [(k1, a); (k2, b)]).
  split; [apply (update_spec_body bd sd _ Hspec) |].
  split; [apply get_set_same |].
  unfold Py.update. cbn [fold_left fst snd].
  split; [rewrite get_set_other by assumption; apply get_set_same |].
  split; [apply get_set_same |].
  split; [| split].
  - intros k H1 H2. rewrite !get_set_other by assumption. reflexivity.
  - intros k Hk. apply get_set_other. assumption.
  - intros a' b'.
    rewrite (update_spec_body bd sd _ Hspec).
    apply (update_spec_tracks bd sd k1 k2 _ a' b' Hne Hspec).
    right. exists a, b. reflexivity.
Qed.

Lemma update_spec_fields_witness :
  exists spec',
    update_spec
      (JObj [("spec", JObj [("filter", JStr "x"); ("limit", JNum 5)]);
             ("include", JStr "id")])
      [("limit", JNum 2000); ("offset", JNum 0)]
    = Ok (JObj (Py.set "spec" (JObj spec')
                  [("spec", JObj [("filter", JStr "x"); ("limit", JNum 5)]);
                   ("include", JStr "id")]))
    /\ Py.get "limit" spec' = Some (JNum 2000)
    /\ Py.get "filter" spec' = Some (JStr "x").
Proof.
  destruct (update_spec_fields
              [("spec", JObj [("filter", JStr "x"); ("limit", JNum 5)]);
               ("include", JStr "id")]
              [("filter", JStr "x"); ("limit", JNum 5)]
              "limit" "offset" (JNum 2000) (JNum 0)
              ltac:(discriminate) eq_refl)
    as (spec' & Hupd & _ & Hlimit & _ & Hrest & _).
  exists spec'. split; [exact Hupd |]. split; [exact Hlimit |].
  rewrite (Hrest "filter") by discriminate. reflexivity.
Defined.

(** ** Where the batches lie *)

Lemma range_aux_multiples (fuel start stop k : nat) :
  1 <= k -> stop - start <= fuel ->
  Py.range_aux fuel start stop k
  = map (fun i => start + i * k) (seq 0 (ceil_div (stop - start) k)).
Proof.
  intros Hk. revert start. induction fuel as [| fuel IH]; intros start Hf;
    cbn [Py.range_aux].
  - replace (stop - start) with 0 by lia. rewrite ceil_div_zero by lia.
    reflexivity.
  - destruct (start <? stop)%nat eqn:E.
    + apply Nat.ltb_lt in E.
      rewrite (ceil_div_step (stop - start) k) by lia.
      cbn [seq map]. f_equal; [lia |].
      rewrite IH by lia. rewrite <- seq_shift, map_map.
      replace (stop - (start + k)) with (stop - start - k) by lia.
      apply map_ext. intros i. lia.
    + apply Nat.ltb_ge in E. replace (stop - start) with 0 by lia.
      rewrite ceil_div_zero by lia. reflexivity.
Qed.

(** Batch number [i] of a list is [l[i * k : i * k + k]]: every batch but
    the last has exactly [k] elements, and a list of at most [k] elements
    is its own single batch.  With 10 for the ids and 4 for the
    expressions these are the slices [evalmetrics] sends. *)
Theorem chunks_positions {A} (k : nat) (l : list A) :
  1 <= k ->
  chunks k l
  = map (fun i => firstn k (skipn (i * k) l)) (seq 0 (ceil_div (List.length l) k))
  /\ (forall i, i * k + k <= List.length l ->
        List.length (firstn k (skipn (i * k) l)) = k)
  /\ (1 <= List.length l <= k -> chunks k l = [l]).
Proof.
  intros Hk.
  assert (Hpos : chunks k l
                 = map (fun i => firstn k (skipn (i * k) l))
                       (seq 0 (ceil_div (List.length l) k))).
  { unfold chunks, Py.range. rewrite range_aux_multiples by lia.
    rewrite map_map, Nat.sub_0_r. apply map_ext. intros i.
    rewrite slice_list_step. reflexivity. }
  split; [exact Hpos |]. split.
  - intros i Hi. rewrite length_firstn, length_skipn. lia.
  - intros Hl. rewrite Hpos.
    assert (Hc : ceil_div (List.length l) k = 1).
    { rewrite (ceil_div_step (List.length l) k) by lia.
      replace (List.length l - k) with 0 by lia.
      rewrite ceil_div_zero by lia. reflexivity. }
    rewrite Hc. cbn [seq map Nat.mul skipn]. rewrite firstn_all2 by lia.
    reflexivity.
Qed.

Lemma chunks_positions_witness :
  List.length (firstn 10 (skipn (1 * 10) (names "id" 25))) = 10
  /\ chunks 4 (names "metric" 3) = [names "metric" 3].
Proof.
  destruct (chunks_positions 10 (names "id" 25) ltac:(lia)) as (_ & Hfull & _).
  destruct (chunks_positions 4 (names "metric" 3) ltac:(lia)) as (_ & _ & Hone).
  split.
  - apply Hfull. cbn. lia.
  - apply Hone. cbn. lia.
Defined.

(** ** The Transport Call, outcome by outcome *)

Section Outcomes.

Context {S : Type} {transport : Transport S} {dt : Datetime}.

(** Every [read_data_json] sends one request and records it.  An error of
    the transport comes out as it is; a body that is not JSON raises
    [ValueError] whatever the status; with status 200 the parsed body is
    returned unchanged, [message] field or not; with another status a body
    that is JSON but not an object raises [TypeError]. *)
Theorem read_data_json_outcomes typename api body (w : world S) answer srv :
  requests_post (mkRequest (endpoint typename api) body json_headers) (server w)
  = (answer, srv) ->
  exists result,
    read_data_json typename api body w
    = (match result with Ok j => Ret j | Err e => Raise e end,
       mkWorld srv
         (calls w ++ [mkCall (mkRequest (endpoint typename api) body json_headers)
                        result]))
    /\ (forall e, answer = Err e -> result = Err e)
    /\ (forall status, answer = Ok (mkResponse status None) -> result = Err ValueError)
    /\ (forall j, answer = Ok (mkResponse 200 (Some j)) -> result = Ok j)
    /\ (forall status j,
          answer = Ok (mkResponse status (Some j)) ->
          status <> 200%Z ->
          (forall d, j <> JObj d) ->
          result = Err TypeError).
Proof.
  intros Hpost. exists (read_response answer).
  split; [| split; [| split; [| split]]].
  - rewrite (read_data_json_run _ _ _ _ _ _ Hpost).
    destruct (read_response answer); reflexivity.
  - intros e ->. reflexivity.
  - intros status ->. unfold read_response, response_json. cbn.
    destruct (negb (status =? 200)%Z); reflexivity.
  - intros j ->. reflexivity.
  - intros status j -> Hs Hj. unfold read_response, response_json. cbn.
    apply Z.eqb_neq in Hs. rewrite Hs. cbn.
    destruct j; try reflexivity. destruct (Hj d eq_refl).
Qed.

(** With [get_all], [fetch] stops at the first page whose [hasMore] is
    false as Python sees it: [null], 0, an empty string or an empty list
    end the listing like [false] does. *)
Theorem fetch_all_stops_on_falsy fuel typename (bd sd : dict json) remove_meta
    (w : world S) srv (j has_more : json) (objs : list (dict json)) :
  1 <= fuel ->
  Py.get "spec" bd = Some (JObj sd) ->
  requests_post (fetch_request typename bd sd 0) (server w)
  = (Ok (mkResponse 200 (Some j)), srv) ->
  Py.getitem j "objs" = Ok (JArr (map JObj objs)) ->
  Py.getitem j "hasMore" = Ok has_more ->
  Py.truthy has_more = false ->
  exists out,
    fetch fuel typename (JObj bd) true remove_meta w
    = (Ret out,
       mkWorld srv (calls w ++ [mkCall (fetch_request typename bd sd 0) (Ok j)]))
    /\ nrows out = List.length objs.
Proof.
  intros Hfuel Hspec Hpost Hobjs Hmore Hfalsy.
  destruct fuel as [| fuel]; [lia |].
  destruct (json_normalize_objs objs) as (new_df & Hnorm & Hrows & Hu).
  destruct (append_rows pd.empty new_df eq_refl Hu) as (df2 & Happ & Hrows2 & _).
  assert (Hupd : update_spec (JObj bd) [("limit", JNum limit); ("offset", JNum 0)]
                 = Ok (with_spec bd sd [("limit", JNum 2000); ("offset", JNum 0)]))
    by (apply update_spec_body; assumption).
  assert (Hasm : fetch_assemble (Datatypes.S fuel) typename (JObj bd) true w
                 = (Ret df2,
                    mkWorld srv
                      (calls w ++ [mkCall (fetch_request typename bd sd 0) (Ok j)]))).
  { unfold fetch_assemble. cbn [fetch_loop].
    rewrite (bind_of_ret _ _ _ _ _ (lift_ok _ _ _ Hupd)).
    rewrite (bind_of_ret _ _ _ _ _ (read_data_json_ok typename "fetch" _ w srv j Hpost)).
    rewrite (bind_of_ret _ _ _ _ _ (lift_ok _ _ _ Hobjs)).
    rewrite (bind_of_ret _ _ _ _ _ (lift_ok _ _ _ Hnorm)).
    rewrite (bind_of_ret _ _ _ _ _ (lift_ok _ _ _ Happ)).
    rewrite (bind_of_ret _ _ _ _ _ (lift_ok _ _ _ Hmore)).
    rewrite Hfalsy. reflexivity. }
  assert (Hn : nrows df2 = List.length objs).
  { rewrite Hrows2, Hrows. reflexivity. }
  unfold fetch. rewrite (bind_of_ret _ _ _ _ _ Hasm).
  destruct remove_meta.
  - rewrite drop_filter. eexists. split; [reflexivity | exact Hn].
  - exists df2. split; [reflexivity | exact Hn].
Qed.

(** With [remove_meta], every column of the table [getprojectionhistory]
    returns is the renaming of the [dates] column or of a column with
    "data", "missing" or "expr" in its name. *)
Theorem getprojectionhistory_remove_meta_columns body (w w' : world S) out :
  getprojectionhistory body true w = (Ret out, w') ->
  forall c, In c (columns out) ->
    exists c0,
      c = Py.replace c0 ".value" ""
      /\ (c0 = "dates"
          \/ Py.contains "data" c0 = true
          \/ Py.contains "missing" c0 = true
          \/ Py.contains "expr" c0 = true).
Proof.
  intros Hrun c Hc. unfold getprojectionhistory in Hrun.
  apply bind_ret_inv in Hrun. destruct Hrun as (df0 & w1 & _ & Hpost).
  apply bind_ret_inv in Hpost. destruct Hpost as (df1 & w2 & Hkeep & Hret).
  apply lift_ret_inv in Hkeep. destruct Hkeep as [Hkeep _].
  unfold ret in Hret. inversion Hret. subst out.
  apply only_keep_one_date_column_ok in Hkeep.
  destruct Hkeep as (first & cells & converted & _ & _ & _ & ->).
  unfold columns, pd.rename in Hc. cbn [data] in Hc. rewrite map_map in Hc.
  cbn [fst map] in Hc.
  destruct Hc as [<- | Hc]; [exists "dates"; split; [reflexivity | left; reflexivity] |].
  apply in_map_iff in Hc. destruct Hc as (x & <- & Hx).
  exists (fst x). split; [reflexivity | right].
  apply filter_In in Hx. destruct Hx as [Hx Hnd].
  unfold pd.filter_regex in Hx. cbn [data] in Hx.
  apply filter_In in Hx. destruct Hx as [_ Hre].
  unfold not_date in Hnd. apply negb_true_iff in Hnd.
  unfold pd.search_any in Hre. cbn [existsb] in Hre.
  rewrite Hnd in Hre. cbn [orb] in Hre. rewrite orb_false_r in Hre.
  apply orb_true_iff in Hre. destruct Hre as [H | H]; [left; exact H |].
  apply orb_true_iff in H. destruct H as [H | H]; [right; left | right; right]; exact H.
Qed.

End Outcomes.

Lemma read_data_json_outcomes_witness :
  exists result,
    read_data_json "outbreaklocation" "fetch" sample_body
      (start (Ok (mkResponse 200 (Some (JObj [("message", JStr "hello")])))))
    = (match result with Ok j => Ret j | Err e => Raise e end,
       mkWorld (Ok (mkResponse 200 (Some (JObj [("message", JStr "hello")]))))
         [mkCall (mkRequest (endpoint "outbreaklocation" "fetch") sample_body
                    json_headers) result])
    /\ result = Ok (JObj [("message", JStr "hello")]).
Proof.
  destruct (read_data_json_outcomes (transport := constant)
              "outbreaklocation" "fetch" sample_body
              (start (Ok (mkResponse 200 (Some (JObj [("message", JStr "hello")])))))
              _ _ eq_refl)
    as (result & Hrun & _ & _ & Hok & _).
  exists result. split; [exact Hrun | apply Hok; reflexivity].
Defined.

Lemma fetch_all_stops_on_falsy_witness :
  exists out,
    fetch 1 "outbreaklocation" sample_body true true
      (start [ok_response (JObj [("objs", JArr [JObj [("id", JStr "a")]]);
                                 ("hasMore", JNull)])])
    = (Ret out,
       mkWorld []
         [mkCall (fetch_request "outbreaklocation"
                    [("spec", JObj [("filter", JStr "contains(id, 'Illinois')")])]
                    [("filter", JStr "contains(id, 'Illinois')")] 0)
                 (Ok (JObj [("objs", JArr [JObj [("id", JStr "a")]]);
                            ("hasMore", JNull)]))])
    /\ nrows out = 1.
Proof.
  apply (fetch_all_stops_on_falsy (transport := scripted) 1 "outbreaklocation"
           [("spec", JObj [("filter", JStr "contains(id, 'Illinois')")])]
           [("filter", JStr "contains(id, 'Illinois')")] true
           (start [ok_response (JObj [("objs", JArr [JObj [("id", JStr "a")]]);
                                      ("hasMore", JNull)])])
           [] _ JNull [[("id", JStr "a")]]
           ltac:(lia) eq_refl eq_refl eq_refl eq_refl eq_refl).
Defined.

Lemma getprojectionhistory_remove_meta_columns_witness :
  exists c0,
    "dates" = Py.replace c0 ".value" ""
    /\ (c0 = "dates"
        \/ Py.contains "data" c0 = true
        \/ Py.contains "missing" c0 = true
        \/ Py.contains "expr" c0 = true).
Proof.
  eapply (getprojectionhistory_remove_meta_columns (transport := constant)
            (dt := epoch_ns) (JObj [])
            (start (ok_response nested_value_history))).
  - vm_compute. reflexivity.
  - left. reflexivity.
Defined.

(** ** The row labels of a paginated fetch *)

Lemma json_normalize_objs_index (objs : list (dict json)) (new_df : DataFrame) :
  pd.json_normalize (JArr (map JObj objs)) = Ok new_df ->
  index new_df = seq 0 (List.length objs).
Proof.
  destruct objs as [| d objs].
  - cbn. intros H. inversion H. reflexivity.
  - change (map JObj (d :: objs)) with (JObj d :: map JObj objs).
    cbn [pd.json_normalize].
    change (JObj d :: map JObj objs) with (map JObj (d :: objs)).
    rewrite as_records_objects. cbn [res_bind]. intros H.
    injection H as <-. unfold pd.of_records. cbn [index].
    f_equal. cbn [List.length]. f_equal. apply length_map.
Qed.

Lemma append_index (df other r : DataFrame) :
  pd.append df other = Ok r -> index r = index df ++ index other.
Proof.
  unfold pd.append.
  destruct (pd.is_empty other) eqn:E2.
  - intros H. inversion H. subst r. apply is_empty_data in E2.
    destruct E2 as [-> _]. rewrite app_nil_r. reflexivity.
  - destruct (pd.is_empty df) eqn:E1.
    + intros H. inversion H. subst r. apply is_empty_data in E1.
      destruct E1 as [-> _]. reflexivity.
    + destruct (list_eqb String.eqb (columns df) (columns other)).
      * intros H. inversion H. reflexivity.
      * destruct (is_unique (columns df) && is_unique (columns other));
          intros H; inversion H. reflexivity.
Qed.

Section FetchLabels.

Context {S : Type} {transport : Transport S}.

Lemma fetch_loop_pages_index (typename : string) (bd sd : dict json) :
  Py.get "spec" bd = Some (JObj sd) ->
  forall (pages : list (list (dict json) * bool)) (fuel : nat) (current : json)
         (k : nat) (df : DataFrame) (w : world S),
    tracks bd sd "limit" "offset" current ->
    is_unique (columns df) = true ->
    stops_at_last (map snd pages) = true ->
    Forall2 (fun answer p => is_page answer (fst p) (snd p))
      (answers (server w)
         (map (fetch_request typename bd sd) (seq k (List.length pages))))
      pages ->
    List.length pages <= fuel ->
    exists out w',
      fetch_loop fuel typename current (2000 * Z.of_nat k) df w = (Ret out, w')
      /\ index out
         = index df ++ flat_map (fun p => seq 0 (List.length (fst p))) pages.
Proof.
  intros Hspec pages.
  induction pages as [| [objs more] pages IH];
    intros fuel current k df w Htracks Hunique Hstop Hserve Hfuel.
  - discriminate.
  - destruct fuel as [| fuel]; [cbn in Hfuel; lia |].
    cbn [List.length seq map answers] in Hserve.
    destruct (requests_post (fetch_request typename bd sd k) (server w))
      as [answer srv] eqn:Hpost.
    inversion Hserve as [| ? ? ? ? Hpage Hrest]. subst.
    destruct Hpage as (j & -> & Hobjs & Hmore). cbn [fst snd] in *.
    destruct (json_normalize_objs objs) as (new_df & Hnorm & _ & Hnew).
    destruct (append_rows df new_df Hunique Hnew) as (df2 & Happ & _ & Hu2).
    pose proof (json_normalize_objs_index objs new_df Hnorm) as Hi1.
    pose proof (append_index df new_df df2 Happ) as Hi2.
    assert (Hupd : update_spec current
                     [("limit", JNum limit); ("offset", JNum (2000 * Z.of_nat k))]
                   = Ok (with_spec bd sd
                           [("limit", JNum 2000);
                            ("offset", JNum (2000 * Z.of_nat k))])).
    { apply update_spec_tracks; [discriminate | assumption | assumption]. }
    cbn [fetch_loop].
    rewrite (bind_of_ret _ _ _ _ _ (lift_ok _ _ _ Hupd)).
    rewrite (bind_of_ret _ _ _ _ _
               (read_data_json_ok typename "fetch" _ w srv j Hpost)).
    rewrite (bind_of_ret _ _ _ _ _ (lift_ok _ _ _ Hobjs)).
    rewrite (bind_of_ret _ _ _ _ _ (lift_ok _ _ _ Hnorm)).
    rewrite (bind_of_ret _ _ _ _ _ (lift_ok _ _ _ Happ)).
    rewrite (bind_of_ret _ _ _ _ _ (lift_ok _ _ _ Hmore)).
    cbn [Py.truthy].
    destruct pages as [| p pages].
    + cbn [map stops_at_last snd] in Hstop. apply negb_true_iff in Hstop.
      subst more. eexists. eexists. split; [reflexivity |].
      rewrite Hi2, Hi1. cbn [flat_map fst]. rewrite app_nil_r. reflexivity.
    + change (map snd ((objs, more) :: p :: pages))
        with (more :: map snd (p :: pages)) in Hstop.
      cbn [stops_at_last] in Hstop.
      assert (Hm : more = true /\ stops_at_last (map snd (p :: pages)) = true).
      { destruct (map snd (p :: pages)) eqn:E; [discriminate |].
        apply andb_true_iff in Hstop. exact Hstop. }
      destruct Hm as [-> Hstop'].
      assert (Hoff : (2000 * Z.of_nat k + limit = 2000 * Z.of_nat (Datatypes.S k))%Z)
        by (unfold limit; lia).
      rewrite Hoff.
      destruct (IH fuel
                  (with_spec bd sd
                     [("limit", JNum 2000); ("offset", JNum (2000 * Z.of_nat k))])
                  (Datatypes.S k) df2
                  (mkWorld srv
                     (calls w ++ [mkCall (fetch_request typename bd sd k) (Ok j)])))
        as (out & w' & Hrun & Hidx).
      * right. eauto.
      * assumption.
      * assumption.
      * exact Hrest.
      * cbn [List.length] in Hfuel |- *. lia.
      * exists out, w'. split; [exact Hrun |].
        rewrite Hidx, Hi2, Hi1.
        change (flat_map (fun p0 => seq 0 (List.length (fst p0)))
                  ((objs, true) :: p :: pages))
          with (seq 0 (List.length objs)
                ++ flat_map (fun p0 => seq 0 (List.length (fst p0))) (p :: pages)).
        rewrite app_assoc. reflexivity.
Qed.

(** The table of a paginated [fetch] keeps the row labels of every page:
    page after page, the labels start again at 0, so that they are not
    unique as soon as two pages have a record.  (The code appends without
    renumbering.) *)
Theorem fetch_all_row_labels typename (bd sd : dict json)
    (pages : list (list (dict json) * bool)) (fuel : nat) (remove_meta : bool)
    (w : world S) :
  Py.get "spec" bd = Some (JObj sd) ->
  stops_at_last (map snd pages) = true ->
  Forall2 (fun answer p => is_page answer (fst p) (snd p))
    (answers (server w)
       (map (fetch_request typename bd sd) (seq 0 (List.length pages))))
    pages ->
  List.length pages <= fuel ->
  exists out w',
    fetch fuel typename (JObj bd) true remove_meta w = (Ret out, w')
    /\ index out = flat_map (fun p => seq 0 (List.length (fst p))) pages.
Proof.
  intros Hspec Hstop Hserve Hfuel.
  destruct (fetch_loop_pages_index typename bd sd Hspec pages fuel (JObj bd) 0
              pd.empty w (or_introl eq_refl) eq_refl Hstop Hserve Hfuel)
    as (df & w' & Hrun & Hidx).
  assert (Hasm : fetch_assemble fuel typename (JObj bd) true w = (Ret df, w'))
    by exact Hrun.
  unfold fetch. rewrite (bind_of_ret _ _ _ _ _ Hasm).
  destruct remove_meta.
  - rewrite drop_filter. eexists. exists w'. split; [reflexivity | exact Hidx].
  - exists df, w'. split; [reflexivity | exact Hidx].
Qed.

End FetchLabels.

Lemma fetch_all_row_labels_witness :
  exists out w',
    fetch 3 "outbreaklocation" sample_body true true
      (start (map page_answer three_pages)) = (Ret out, w')
    /\ index out = [0; 1; 0; 0; 1; 2].
Proof.
  apply (fetch_all_row_labels (transport := scripted) "outbreaklocation"
           [("spec", JObj [("filter", JStr "contains(id, 'Illinois')")])]
           [("filter", JStr "contains(id, 'Illinois')")]
           three_pages 3 true (start (map page_answer three_pages))
           eq_refl eq_refl).
  - repeat constructor; eexists; repeat split.
  - cbn. lia.
Defined.
